(** * core_server.py: the dashboard registry, port allocation and request handlers

    A shallow embedding of [src/core_server.py].  The Flask handlers are
    functions from a request, the behaviour of the outside world during the
    request and the server state, to a response and a new server state.

    - The module-level dict [dashboard_containers] is an insertion-ordered
      association list with one binding per key, as a Python dict is.
    - The file system of the core container is a finite map from path
      strings to nodes.  Paths are compared as strings: no symbolic links,
      no normalisation of [..].
    - The Docker daemon is the trace of the calls made to it, with their
      outcomes.  What the daemon, the operating system and the port probe
      answer is not decided here: the [world] of a request gives the
      outcome of every external call, and theorems quantify over it.
    - The fields of a request body are strings or missing; the messages
      written to [app.logger] are left out.
    - An exception that reaches Flask is the answer 500. *)

From stdpp Require Import gmap strings list.
From Stdlib Require Import ZArith Lia Ascii String.

Open Scope string_scope.
Open Scope Z_scope.

(** ** Python strings *)

Module PyStr.

  (** [s.split(sep)] for a one-character separator. *)
Fixpoint split (sep : ascii) (s : string) : list string :=
    match s with
    | EmptyString => [EmptyString]
    | String c s' =>
        if Ascii.eqb c sep then EmptyString :: split sep s'
        else match split sep s' with
             | h :: t => String c h :: t
             | [] => [String c EmptyString]
             end
    end.

  (** [s.replace(old, new)] for one-character [old] and [new]. *)
Fixpoint replace (old new : ascii) (s : string) : string :=
    match s with
    | EmptyString => EmptyString
    | String c s' =>
        String (if Ascii.eqb c old then new else c) (replace old new s')
    end.

  (** [c in s] for a character [c]. *)
Fixpoint contains (c : ascii) (s : string) : bool :=
    match s with
    | EmptyString => false
    | String c' s' => Ascii.eqb c' c || contains c s'
    end.

  (** [s.startswith(c)] and [s.endswith(c)] for a character [c]. *)
Definition startswith (c : ascii) (s : string) : bool :=
    match s with
    | EmptyString => false
    | String c' _ => Ascii.eqb c' c
    end.

Fixpoint endswith (c : ascii) (s : string) : bool :=
    match s with
    | EmptyString => false
    | String c' EmptyString => Ascii.eqb c' c
    | String _ s' => endswith c s'
    end.

  (** [lst[i]] on the result of a split: [None] stands for IndexError. *)
Definition index {A} (l : list A) (i : nat) : option A := nth_error l i.

End PyStr.

(** ** [os.path] on POSIX *)

Module OsPath.

Definition sep : ascii := "/"%char.

  (** [posixpath.join(a, b)]. *)
Definition join (a b : string) : string :=
    if PyStr.startswith sep b then b
    else if orb (String.eqb a "") (PyStr.endswith sep a) then a ++ b
    else a ++ "/" ++ b.

  (** [posixpath.basename(p)]: what follows the last slash. *)
Definition basename (p : string) : string :=
    List.last (PyStr.split sep p) "".

End OsPath.

(** ** Python dicts: insertion-ordered, one binding per key *)

Module PyDict.

Definition dict (V : Type) : Type := list (string * V).

Section Ops.
Context {V : Type}.

Definition empty : dict V := [].

    (** [d.get(k)], [None] when the key is absent. *)
Fixpoint get (k : string) (d : dict V) : option V :=
      match d with
      | [] => None
      | (k', v) :: d' => if String.eqb k' k then Some v else get k d'
      end.

    (** [k in d]. *)
Definition mem (k : string) (d : dict V) : bool :=
      match get k d with Some _ => true | None => false end.

    (** The dict left by [d.pop(k)] (the popped value is [get k d]). *)
Fixpoint pop (k : string) (d : dict V) : dict V :=
      match d with
      | [] => []
      | (k', v) :: d' => if String.eqb k' k then d' else (k', v) :: pop k d'
      end.

    (** [d[k] = v]: an existing key keeps its position, a new one is
        appended. *)
Fixpoint set (k : string) (v : V) (d : dict V) : dict V :=
      match d with
      | [] => [(k, v)]
      | (k', v') :: d' =>
          if String.eqb k' k then (k', v) :: d' else (k', v') :: set k v d'
      end.

Definition keys (d : dict V) : list string := map fst d.
Definition values (d : dict V) : list V := map snd d.
Definition items (d : dict V) : list (string * V) := d.

    (** Number of bindings of [k]. *)
Definition count (k : string) (d : dict V) : nat :=
      List.length (List.filter (fun kv => String.eqb kv.1 k) d).

    (** The representation invariant of a Python dict. *)
Definition wf (d : dict V) : Prop := NoDup (keys d).

End Ops.

  (** [{f(k, v): g(k, v) for k, v in d.items() if c(k, v)}], built left to
      right from the empty dict; [f] may raise (result [None]), which aborts
      the comprehension. *)
Fixpoint comprehension_from {V W : Type}
      (c : string -> V -> bool) (f : string -> V -> option string)
      (g : string -> V -> W) (l : list (string * V)) (acc : dict W)
      : option (dict W) :=
    match l with
    | [] => Some acc
    | (k, v) :: l' =>
        if c k v then
          match f k v with
          | Some k' => comprehension_from c f g l' (set k' (g k v) acc)
          | None => None
          end
        else comprehension_from c f g l' acc
    end.

Definition comprehension {V W : Type}
      (c : string -> V -> bool) (f : string -> V -> option string)
      (g : string -> V -> W) (d : dict V) : option (dict W) :=
    comprehension_from c f g (items d) empty.

End PyDict.

Example split_abc : PyStr.split ":" "a:b:c" = ["a"; "b"; "c"].
Proof. reflexivity. Qed.
Example split_trailing : PyStr.split ":" "a:" = ["a"; ""].
Proof. reflexivity. Qed.
Example join_plain : OsPath.join "/app/configs" "u_d.json" = "/app/configs/u_d.json".
Proof. reflexivity. Qed.
Example join_abs : OsPath.join "/app/configs" "/x_d.json" = "/x_d.json".
Proof. reflexivity. Qed.
Example basename_csv : OsPath.basename "/data/in/x.csv" = "x.csv".
Proof. reflexivity. Qed.

(** ** The outside world: file system, Docker daemon, operating system *)

(** The handle of a container, as [client.containers.run] returns it. *)
Definition container : Type := nat.

(** The [config] dict of [create_dashboard], which [json.dump] writes. *)
Record config : Type := Config {
  cfg_dashboard_id : string;
  cfg_user_id : string;
  cfg_description : string;
  cfg_csv_path : option string
}.

Inductive content : Type :=
| Json (cfg : config)
| Text (s : string).

Inductive node : Type :=
| File (c : content)
| Dir.

(** One volume of [client.containers.run]: host path, bind path, mode. *)
Record volume : Type := Volume {
  vol_host : string;
  vol_bind : string;
  vol_mode : string
}.

(** The calls made to the Docker daemon, with their outcome. *)
Inductive event : Type :=
| EvRun (image : string) (port : Z) (volumes : list volume)
        (result : option container)
| EvStop (c : container) (ok : bool)
| EvRemove (c : container) (ok : bool).

(** What the world answers during one request: the outcome of the
    connection probe of each port, of opening a path for writing, of
    removing a tree or a file, and of the Docker calls. *)
Record world : Type := World {
  port_in_use : Z -> bool;
  open_ok : string -> bool;
  rmtree_ok : string -> bool;
  unlink_ok : string -> bool;
  run_result : option container;
  stop_ok : container -> bool;
  remove_ok : container -> bool
}.

(** The values of [dashboard_containers]. *)
Record info : Type := Info {
  port : Z;
  container_of : container;
  user_id : string;
  dashboard_id : string
}.

Record state : Type := State {
  dashboard_containers : PyDict.dict info;
  fs : gmap string node;
  docker : list event
}.

Definition set_containers (d : PyDict.dict info) (s : state) : state :=
  State d (fs s) (docker s).
Definition set_fs (f : gmap string node) (s : state) : state :=
  State (dashboard_containers s) f (docker s).
Definition add_event (e : event) (s : state) : state :=
  State (dashboard_containers s) (fs s) (docker s ++ [e]).

(** ** Exceptions and the handler monad *)

Inductive exn : Type :=
| NoFreePorts                       (* Exception("No free ports available") *)
| ConfigNotCreated (path : string)  (* Exception("Failed to create config file: ...") *)
| OSError (path : string)
| DockerError
| IndexError.

Inductive result (A : Type) : Type :=
| Ok (a : A)
| Raise (e : exn).
Arguments Ok {A} a.
Arguments Raise {A} e.

(** A computation reads the world, threads the server state and may raise. *)
Definition M (A : Type) : Type := world -> state -> result A * state.

Definition ret {A} (a : A) : M A := fun _ s => (Ok a, s).
Definition raise {A} (e : exn) : M A := fun _ s => (Raise e, s).
Definition bind {A B} (m : M A) (k : A -> M B) : M B :=
  fun w s =>
    match m w s with
    | (Ok a, s') => k a w s'
    | (Raise e, s') => (Raise e, s')
    end.
Definition gets {A} (f : state -> A) : M A := fun _ s => (Ok (f s), s).
Definition asks {A} (f : world -> A) : M A := fun w s => (Ok (f w), s).
Definition modify (f : state -> state) : M unit := fun _ s => (Ok tt, f s).

(** [try: m except Exception as e: h e] *)
Definition try_except {A} (m : M A) (h : exn -> M A) : M A :=
  fun w s =>
    match m w s with
    | (Ok a, s') => (Ok a, s')
    | (Raise e, s') => h e w s'
    end.

#[global] Instance M_ret : MRet M := @ret.
#[global] Instance M_bind : MBind M := fun A B k m => bind m k.

(** ** File-system calls *)

Module Os.

Definition exists_ (p : string) (f : gmap string node) : bool :=
    match f !! p with Some _ => true | None => false end.
Definition isdir (p : string) (f : gmap string node) : bool :=
    match f !! p with Some Dir => true | _ => false end.
Definition isfile (p : string) (f : gmap string node) : bool :=
    match f !! p with Some (File _) => true | _ => false end.

  (** [k] is [p] or lies below the directory [p]. *)
Definition under (p k : string) : bool :=
    String.eqb k p || String.prefix (p ++ "/") k.

  (** [shutil.rmtree(p)] *)
Definition rmtree (p : string) : M unit :=
    ok ← asks (fun w => rmtree_ok w p) ;
    if ok : bool then
      modify (fun s => set_fs (filter (fun kv => under p kv.1 = false) (fs s)) s)
    else raise (OSError p).

  (** [with open(p, "w") as f: f.write(c)]; opening a directory fails. *)
Definition write (p : string) (c : content) : M unit :=
    ok ← asks (fun w => open_ok w p) ;
    d ← gets (fun s => isdir p (fs s)) ;
    if ok && negb d then modify (fun s => set_fs (<[p := File c]> (fs s)) s)
    else raise (OSError p).

  (** [os.remove(p)]; removing a directory fails. *)
Definition remove (p : string) : M unit :=
    ok ← asks (fun w => unlink_ok w p) ;
    d ← gets (fun s => isdir p (fs s)) ;
    if ok && negb d then modify (fun s => set_fs (delete p (fs s)) s)
    else raise (OSError p).

End Os.

(** ** Docker calls *)

Module Docker.

  (** [client.containers.run(image, detach=True, ports={"8050/tcp": port},
      volumes=volumes)] *)
Definition run (image : string) (p : Z) (volumes : list volume) : M container :=
    r ← asks run_result ;
    modify (add_event (EvRun image p volumes r)) ;;
    match r with
    | Some c => ret c
    | None => raise DockerError
    end.

  (** [c.stop()] *)
Definition stop (c : container) : M unit :=
    ok ← asks (fun w => stop_ok w c) ;
    modify (add_event (EvStop c ok)) ;;
    if ok : bool then ret tt else raise DockerError.

  (** [c.remove()] *)
Definition remove (c : container) : M unit :=
    ok ← asks (fun w => remove_ok w c) ;
    modify (add_event (EvRemove c ok)) ;;
    if ok : bool then ret tt else raise DockerError.

End Docker.

(** ** Requests and responses *)

(** The JSON body of [POST /create_dashboard]; [None] is a missing field. *)
Record create_data : Type := CreateData {
  d_dashboard_id : option string;
  d_user_id : option string;
  d_description : option string;
  d_csv_path : option string
}.

(** The JSON body of [POST /remove_dashboard]. *)
Record remove_data : Type := RemoveData {
  r_dashboard_id : option string;
  r_user_id : option string
}.

Inductive body : Type :=
| ErrorRequired (msg : string)
| ErrorNotFound                               (* "Dashboard not found" *)
| ErrorException (e : exn)                    (* {"error": str(e)} *)
| ErrorFailedToStop (e : exn)                 (* "Failed to stop container: ..." *)
| InternalServerError                         (* an exception no handler caught *)
| DashboardCreated (port : Z) (dashboard_key : string)
| DashboardRemoved (dashboard_id user_id : string)
| Dashboards (dashboards : PyDict.dict Z)
| RunningDashboards (all_dashboards : PyDict.dict Z)
| Redirect (port : Z).                        (* http://localhost:{port}/ *)

Record response : Type := Response {
  resp_body : body;
  status : Z
}.

(** Flask answers 500 when the view function lets an exception escape. *)
Definition view (m : M response) (w : world) (s : state) : response * state :=
  match m w s with
  | (Ok r, s') => (r, s')
  | (Raise _, s') => (Response InternalServerError 500, s')
  end.

(** Python truth value of a request field. *)
Definition truthy (o : option string) : bool :=
  match o with
  | Some s => negb (String.eqb s "")
  | None => false
  end.

(** [range(lo, hi)] *)
Definition range (lo hi : Z) : list Z := seqZ lo (hi - lo).

(** ** The server *)

Section Server.

  (** The two environment variables read at start-up. *)
Variable HOST_CONFIGS_DIR : string.
Variable HOST_ENV_DIR : string.

Definition CONTAINER_CONFIGS_DIR : string := "/app/configs".
Definition CONTAINER_ENV_DIR : string := "/app/env".

  (** The line written to a fresh [extra.env]. *)
Definition placeholder : string :=
    "OPENAI_API_KEY=your_api_key_here" ++ String "010"%char "".

  (** [f"{user_id}:{dashboard_id}"] *)
Definition dashboard_key (user_id dashboard_id : string) : string :=
    user_id ++ ":" ++ dashboard_id.

  (** [f"{dashboard_key.replace(':', '_')}.json"] *)
Definition config_filename (key : string) : string :=
    PyStr.replace ":" "_" key ++ ".json".

  (** The ports held by the entries of the registry. *)
Definition held_ports (d : PyDict.dict info) : list Z :=
    map port (PyDict.values d).

  (** The [for] loop of [get_free_port] over the remaining ports. *)
Fixpoint scan_ports (in_use : Z -> bool) (held : list Z) (ports : list Z)
      : option Z :=
    match ports with
    | [] => None
    | p :: rest =>
        if in_use p then scan_ports in_use held rest
        else if existsb (Z.eqb p) held then scan_ports in_use held rest
        else Some p
    end.

Definition get_free_port : M Z :=
    fun w s =>
      match scan_ports (port_in_use w) (held_ports (dashboard_containers s))
                       (range 8051 8101) with
      | Some p => (Ok p, s)
      | None => (Raise NoFreePorts, s)
      end.

  (** Lines 56-57: an existing entry is popped. *)
Definition pop_existing (key : string) : M (option info) :=
    existing ← gets (fun s => PyDict.get key (dashboard_containers s)) ;
    match existing with
    | Some _ =>
        modify (fun s => set_containers (PyDict.pop key (dashboard_containers s)) s) ;;
        ret existing
    | None => ret None
    end.

  (** Lines 58-62: the container of the popped entry is stopped and removed;
      an exception there is logged and dropped. *)
Definition teardown_old (existing : option info) : M unit :=
    match existing with
    | Some existing_info =>
        try_except
          (Docker.stop (container_of existing_info) ;;
           Docker.remove (container_of existing_info))
          (fun _ => ret tt)
    | None => ret tt
    end.

  (** Lines 56-62. *)
Definition replace_existing (key : string) : M unit :=
    existing ← pop_existing key ;
    teardown_old existing.

  (** Lines 67-85: the config and the CSV volume. *)
Definition build_config (dashboard_id user_id description : string)
      (csv_path : option string) : config * PyDict.dict (string * string) :=
    match csv_path with
    | Some path =>
        if truthy csv_path then
          let container_csv_path := "/data/csvs/" ++ OsPath.basename path in
          (Config dashboard_id user_id description (Some container_csv_path),
           PyDict.set path (container_csv_path, "ro") PyDict.empty)
        else (Config dashboard_id user_id description csv_path, PyDict.empty)
    | None => (Config dashboard_id user_id description None, PyDict.empty)
    end.

  (** Lines 90-97: the config file inside the core container. *)
Definition write_config (container_config_path : string) (cfg : config) : M unit :=
    d ← gets (fun s => Os.exists_ container_config_path (fs s)
                       && Os.isdir container_config_path (fs s)) ;
    (if d : bool then Os.rmtree container_config_path else ret tt) ;;
    Os.write container_config_path (Json cfg) ;;
    f ← gets (fun s => Os.isfile container_config_path (fs s)) ;
    if f : bool then ret tt else raise (ConfigNotCreated container_config_path).

  (** Lines 102-104. *)
Definition clear_host_config (host_config_path : string) : M unit :=
    d ← gets (fun s => Os.exists_ host_config_path (fs s)
                       && Os.isdir host_config_path (fs s)) ;
    if d : bool then Os.rmtree host_config_path else ret tt.

  (** Lines 109-113: [extra.env] is written when the path does not exist. *)
Definition ensure_env (container_env_path : string) : M unit :=
    e ← gets (fun s => Os.exists_ container_env_path (fs s)) ;
    if e : bool then ret tt else Os.write container_env_path (Text placeholder).

  (** Lines 125-130: [volumes], then [volumes.update(csv_volume)]. *)
Definition build_volumes (host_config_path : string)
      (csv_volume : PyDict.dict (string * string))
      : PyDict.dict (string * string) :=
    let volumes :=
      PyDict.set (OsPath.join HOST_ENV_DIR "extra.env") ("/config/extra.env", "ro")
        (PyDict.set host_config_path ("/config/dashboard_config.json", "ro")
           PyDict.empty) in
    fold_left (fun acc kv => PyDict.set kv.1 kv.2 acc) (PyDict.items csv_volume)
              volumes.

Definition to_volumes (d : PyDict.dict (string * string)) : list volume :=
    map (fun kv => Volume kv.1 kv.2.1 kv.2.2) (PyDict.items d).

  (** Lines 65-115: everything of the [try] block before the container is
      started; returns the port and the volumes. *)
Definition provision (dashboard_id user_id description : string)
      (csv_path : option string) (key : string)
      : M (Z * list volume) :=
    let '(cfg, csv_volume) :=
      build_config dashboard_id user_id description csv_path in
    let container_config_path :=
      OsPath.join CONTAINER_CONFIGS_DIR (config_filename key) in
    write_config container_config_path cfg ;;
    let host_config_path := OsPath.join HOST_CONFIGS_DIR (config_filename key) in
    clear_host_config host_config_path ;;
    ensure_env (OsPath.join CONTAINER_ENV_DIR "extra.env") ;;
    p ← get_free_port ;
    ret (p, to_volumes (build_volumes host_config_path csv_volume)).

  (** Lines 139-151: the registry entry and the answer. *)
Definition commit (dashboard_id user_id key : string) (p : Z) (c : container)
      : M response :=
    modify (fun s => set_containers
                       (PyDict.set key (Info p c user_id dashboard_id)
                                   (dashboard_containers s)) s) ;;
    ret (Response (DashboardCreated p key) 200).

  (** Lines 64-154: the [try] block and its handler. *)
Definition create_body (dashboard_id user_id description : string)
      (csv_path : option string) (key : string) : M response :=
    try_except
      ('(p, volumes) ← provision dashboard_id user_id description csv_path key ;
       c ← Docker.run "vizro-dashboard" p volumes ;
       commit dashboard_id user_id key p c)
      (fun e => ret (Response (ErrorException e) 500)).

Definition create_dashboard (data : create_data) : world -> state -> response * state :=
    match d_dashboard_id data, d_user_id data, d_description data with
    | Some dashboard_id, Some user_id, Some description =>
        if truthy (d_dashboard_id data) && truthy (d_user_id data)
           && truthy (d_description data)
        then
          let key := dashboard_key user_id dashboard_id in
          view (replace_existing key ;;
                create_body dashboard_id user_id description (d_csv_path data) key)
        else
          fun _ s =>
            (Response (ErrorRequired "dashboard_id, user_id, and description are required") 400, s)
    | _, _, _ =>
        fun _ s =>
          (Response (ErrorRequired "dashboard_id, user_id, and description are required") 400, s)
    end.

  (** Lines 169-173: the [try] block of [remove_dashboard]; the result is the
      answer of the [except] branch, if it was taken. *)
Definition remove_teardown (i : info) : M (option response) :=
    try_except
      (Docker.stop (container_of i) ;; Docker.remove (container_of i) ;;
       ret None)
      (fun e => ret (Some (Response (ErrorFailedToStop e) 500))).

  (** Lines 176-180: the config file on the host side, and the answer. *)
Definition remove_finish (dashboard_id user_id key : string) : M response :=
    let config_file := OsPath.join HOST_CONFIGS_DIR (config_filename key) in
    e ← gets (fun s => Os.exists_ config_file (fs s)) ;
    (if e : bool then Os.remove config_file else ret tt) ;;
    ret (Response (DashboardRemoved dashboard_id user_id) 200).

  (** Lines 168-180 of [remove_dashboard], for a key that is present. *)
Definition remove_present (dashboard_id user_id key : string) (i : info)
      : M response :=
    modify (fun s => set_containers (PyDict.pop key (dashboard_containers s)) s) ;;
    failed ← remove_teardown i ;
    match failed with
    | Some r => ret r
    | None => remove_finish dashboard_id user_id key
    end.

Definition remove_dashboard (data : remove_data) : world -> state -> response * state :=
    match r_dashboard_id data, r_user_id data with
    | Some dashboard_id, Some user_id =>
        if truthy (r_dashboard_id data) && truthy (r_user_id data) then
          let key := dashboard_key user_id dashboard_id in
          view (present ← gets (fun s => PyDict.get key (dashboard_containers s)) ;
                match present with
                | None => ret (Response ErrorNotFound 404)
                | Some i => remove_present dashboard_id user_id key i
                end)
        else
          fun _ s => (Response (ErrorRequired "dashboard_id and user_id are required") 400, s)
    | _, _ =>
        fun _ s => (Response (ErrorRequired "dashboard_id and user_id are required") 400, s)
    end.

  (** The dict comprehension of [list_dashboards]. *)
Definition dashboards_of (u : string) (d : PyDict.dict info)
      : option (PyDict.dict Z) :=
    PyDict.comprehension
      (fun _ i => String.eqb (user_id i) u)
      (fun key _ => PyStr.index (PyStr.split ":" key) 1)
      (fun _ i => port i)
      d.

Definition list_dashboards (user : option string) : world -> state -> response * state :=
    if truthy user then
      match user with
      | Some u =>
          view (d ← gets dashboard_containers ;
                match dashboards_of u d with
                | Some dashboards => ret (Response (Dashboards dashboards) 200)
                | None => raise IndexError
                end)
      | None => fun _ s => (Response (ErrorRequired "user_id query parameter is required") 400, s)
      end
    else
      fun _ s => (Response (ErrorRequired "user_id query parameter is required") 400, s).

  (** Line 196: the rule [/dashboard/<user_id>/<dashboard_id>].  Its two
      variables use the default converter, which takes a non-empty part of
      the path that holds no slash; Flask calls the view only with two such
      strings, and answers a path the rule does not match itself. *)
Definition url_segment (s : string) : bool :=
    negb (String.eqb s "") && negb (PyStr.contains "/" s).

  (** Lines 197-203: the view function, on the two strings the rule hands
      it. *)
Definition route_dashboard (user_id dashboard_id : string)
      : world -> state -> response * state :=
    let key := dashboard_key user_id dashboard_id in
    view (present ← gets (fun s => PyDict.get key (dashboard_containers s)) ;
          match present with
          | None => ret (Response ErrorNotFound 404)
          | Some i => ret (Response (Redirect (port i)) 302)
          end).

Definition index : world -> state -> response * state :=
    view (d ← gets dashboard_containers ;
          ret (Response (RunningDashboards (map (fun kv => (kv.1, port kv.2)) d)) 200)).

End Server.

Arguments get_free_port : simpl never.
Arguments scan_ports : simpl never.
Arguments range : simpl never.
Arguments held_ports : simpl never.

(** ** Facts about Python dicts *)

Module PyDictFacts.
Import PyDict.

Section Facts.
Context {V : Type}.
Implicit Types (d : dict V) (k : string) (v : V).

Lemma get_set_eq k v d : get k (set k v d) = Some v.
    Proof.
      induction d as [|[k' v'] d IH]; simpl.
      - by rewrite String.eqb_refl.
      - destruct (String.eqb k' k) eqn:E; simpl; rewrite E; auto.
    Qed.

Lemma get_set_ne k k' v d : k ≠ k' -> get k' (set k v d) = get k' d.
    Proof.
      intros Hne. induction d as [|[k0 v0] d IH]; simpl.
      - destruct (String.eqb_spec k k'); congruence.
      - destruct (String.eqb_spec k0 k) as [->|]; simpl.
        + destruct (String.eqb_spec k k'); congruence.
        + destruct (String.eqb_spec k0 k'); auto.
    Qed.

Lemma get_pop_ne k k' d : k ≠ k' -> get k' (pop k d) = get k' d.
    Proof.
      intros Hne. induction d as [|[k0 v0] d IH]; simpl; [done|].
      destruct (String.eqb_spec k0 k) as [->|]; simpl.
      - destruct (String.eqb_spec k k'); congruence.
      - destruct (String.eqb_spec k0 k'); auto.
    Qed.

Lemma get_None_keys k d : get k d = None <-> k ∉ keys d.
    Proof.
      induction d as [|[k0 v0] d IH]; simpl.
      - split; [intros _; apply not_elem_of_nil | done].
      - rewrite not_elem_of_cons.
        destruct (String.eqb_spec k0 k) as [->|]; split; try done.
        + intros [? _]; done.
        + intros ?; split; [congruence | by apply IH].
        + intros [_ ?]; by apply IH.
    Qed.

Lemma get_Some_elem k v d : get k d = Some v -> (k, v) ∈ d.
    Proof.
      induction d as [|[k0 v0] d IH]; simpl; [done|].
      destruct (String.eqb_spec k0 k) as [->|].
      - intros [= ->]. apply list_elem_of_here.
      - intros ?. apply list_elem_of_further; auto.
    Qed.

Lemma elem_get_Some k v d : wf d -> (k, v) ∈ d -> get k d = Some v.
    Proof.
      unfold wf. induction d as [|[k0 v0] d IH]; simpl.
      - intros _ H. by apply elem_of_nil in H.
      - rewrite NoDup_cons. intros [Hk Hd] [[= -> ->] | Hin]%elem_of_cons.
        + by rewrite String.eqb_refl.
        + destruct (String.eqb_spec k0 k) as [->|]; [|auto].
          exfalso. apply Hk. apply list_elem_of_fmap. by exists (k, v).
    Qed.

Lemma keys_pop_subset k k' d : k' ∈ keys (pop k d) -> k' ∈ keys d.
    Proof.
      induction d as [|[k0 v0] d IH]; simpl; [done|].
      destruct (String.eqb k0 k); simpl.
      - apply list_elem_of_further.
      - rewrite !elem_of_cons. intros [?|?]; auto.
    Qed.

Lemma wf_pop k d : wf d -> wf (pop k d).
    Proof.
      unfold wf. induction d as [|[k0 v0] d IH]; simpl; [done|].
      rewrite NoDup_cons. intros [Hk Hd].
      destruct (String.eqb k0 k); simpl; [done|].
      apply NoDup_cons. split; [|auto].
      intros ?%keys_pop_subset. done.
    Qed.

Lemma get_pop_eq k d : wf d -> get k (pop k d) = None.
    Proof.
      unfold wf. induction d as [|[k0 v0] d IH]; simpl; [done|].
      rewrite NoDup_cons. intros [Hk Hd].
      destruct (String.eqb_spec k0 k) as [->|]; simpl.
      - by apply get_None_keys.
      - destruct (String.eqb_spec k0 k); [done | auto].
    Qed.

Lemma keys_set k v d :
      keys (set k v d) = if mem k d then keys d else (keys d ++ [k])%list.
    Proof.
      unfold mem. induction d as [|[k0 v0] d IH]; simpl; [done|].
      destruct (String.eqb k0 k); simpl; [done|].
      rewrite IH. by destruct (get k d).
    Qed.

Lemma wf_set k v d : wf d -> wf (set k v d).
    Proof.
      unfold wf. rewrite keys_set. unfold mem.
      destruct (get k d) eqn:E; [done|].
      intros Hd. apply NoDup_app. split_and!; [done | | apply NoDup_singleton].
      intros x Hx ->%list_elem_of_singleton. by apply get_None_keys in E.
    Qed.

Lemma elem_pop k kv d : kv ∈ pop k d -> kv ∈ d.
    Proof.
      induction d as [|[k0 v0] d IH]; simpl; [done|].
      destruct (String.eqb k0 k); simpl.
      - apply list_elem_of_further.
      - rewrite !elem_of_cons. intros [?|?]; auto.
    Qed.

Lemma elem_set k v kv d : kv ∈ set k v d -> kv = (k, v) ∨ kv ∈ d.
    Proof.
      induction d as [|[k0 v0] d IH]; simpl.
      - intros ?%list_elem_of_singleton. auto.
      - destruct (String.eqb_spec k0 k) as [->|]; simpl;
          rewrite !elem_of_cons; intros [?|?]; auto.
        destruct IH; auto.
    Qed.

Lemma count_le_1 k d : wf d -> (count k d <= 1)%nat.
    Proof.
      unfold wf, count. induction d as [|[k0 v0] d IH]; simpl; [lia|].
      rewrite NoDup_cons. intros [Hk Hd].
      destruct (String.eqb_spec k0 k) as [->|]; simpl; [|auto].
      assert (List.filter (fun kv : string * V => String.eqb kv.1 k) d = []) as ->;
        [|simpl; lia].
      clear IH Hd. induction d as [|[k1 v1] d IH]; simpl; [done|].
      simpl in Hk. rewrite not_elem_of_cons in Hk. destruct Hk as [Hne Hk].
      destruct (String.eqb_spec k1 k); [congruence | auto].
    Qed.

Lemma count_get k d :
      wf d -> count k d = match get k d with Some _ => 1%nat | None => 0%nat end.
    Proof.
      intros Hwf. pose proof (count_le_1 k d Hwf) as Hle. revert Hle.
      unfold count. clear Hwf. induction d as [|[k0 v0] d IH]; simpl; [done|].
      destruct (String.eqb_spec k0 k) as [->|]; simpl; [lia | auto].
    Qed.

End Facts.
End PyDictFacts.

(** ** Port allocation *)

(** A port is eligible when the probe finds it free and no entry holds it. *)
Definition eligible (in_use : Z -> bool) (held : list Z) (p : Z) : bool :=
  negb (in_use p) && negb (existsb (Z.eqb p) held).

Lemma existsb_eqb_elem (p : Z) (held : list Z) :
  existsb (Z.eqb p) held = true <-> p ∈ held.
Proof.
  rewrite existsb_exists, list_elem_of_In. split.
  - intros (x & Hin & ->%Z.eqb_eq). done.
  - intros Hin. exists p. by rewrite Z.eqb_refl.
Qed.

Lemma eligible_spec in_use held p :
  eligible in_use held p = true <-> in_use p = false ∧ p ∉ held.
Proof.
  unfold eligible. rewrite andb_true_iff, !negb_true_iff.
  rewrite <- existsb_eqb_elem. destruct (existsb _ _); intuition congruence.
Qed.

Lemma scan_ports_cons in_use held p rest :
  scan_ports in_use held (p :: rest) =
    if eligible in_use held p then Some p else scan_ports in_use held rest.
Proof.
  unfold eligible, scan_ports. fold scan_ports. destruct (in_use p); [done|].
  by destruct (existsb _ _).
Qed.

(** The scan of [n] consecutive ports from [lo] finds the least eligible one. *)
Lemma scan_ports_seqZ in_use held (n : nat) :
  forall lo,
    match scan_ports in_use held (seqZ lo (Z.of_nat n)) with
    | Some p =>
        lo <= p < lo + Z.of_nat n ∧ eligible in_use held p = true
        ∧ forall q, lo <= q < p -> eligible in_use held q = false
    | None => forall q, lo <= q < lo + Z.of_nat n -> eligible in_use held q = false
    end.
Proof.
  induction n as [|n IH]; intros lo.
  - simpl. intros q ?. lia.
  - rewrite seqZ_cons by lia. rewrite scan_ports_cons.
    replace (Z.pred (Z.of_nat (S n))) with (Z.of_nat n) by lia.
    destruct (eligible in_use held lo) eqn:E.
    + split_and!; [lia | lia | done | intros q ?; lia].
    + specialize (IH (Z.succ lo)).
      destruct (scan_ports in_use held (seqZ (Z.succ lo) (Z.of_nat n))) as [p|].
      * destruct IH as (Hr & He & Hmin). split_and!; [lia | lia | done |].
        intros q Hq. destruct (decide (q = lo)) as [->|]; [done|].
        apply Hmin. lia.
      * intros q Hq. destruct (decide (q = lo)) as [->|]; [done|].
        apply IH. lia.
Qed.

Lemma get_free_port_cases w s :
  match scan_ports (port_in_use w) (held_ports (dashboard_containers s))
                   (range 8051 8101) with
  | Some p => get_free_port w s = (Ok p, s)
  | None => get_free_port w s = (Raise NoFreePorts, s)
  end.
Proof. unfold get_free_port. by destruct (scan_ports _ _ _). Qed.

(** C5: for every occupancy probe and every registry, [get_free_port]
    returns port [p] exactly when [p] is the smallest port of 8051..8100 that
    is neither occupied nor held by an entry, and raises "No free ports
    available" exactly when no port of the range is eligible; it never does
    anything else and leaves the state as it was. *)
Theorem get_free_port_least_eligible (w : world) (s : state) :
  let free p :=
    port_in_use w p = false ∧ p ∉ held_ports (dashboard_containers s) in
  (forall p,
      get_free_port w s = (Ok p, s)
      <-> (8051 <= p <= 8100 ∧ free p ∧ forall q, 8051 <= q < p -> ¬ free q))
  ∧ (get_free_port w s = (Raise NoFreePorts, s)
     <-> forall q, 8051 <= q <= 8100 -> ¬ free q)
  ∧ ((exists p, get_free_port w s = (Ok p, s))
     ∨ get_free_port w s = (Raise NoFreePorts, s)).
Proof.
  intros free.
  assert (Hfree : forall p, free p <-> eligible (port_in_use w)
                    (held_ports (dashboard_containers s)) p = true).
  { intros p. symmetry. apply eligible_spec. }
  assert (Hnfree : forall p, ¬ free p <-> eligible (port_in_use w)
                    (held_ports (dashboard_containers s)) p = false).
  { intros p. rewrite Hfree. by destruct (eligible _ _ _). }
  pose proof (get_free_port_cases w s) as Hc.
  pose proof (scan_ports_seqZ (port_in_use w)
                (held_ports (dashboard_containers s)) 50 8051) as Hs.
  change (seqZ 8051 (Z.of_nat 50)) with (range 8051 8101) in Hs.
  destruct (scan_ports _ _ (range 8051 8101)) as [p0|].
  - destruct Hs as (Hr & He & Hmin). rewrite Hc. split_and!.
    + intros p. split.
      * intros [= <-]. split_and!; [lia | lia | by apply Hfree |].
        intros q Hq. apply Hnfree. by apply Hmin.
      * intros (Hp & Hf & Hm).
        destruct (Z.lt_trichotomy p p0) as [Hlt | [-> | Hgt]]; [| done |].
        -- apply Hfree in Hf. rewrite Hmin in Hf by lia. done.
        -- exfalso. apply (Hm p0); [lia | by apply Hfree].
    + split; [done|]. intros Hall. exfalso.
      apply (Hall p0); [lia | by apply Hfree].
    + left. by exists p0.
  - rewrite Hc. split_and!.
    + intros p. split; [done|]. intros (Hp & Hf & _).
      apply Hfree in Hf. rewrite Hs in Hf by lia. done.
    + split; [|done]. intros _ q Hq. apply Hnfree. apply Hs. lia.
    + by right.
Qed.

(** ** Frame reasoning for computations

    [keeps R m]: whatever the world answers and whether [m] returns or
    raises, the state [m] leaves is related by [R] to the one it started
    from. *)

Definition keeps {A} (R : state -> state -> Prop) (m : M A) : Prop :=
  forall w s, R s (m w s).2.

Section Keeps.
Variable R : state -> state -> Prop.
Hypothesis R_refl : forall s, R s s.
Hypothesis R_trans : forall s1 s2 s3, R s1 s2 -> R s2 s3 -> R s1 s3.

Lemma keeps_ret {A} (a : A) : keeps R (mret a).
  Proof. intros w s. apply R_refl. Qed.

Lemma keeps_raise {A} (e : exn) : keeps R (@raise A e).
  Proof. intros w s. apply R_refl. Qed.

Lemma keeps_gets {A} (f : state -> A) : keeps R (gets f).
  Proof. intros w s. apply R_refl. Qed.

Lemma keeps_asks {A} (f : world -> A) : keeps R (asks f).
  Proof. intros w s. apply R_refl. Qed.

Lemma keeps_modify (f : state -> state) :
    (forall s, R s (f s)) -> keeps R (modify f).
  Proof. intros Hf w s. apply Hf. Qed.

Lemma keeps_bind {A B} (m : M A) (k : A -> M B) :
    keeps R m -> (forall a, keeps R (k a)) -> keeps R (m ≫= k).
  Proof.
    intros Hm Hk w s. unfold mbind, M_bind, bind.
    specialize (Hm w s). destruct (m w s) as [[a|e] s1]; simpl in *; [|done].
    eapply R_trans; [exact Hm | apply Hk].
  Qed.

Lemma keeps_try {A} (m : M A) (h : exn -> M A) :
    keeps R m -> (forall e, keeps R (h e)) -> keeps R (try_except m h).
  Proof.
    intros Hm Hh w s. unfold try_except.
    specialize (Hm w s). destruct (m w s) as [[a|e] s1]; simpl in *; [done|].
    eapply R_trans; [exact Hm | apply Hh].
  Qed.

Lemma keeps_if {A} (b : bool) (m1 m2 : M A) :
    keeps R m1 -> keeps R m2 -> keeps R (if b then m1 else m2).
  Proof. by destruct b. Qed.

Lemma keeps_get_free_port : keeps R get_free_port.
  Proof.
    intros w s. pose proof (get_free_port_cases w s) as H.
    destruct (scan_ports _ _ _); rewrite H; apply R_refl.
  Qed.

Lemma keeps_view (m : M response) w s : keeps R m -> R s (view m w s).2.
  Proof.
    intros Hm. unfold view. specialize (Hm w s).
    by destruct (m w s) as [[a|e] s1].
  Qed.

End Keeps.

Create HintDb keeps discriminated.

(** Breaks a goal [keeps R m] down along the structure of [m]; leaves the
    [modify] steps, which are the only ones that change the state.  The
    reflexivity and transitivity of [R] come from the hint database. *)
Ltac keeps_side := solve [eauto with keeps].

Ltac keeps_step :=
  lazymatch goal with
  | |- keeps _ (_ ≫= _) => apply keeps_bind; [keeps_side .. | | intros ?]
  | |- keeps _ (try_except _ _) => apply keeps_try; [keeps_side .. | | intros ?]
  | |- keeps _ (mret _) => apply keeps_ret; keeps_side
  | |- keeps _ (ret _) => apply (keeps_ret _); keeps_side
  | |- keeps _ (raise _) => apply keeps_raise; keeps_side
  | |- keeps _ (gets _) => apply keeps_gets; keeps_side
  | |- keeps _ (asks _) => apply keeps_asks; keeps_side
  | |- keeps _ get_free_port => apply keeps_get_free_port; keeps_side
  | |- keeps _ (if _ then _ else _) => apply keeps_if
  | |- keeps _ (match ?x with Some _ => _ | None => _ end) => destruct x
  | |- keeps _ (let '(_, _) := ?x in _) => destruct x
  | |- keeps _ (modify _) => apply keeps_modify; intros ?
  end.

Ltac keeps_auto := repeat keeps_step.


(** ** Inversion of computations *)

Lemma bind_unfold {A B} (m : M A) (k : A -> M B) w s :
  (m ≫= k) w s =
    match m w s with
    | (Ok a, s') => k a w s'
    | (Raise e, s') => (Raise e, s')
    end.
Proof. reflexivity. Qed.

Lemma bind_Ok_inv {A B} (m : M A) (k : A -> M B) w s b s' :
  (m ≫= k) w s = (Ok b, s') ->
  exists a s1, m w s = (Ok a, s1) ∧ k a w s1 = (Ok b, s').
Proof.
  rewrite bind_unfold. destruct (m w s) as [[a|e] s1]; [|done].
  intros H. by exists a, s1.
Qed.

Lemma bind_Raise_inv {A B} (m : M A) (k : A -> M B) w s e s' :
  (m ≫= k) w s = (Raise e, s') ->
  m w s = (Raise e, s')
  ∨ exists a s1, m w s = (Ok a, s1) ∧ k a w s1 = (Raise e, s').
Proof.
  rewrite bind_unfold. destruct (m w s) as [[a|e0] s1]; intros H.
  - right. by exists a, s1.
  - left. by injection H as -> ->.
Qed.

(** ** What the steps of a request leave unchanged *)

Definition same_containers (s s' : state) : Prop :=
  dashboard_containers s' = dashboard_containers s.
Definition same_docker (s s' : state) : Prop := docker s' = docker s.
Definition same_fs (s s' : state) : Prop := fs s' = fs s.

Lemma same_containers_refl s : same_containers s s.
Proof. done. Qed.
Lemma same_containers_trans s1 s2 s3 :
  same_containers s1 s2 -> same_containers s2 s3 -> same_containers s1 s3.
Proof. unfold same_containers. congruence. Qed.
Lemma same_docker_refl s : same_docker s s.
Proof. done. Qed.
Lemma same_docker_trans s1 s2 s3 :
  same_docker s1 s2 -> same_docker s2 s3 -> same_docker s1 s3.
Proof. unfold same_docker. congruence. Qed.
Lemma same_fs_refl s : same_fs s s.
Proof. done. Qed.
Lemma same_fs_trans s1 s2 s3 : same_fs s1 s2 -> same_fs s2 s3 -> same_fs s1 s3.
Proof. unfold same_fs. congruence. Qed.

#[global] Hint Resolve same_containers_refl same_containers_trans
  same_docker_refl same_docker_trans same_fs_refl same_fs_trans : keeps.

Lemma rmtree_same_containers p : keeps same_containers (Os.rmtree p).
Proof. unfold Os.rmtree. keeps_auto; done. Qed.
Lemma write_same_containers p c : keeps same_containers (Os.write p c).
Proof. unfold Os.write. keeps_auto; done. Qed.
Lemma remove_same_containers p : keeps same_containers (Os.remove p).
Proof. unfold Os.remove. keeps_auto; done. Qed.
Lemma rmtree_same_docker p : keeps same_docker (Os.rmtree p).
Proof. unfold Os.rmtree. keeps_auto; done. Qed.
Lemma write_same_docker p c : keeps same_docker (Os.write p c).
Proof. unfold Os.write. keeps_auto; done. Qed.
Lemma remove_same_docker p : keeps same_docker (Os.remove p).
Proof. unfold Os.remove. keeps_auto; done. Qed.

Lemma run_same_containers img p v : keeps same_containers (Docker.run img p v).
Proof. unfold Docker.run. keeps_auto; done. Qed.
Lemma stop_same_containers c : keeps same_containers (Docker.stop c).
Proof. unfold Docker.stop. keeps_auto; done. Qed.
Lemma docker_remove_same_containers c : keeps same_containers (Docker.remove c).
Proof. unfold Docker.remove. keeps_auto; done. Qed.
Lemma run_same_fs img p v : keeps same_fs (Docker.run img p v).
Proof. unfold Docker.run. keeps_auto; done. Qed.
Lemma stop_same_fs c : keeps same_fs (Docker.stop c).
Proof. unfold Docker.stop. keeps_auto; done. Qed.
Lemma docker_remove_same_fs c : keeps same_fs (Docker.remove c).
Proof. unfold Docker.remove. keeps_auto; done. Qed.

Section ProvisionFrame.
Variable HOST_CONFIGS_DIR : string.
Variable HOST_ENV_DIR : string.

Lemma provision_same_containers d u x csv key :
  keeps same_containers (provision HOST_CONFIGS_DIR HOST_ENV_DIR d u x csv key).
Proof.
  unfold provision, write_config, clear_host_config, ensure_env.
  keeps_auto;
    first [apply rmtree_same_containers | apply write_same_containers | done].
Qed.

Lemma provision_same_docker d u x csv key :
  keeps same_docker (provision HOST_CONFIGS_DIR HOST_ENV_DIR d u x csv key).
Proof.
  unfold provision, write_config, clear_host_config, ensure_env.
  keeps_auto;
    first [apply rmtree_same_docker | apply write_same_docker | done].
Qed.

End ProvisionFrame.

(** ** What the steps of [create_dashboard] and [remove_dashboard] do *)

(** The Docker calls of a teardown: [remove] is only reached when [stop]
    returned. *)
Definition teardown_events (w : world) (c : container) : list event :=
  if stop_ok w c then [EvStop c true; EvRemove c (remove_ok w c)]
  else [EvStop c false].

Definition add_events (evs : list event) (s : state) : state :=
  State (dashboard_containers s) (fs s) (docker s ++ evs).

Lemma teardown_run c w s :
  (Docker.stop c ;; Docker.remove c) w s =
    (if stop_ok w c && remove_ok w c then Ok tt else Raise DockerError,
     add_events (teardown_events w c) s).
Proof.
  unfold Docker.stop, Docker.remove, teardown_events, add_events.
  unfold mbind, M_bind, bind, asks, modify, add_event. simpl.
  destruct (stop_ok w c); simpl; [|done].
  rewrite <- app_assoc. by destruct (remove_ok w c).
Qed.

Lemma teardown_then {A} (k : M A) c w s :
  (Docker.stop c ;; Docker.remove c ;; k) w s =
    if stop_ok w c && remove_ok w c
    then k w (add_events (teardown_events w c) s)
    else (Raise DockerError, add_events (teardown_events w c) s).
Proof.
  unfold Docker.stop, Docker.remove, teardown_events, add_events.
  unfold mbind, M_bind, bind, asks, modify, add_event. simpl.
  destruct (stop_ok w c); simpl; [|done].
  rewrite <- app_assoc. by destruct (remove_ok w c).
Qed.

Lemma pop_absent {V} k (d : PyDict.dict V) :
  PyDict.get k d = None -> PyDict.pop k d = d.
Proof.
  induction d as [|[k0 v0] d IH]; simpl; [done|].
  destruct (String.eqb k0 k); [done|]. intros ?. by rewrite IH.
Qed.

Lemma replace_existing_run key w s :
  replace_existing key w s =
    (Ok tt,
     add_events
       (match PyDict.get key (dashboard_containers s) with
        | Some i => teardown_events w (container_of i)
        | None => []
        end)
       (set_containers (PyDict.pop key (dashboard_containers s)) s)).
Proof.
  unfold replace_existing, pop_existing, teardown_old.
  rewrite bind_unfold, bind_unfold. cbn [gets].
  destruct (PyDict.get key (dashboard_containers s)) as [i|] eqn:E.
  - rewrite (bind_unfold (modify _)). cbn [modify ret].
    unfold try_except. rewrite teardown_run.
    by destruct (stop_ok w (container_of i) && remove_ok w (container_of i)).
  - rewrite pop_absent by done. destruct s. unfold add_events, set_containers.
    simpl. by rewrite app_nil_r.
Qed.

Section Create.
Variable HOST_CONFIGS_DIR : string.
Variable HOST_ENV_DIR : string.

Abbreviation provision' := (provision HOST_CONFIGS_DIR HOST_ENV_DIR).
Abbreviation create_body' := (create_body HOST_CONFIGS_DIR HOST_ENV_DIR).
Abbreviation create_dashboard' := (create_dashboard HOST_CONFIGS_DIR HOST_ENV_DIR).

(** When provisioning returns, the port is the one the scan of the registry
    finds, and neither the registry nor the Docker trace has changed. *)
Lemma provision_Ok d u x csv key w s p vols s' :
  provision' d u x csv key w s = (Ok (p, vols), s') ->
  scan_ports (port_in_use w) (held_ports (dashboard_containers s))
             (range 8051 8101) = Some p
  ∧ dashboard_containers s' = dashboard_containers s
  ∧ docker s' = docker s.
Proof.
  intros H.
  pose proof (provision_same_containers HOST_CONFIGS_DIR HOST_ENV_DIR
                d u x csv key w s) as Hc.
  pose proof (provision_same_docker HOST_CONFIGS_DIR HOST_ENV_DIR
                d u x csv key w s) as Hd.
  rewrite H in Hc, Hd. simpl in Hc, Hd. split_and!; [|done|done].
  unfold provision in H. destruct (build_config d u x csv) as [cfg csvv].
  apply bind_Ok_inv in H as ([] & s1 & H1 & H).
  apply bind_Ok_inv in H as ([] & s2 & H2 & H).
  apply bind_Ok_inv in H as ([] & s3 & H3 & H).
  apply bind_Ok_inv in H as (p' & s4 & H4 & H).
  injection H as -> _ ->.
  pose proof (get_free_port_cases w s3) as Hg.
  destruct (scan_ports (port_in_use w) (held_ports (dashboard_containers s3))
              (range 8051 8101)) as [q|] eqn:Hscan;
    rewrite Hg in H4; [|discriminate H4].
  injection H4 as -> <-. rewrite <- Hscan. f_equal. f_equal.
  symmetry. exact Hc.
Qed.

(** The two ways [create_body] can end: the entry is written after
    [containers.run] has returned, or an exception is answered with 500 and
    the registry is as it was. *)
Lemma create_body_cases d u x csv key w s r s' :
  create_body' d u x csv key w s = (r, s') ->
  (exists p c vols,
      r = Ok (Response (DashboardCreated p key) 200)
      ∧ scan_ports (port_in_use w) (held_ports (dashboard_containers s))
                   (range 8051 8101) = Some p
      ∧ run_result w = Some c
      ∧ dashboard_containers s' =
          PyDict.set key (Info p c u d) (dashboard_containers s)
      ∧ docker s' = (docker s ++ [EvRun "vizro-dashboard" p vols (Some c)])%list)
  ∨ (exists e,
        r = Ok (Response (ErrorException e) 500)
        ∧ dashboard_containers s' = dashboard_containers s
        ∧ (docker s' = docker s
           ∨ exists p vols,
               e = DockerError ∧ run_result w = None
               ∧ scan_ports (port_in_use w) (held_ports (dashboard_containers s))
                            (range 8051 8101) = Some p
               ∧ docker s' = (docker s ++ [EvRun "vizro-dashboard" p vols None])%list)).
Proof.
  unfold create_body, try_except. rewrite bind_unfold.
  pose proof (provision_same_containers HOST_CONFIGS_DIR HOST_ENV_DIR
                d u x csv key w s) as Hc.
  pose proof (provision_same_docker HOST_CONFIGS_DIR HOST_ENV_DIR
                d u x csv key w s) as Hd.
  destruct (provision' d u x csv key w s) as [[[p vols]|e] s1] eqn:Hp.
  - apply provision_Ok in Hp as (Hscan & Hreg & Hdock).
    unfold Docker.run, commit, mbind, M_bind, bind, asks, modify. simpl.
    destruct (run_result w) as [c|] eqn:Hrun; simpl.
    + intros [= <- <-]. left. exists p, c, vols. simpl.
      rewrite Hreg, Hdock. done.
    + intros [= <- <-]. right. exists DockerError. simpl.
      rewrite Hreg, Hdock. split_and!; [done | done |].
      right. by exists p, vols.
  - simpl in *. intros [= <- <-]. right. exists e. split_and!; [done | done |].
    by left.
Qed.

End Create.

(** ** More facts about the registry as a dict *)

Lemma set_absent {V} k (v : V) (d : PyDict.dict V) :
  PyDict.get k d = None -> PyDict.set k v d = (d ++ [(k, v)])%list.
Proof.
  induction d as [|[k0 v0] d IH]; simpl; [done|].
  destruct (String.eqb k0 k); [done|]. intros ?. by rewrite IH.
Qed.

Lemma held_ports_pop k p (d : PyDict.dict info) :
  p ∈ held_ports (PyDict.pop k d) -> p ∈ held_ports d.
Proof.
  unfold held_ports, PyDict.values. rewrite !list_elem_of_fmap.
  intros (i & -> & ([k' i'] & -> & Hin)%list_elem_of_fmap).
  exists i'. split; [done|]. apply list_elem_of_fmap. exists (k', i').
  split; [done|]. by eapply PyDictFacts.elem_pop.
Qed.

Lemma held_ports_pop_NoDup k (d : PyDict.dict info) :
  NoDup (held_ports d) -> NoDup (held_ports (PyDict.pop k d)).
Proof.
  induction d as [|[k0 i0] d IH]; simpl; [done|].
  change (held_ports ((k0, i0) :: d)) with (port i0 :: held_ports d).
  rewrite NoDup_cons. intros [Hnin Hd]. destruct (String.eqb k0 k); [done|].
  change (held_ports ((k0, i0) :: PyDict.pop k d))
    with (port i0 :: held_ports (PyDict.pop k d)).
  apply NoDup_cons. split; [|auto]. intros ?%held_ports_pop. done.
Qed.

Lemma held_ports_snoc k i (d : PyDict.dict info) :
  held_ports (d ++ [(k, i)])%list = (held_ports d ++ [port i])%list.
Proof. unfold held_ports, PyDict.values. by rewrite !map_app. Qed.

(** The scan never returns a port that an entry holds, and only ports of
    the range. *)
Lemma scan_ports_fresh in_use held p :
  scan_ports in_use held (range 8051 8101) = Some p ->
  8051 <= p <= 8100 ∧ in_use p = false ∧ p ∉ held.
Proof.
  intros H. pose proof (scan_ports_seqZ in_use held 50 8051) as Hs.
  change (seqZ 8051 (Z.of_nat 50)) with (range 8051 8101) in Hs.
  rewrite H in Hs. destruct Hs as (Hr & He%eligible_spec & _).
  split; [lia | done].
Qed.

(** ** The server as a transition system *)

Inductive request : Type :=
| Create (data : create_data)
| Remove (data : remove_data)
| ListDashboards (user : option string)
| Route (user_id dashboard_id : string)   (* a GET that the rule of line 196 matched *)
| Index.

Section System.
Variable HOST_CONFIGS_DIR : string.
Variable HOST_ENV_DIR : string.

Abbreviation create_dashboard' := (create_dashboard HOST_CONFIGS_DIR HOST_ENV_DIR).
Abbreviation remove_dashboard' := (remove_dashboard HOST_CONFIGS_DIR).

(** One request, served from start to end. *)
Definition handle (r : request) : world -> state -> response * state :=
  match r with
  | Create data => create_dashboard' data
  | Remove data => remove_dashboard' data
  | ListDashboards user => list_dashboards user
  | Route u d => route_dashboard u d
  | Index => index
  end.

(** The server starts with an empty registry, on any file system, before any
    Docker call; requests are then served one after the other. *)
Inductive reachable : state -> Prop :=
| reachable_init f : reachable (State PyDict.empty f [])
| reachable_step s r w : reachable s -> reachable (handle r w s).2.

(** The state after a list of requests, each with its world. *)
Fixpoint run_requests (rs : list (request * world)) (s : state) : state :=
  match rs with
  | [] => s
  | (r, w) :: rs' => run_requests rs' (handle r w s).2
  end.

Lemma run_requests_reachable rs s : reachable s -> reachable (run_requests rs s).
Proof.
  revert s. induction rs as [|[r w] rs IH]; simpl; [done|].
  intros s Hs. apply IH. by constructor.
Qed.

End System.

(** ** The outcomes of the two mutating handlers *)

Definition required_create : string :=
  "dashboard_id, user_id, and description are required".
Definition required_remove : string := "dashboard_id and user_id are required".

Section Outcomes.
Variable HOST_CONFIGS_DIR : string.
Variable HOST_ENV_DIR : string.

Abbreviation create_dashboard' := (create_dashboard HOST_CONFIGS_DIR HOST_ENV_DIR).
Abbreviation remove_dashboard' := (remove_dashboard HOST_CONFIGS_DIR).
Abbreviation create_body' := (create_body HOST_CONFIGS_DIR HOST_ENV_DIR).
Abbreviation handle' := (handle HOST_CONFIGS_DIR HOST_ENV_DIR).
Abbreviation reachable' := (reachable HOST_CONFIGS_DIR HOST_ENV_DIR).

Lemma truthy_Some s : truthy (Some s) = true <-> s ≠ "".
Proof.
  simpl. destruct (String.eqb_spec s ""); simpl; split; congruence.
Qed.

(** A request either fails validation, with 400 and no effect, or carries
    three non-empty strings. *)
Lemma create_dashboard_shape data :
  (forall w s,
      create_dashboard' data w s = (Response (ErrorRequired required_create) 400, s))
  ∨ (exists d u x,
        d ≠ "" ∧ u ≠ "" ∧ x ≠ ""
        ∧ data = CreateData (Some d) (Some u) (Some x) (d_csv_path data)
        ∧ create_dashboard' data =
            view (replace_existing (dashboard_key u d) ;;
                  create_body' d u x (d_csv_path data) (dashboard_key u d))).
Proof.
  destruct data as [[d|] [u|] [x|] csv]; unfold create_dashboard;
    try (left; reflexivity).
  cbn [d_dashboard_id d_user_id d_description d_csv_path].
  destruct (truthy (Some d)) eqn:Ed; [|left; reflexivity].
  destruct (truthy (Some u)) eqn:Eu; [|left; reflexivity].
  destruct (truthy (Some x)) eqn:Ex; [|left; reflexivity].
  right. exists d, u, x. rewrite truthy_Some in Ed, Eu, Ex. done.
Qed.

(** What a valid [create_dashboard] does: the old entry of the key is popped
    and torn down first; then either the new entry is stored under the key
    with the scanned port and the started container, or 500 is answered and
    the registry is left without the key. *)
Lemma create_dashboard_cases d u x csv w s r s' :
  d ≠ "" -> u ≠ "" -> x ≠ "" ->
  create_dashboard' (CreateData (Some d) (Some u) (Some x) csv) w s = (r, s') ->
  let key := dashboard_key u d in
  let reg0 := PyDict.pop key (dashboard_containers s) in
  let evs := match PyDict.get key (dashboard_containers s) with
             | Some i => teardown_events w (container_of i)
             | None => []
             end in
  (exists p c vols,
      r = Response (DashboardCreated p key) 200
      ∧ scan_ports (port_in_use w) (held_ports reg0) (range 8051 8101) = Some p
      ∧ run_result w = Some c
      ∧ dashboard_containers s' = PyDict.set key (Info p c u d) reg0
      ∧ docker s' =
          (docker s ++ evs ++ [EvRun "vizro-dashboard" p vols (Some c)])%list)
  ∨ (exists e,
        r = Response (ErrorException e) 500
        ∧ dashboard_containers s' = reg0
        ∧ (docker s' = (docker s ++ evs)%list
           ∨ exists p vols,
               e = DockerError ∧ run_result w = None
               ∧ scan_ports (port_in_use w) (held_ports reg0) (range 8051 8101)
                 = Some p
               ∧ docker s' =
                   (docker s ++ evs ++ [EvRun "vizro-dashboard" p vols None])%list)).
Proof.
  intros Hd Hu Hx. unfold create_dashboard.
  cbn [d_dashboard_id d_user_id d_description d_csv_path].
  apply truthy_Some in Hd, Hu, Hx. rewrite Hd, Hu, Hx.
  cbn [andb]. unfold view. rewrite bind_unfold, replace_existing_run.
  cbv zeta. intros H. set (key := dashboard_key u d) in *.
  destruct (create_body' d u x csv key w _) as [res s1] eqn:Hb.
  apply create_body_cases in Hb.
  cbn [add_events set_containers dashboard_containers docker fs] in Hb.
  destruct Hb as [(p & c & vols & -> & Hs & Hr & Hreg & Hdk)
                 | (e & -> & Hreg & Hdk)]; injection H as <- <-.
  - left. exists p, c, vols. rewrite <- app_assoc in Hdk. done.
  - right. exists e. split_and!; [done | done |].
    destruct Hdk as [Hdk | (p & vols & ? & ? & ? & Hdk)]; [by left|].
    right. exists p, vols. rewrite <- app_assoc in Hdk. done.
Qed.

(** What a valid [remove_dashboard] does. *)
Lemma remove_dashboard_cases d u w s r s' :
  d ≠ "" -> u ≠ "" ->
  remove_dashboard' (RemoveData (Some d) (Some u)) w s = (r, s') ->
  let key := dashboard_key u d in
  match PyDict.get key (dashboard_containers s) with
  | None => r = Response ErrorNotFound 404 ∧ s' = s
  | Some i =>
      dashboard_containers s' = PyDict.pop key (dashboard_containers s)
      ∧ docker s' = (docker s ++ teardown_events w (container_of i))%list
      ∧ if stop_ok w (container_of i) && remove_ok w (container_of i)
        then r = Response (DashboardRemoved d u) 200
             ∨ r = Response InternalServerError 500
        else r = Response (ErrorFailedToStop DockerError) 500 ∧ fs s' = fs s
  end.
Proof.
  intros Hd Hu. unfold remove_dashboard.
  cbn [r_dashboard_id r_user_id].
  apply truthy_Some in Hd, Hu. rewrite Hd, Hu. cbn [andb].
  unfold view. rewrite bind_unfold. cbn [gets]. cbv zeta. intros H.
  set (key := dashboard_key u d) in *.
  destruct (PyDict.get key (dashboard_containers s)) as [i|] eqn:E.
  - unfold remove_present, remove_teardown, remove_finish in H. fold key in H.
    rewrite (bind_unfold (modify _)) in H. cbn [modify] in H.
    rewrite (bind_unfold (try_except _ _)) in H. unfold try_except in H.
    rewrite teardown_then in H.
    destruct (stop_ok w (container_of i) && remove_ok w (container_of i)).
    + set (cf := OsPath.join HOST_CONFIGS_DIR (config_filename key)) in *.
      set (s0 := add_events _ _) in H.
      unfold mbind, M_bind, bind, gets, ret in H.
      destruct (Os.exists_ cf (fs s0)).
      * pose proof (remove_same_containers cf w s0) as Hc.
        pose proof (remove_same_docker cf w s0) as Hk.
        destruct (Os.remove cf w s0) as [[[]|e] s1]; injection H as <- <-;
          cbn in Hc, Hk; split_and!; auto.
      * injection H as <- <-. cbn. auto.
    + unfold ret in H. injection H as <- <-. cbn. auto.
  - unfold ret in H. by injection H as <- <-.
Qed.

Lemma remove_dashboard_shape data :
  (forall w s,
      remove_dashboard' data w s = (Response (ErrorRequired required_remove) 400, s))
  ∨ (exists d u, d ≠ "" ∧ u ≠ "" ∧ data = RemoveData (Some d) (Some u)).
Proof.
  destruct data as [[d|] [u|]]; unfold remove_dashboard;
    try (left; reflexivity).
  cbn [r_dashboard_id r_user_id].
  destruct (truthy (Some d)) eqn:Ed; [|left; reflexivity].
  destruct (truthy (Some u)) eqn:Eu; [|left; reflexivity].
  right. exists d, u. rewrite truthy_Some in Ed, Eu. done.
Qed.

(** The three query handlers leave the state as it is. *)
Lemma list_dashboards_state user w s : (list_dashboards user w s).2 = s.
Proof.
  unfold list_dashboards. destruct (truthy user); [|done].
  destruct user as [u0|]; [|done]. unfold view.
  unfold mbind, M_bind, bind, gets. by destruct (dashboards_of u0 _).
Qed.

Lemma route_dashboard_state u d w s : (route_dashboard u d w s).2 = s.
Proof.
  unfold route_dashboard, view, mbind, M_bind, bind, gets.
  by destruct (PyDict.get _ _).
Qed.

Lemma index_state w s : (index w s).2 = s.
Proof. reflexivity. Qed.

End Outcomes.

(** ** The invariant of the reachable states *)

(** [c] is the handle that some [containers.run] of the trace returned. *)
Definition started (s : state) (p : Z) (c : container) : Prop :=
  exists vols, EvRun "vizro-dashboard" p vols (Some c) ∈ docker s.

Definition entry_ok (s : state) (k : string) (i : info) : Prop :=
  k = dashboard_key (user_id i) (dashboard_id i)
  ∧ user_id i ≠ "" ∧ dashboard_id i ≠ ""
  ∧ 8051 <= port i <= 8100
  ∧ started s (port i) (container_of i).

Record Inv (s : state) : Prop := {
  inv_wf : PyDict.wf (dashboard_containers s);
  inv_ports : NoDup (held_ports (dashboard_containers s));
  inv_entries : forall k i, (k, i) ∈ dashboard_containers s -> entry_ok s k i
}.

Lemma entry_ok_mono s s' evs k i :
  docker s' = (docker s ++ evs)%list -> entry_ok s k i -> entry_ok s' k i.
Proof.
  intros Hd (? & ? & ? & ? & vols & Hin). unfold entry_ok, started.
  split_and!; try done; try lia.
  exists vols. rewrite Hd. apply elem_of_app. by left.
Qed.

Lemma Inv_init f : Inv (State PyDict.empty f []).
Proof.
  split; simpl.
  - apply NoDup_nil_2.
  - apply NoDup_nil_2.
  - intros k i H. by apply elem_of_nil in H.
Qed.

Lemma Inv_pop s s' k evs :
  Inv s ->
  dashboard_containers s' = PyDict.pop k (dashboard_containers s) ->
  docker s' = (docker s ++ evs)%list ->
  Inv s'.
Proof.
  intros [Hwf Hports Hent] Hreg Hd. split; rewrite Hreg.
  - by apply PyDictFacts.wf_pop.
  - by apply held_ports_pop_NoDup.
  - intros k' i Hin%PyDictFacts.elem_pop. eapply entry_ok_mono; eauto.
Qed.

Lemma Inv_commit s s' u d p c in_use evs vols :
  Inv s ->
  u ≠ "" -> d ≠ "" ->
  let key := dashboard_key u d in
  let reg0 := PyDict.pop key (dashboard_containers s) in
  scan_ports in_use (held_ports reg0) (range 8051 8101) = Some p ->
  dashboard_containers s' = PyDict.set key (Info p c u d) reg0 ->
  docker s' =
    (docker s ++ evs ++ [EvRun "vizro-dashboard" p vols (Some c)])%list ->
  Inv s'.
Proof.
  intros [Hwf Hports Hent] Hu Hd key reg0 Hscan Hreg Hdock.
  apply scan_ports_fresh in Hscan as (Hrange & _ & Hfresh).
  assert (PyDict.get key reg0 = None) as Habs
    by by apply PyDictFacts.get_pop_eq.
  split; rewrite Hreg.
  - apply PyDictFacts.wf_set. by apply PyDictFacts.wf_pop.
  - rewrite set_absent, held_ports_snoc by done. apply NoDup_app.
    split_and!; [by apply held_ports_pop_NoDup | | apply NoDup_singleton].
    intros q Hq ->%list_elem_of_singleton. done.
  - intros k' i [[= -> ->] | Hin]%PyDictFacts.elem_set.
    + unfold entry_ok, started. cbn [port user_id dashboard_id container_of].
      split_and!; try done; try lia.
      exists vols. rewrite Hdock, !elem_of_app.
      right. right. apply list_elem_of_singleton. done.
    + apply PyDictFacts.elem_pop in Hin. eapply entry_ok_mono; eauto.
Qed.

Section Invariant.
Variable HOST_CONFIGS_DIR : string.
Variable HOST_ENV_DIR : string.

Abbreviation create_dashboard' := (create_dashboard HOST_CONFIGS_DIR HOST_ENV_DIR).
Abbreviation remove_dashboard' := (remove_dashboard HOST_CONFIGS_DIR).
Abbreviation handle' := (handle HOST_CONFIGS_DIR HOST_ENV_DIR).
Abbreviation reachable' := (reachable HOST_CONFIGS_DIR HOST_ENV_DIR).

Lemma Inv_create data w s : Inv s -> Inv (create_dashboard' data w s).2.
Proof.
  intros HI.
  destruct (create_dashboard_shape HOST_CONFIGS_DIR HOST_ENV_DIR data)
    as [H400 | (d & u & x & Hd & Hu & Hx & Hdata & _)].
  - by rewrite H400.
  - rewrite Hdata. destruct (create_dashboard' _ w s) as [r s'] eqn:E.
    apply create_dashboard_cases in E; [|done..]. cbv zeta in E. simpl.
    destruct E as [(p & c & vols & _ & Hscan & _ & Hreg & Hdock)
                  | (e & _ & Hreg & Hdock)].
    + eapply (Inv_commit s s' u d p c); eauto.
    + destruct Hdock as [Hdock | (p & vols & _ & _ & _ & Hdock)];
        eapply Inv_pop; eauto.
Qed.

Lemma Inv_remove data w s : Inv s -> Inv (remove_dashboard' data w s).2.
Proof.
  intros HI.
  destruct (remove_dashboard_shape HOST_CONFIGS_DIR data)
    as [H400 | (d & u & Hd & Hu & ->)].
  - by rewrite H400.
  - destruct (remove_dashboard' _ w s) as [r s'] eqn:E.
    apply remove_dashboard_cases in E; [|done..]. cbv zeta in E. simpl.
    destruct (PyDict.get _ _) as [i|].
    + destruct E as (Hreg & Hdock & _). eapply Inv_pop; eauto.
    + by destruct E as [_ ->].
Qed.

Lemma Inv_handle r w s : Inv s -> Inv (handle' r w s).2.
Proof.
  destruct r as [data | data | user | u d |]; simpl.
  - apply Inv_create.
  - apply Inv_remove.
  - by rewrite list_dashboards_state.
  - by rewrite route_dashboard_state.
  - done.
Qed.

Lemma reachable_Inv s : reachable' s -> Inv s.
Proof.
  induction 1 as [f | s r w _ IH]; [apply Inv_init | by apply Inv_handle].
Qed.

End Invariant.

(** ** Concrete requests used as examples *)

Module Ex.

(** The default host directories. *)
Definition configs : string := "/app/configs".
Definition env : string := "/app/env".

(** A world in which every call succeeds and [containers.run] returns the
    handle [c]. *)
Definition calm (c : container) : world :=
  World (fun _ => false) (fun _ => true) (fun _ => true) (fun _ => true)
        (Some c) (fun _ => true) (fun _ => true).

(** As [calm], but [stop] raises. *)
Definition stop_fails (c : container) : world :=
  World (fun _ => false) (fun _ => true) (fun _ => true) (fun _ => true)
        (Some c) (fun _ => false) (fun _ => true).

(** As [calm], but [containers.run] raises. *)
Definition run_fails : world :=
  World (fun _ => false) (fun _ => true) (fun _ => true) (fun _ => true)
        None (fun _ => true) (fun _ => true).

Definition create (u d : string) : request :=
  Create (CreateData (Some d) (Some u) (Some "x") None).
Definition remove (u d : string) : request :=
  Remove (RemoveData (Some d) (Some u)).

Definition init : state := State PyDict.empty ∅ [].

(** The state after the given requests, served from [init]. *)
Definition after (rs : list (request * world)) : state :=
  run_requests configs env rs init.

Lemma after_reachable rs : reachable configs env (after rs).
Proof. apply run_requests_reachable. constructor. Defined.

End Ex.

(** ** Lookups in a registry without duplicate ports *)

Lemma held_ports_elem k i (d : PyDict.dict info) :
  (k, i) ∈ d -> port i ∈ held_ports d.
Proof.
  intros Hin. unfold held_ports, PyDict.values.
  apply list_elem_of_fmap. exists i. split; [done|].
  apply list_elem_of_fmap. by exists (k, i).
Qed.

Lemma NoDup_ports_inj (d : PyDict.dict info) k1 i1 k2 i2 :
  NoDup (held_ports d) ->
  (k1, i1) ∈ d -> (k2, i2) ∈ d -> port i1 = port i2 ->
  (k1, i1) = (k2, i2).
Proof.
  induction d as [|[k0 i0] d IH]; [by intros _ ?%elem_of_nil|].
  change (held_ports ((k0, i0) :: d)) with (port i0 :: held_ports d).
  rewrite NoDup_cons. intros [Hnin Hd].
  intros [E1 | H1]%elem_of_cons [E2 | H2]%elem_of_cons Hp.
  - congruence.
  - injection E1 as -> ->. exfalso. apply Hnin. rewrite Hp.
    by eapply held_ports_elem.
  - injection E2 as -> ->. exfalso. apply Hnin. rewrite <- Hp.
    by eapply held_ports_elem.
  - by apply IH.
Qed.

(** ** Steps that do not look at the Docker trace or at teardown outcomes *)

(** Two states with the same registry and the same file system. *)
Definition same_store (s1 s2 : state) : Prop :=
  dashboard_containers s1 = dashboard_containers s2 ∧ fs s1 = fs s2.

(** Two worlds that answer alike except, possibly, to [stop] and [remove]. *)
Definition same_but_teardown (w w' : world) : Prop :=
  (forall p, port_in_use w p = port_in_use w' p)
  ∧ (forall p, open_ok w p = open_ok w' p)
  ∧ (forall p, rmtree_ok w p = rmtree_ok w' p)
  ∧ (forall p, unlink_ok w p = unlink_ok w' p)
  ∧ run_result w = run_result w'.

Definition oblivious {A} (m : M A) : Prop :=
  forall w w' s1 s2,
    same_but_teardown w w' -> same_store s1 s2 ->
    (m w s1).1 = (m w' s2).1 ∧ same_store (m w s1).2 (m w' s2).2.

Lemma oblivious_ret {A} (a : A) : oblivious (mret a).
Proof. by intros w w' s1 s2 Hw Hs. Qed.

Lemma oblivious_raise {A} (e : exn) : oblivious (@raise A e).
Proof. by intros w w' s1 s2 Hw Hs. Qed.

Lemma oblivious_gets {A} (f : state -> A) :
  (forall s1 s2, same_store s1 s2 -> f s1 = f s2) -> oblivious (gets f).
Proof. intros Hf w w' s1 s2 Hw Hs. simpl. by rewrite (Hf s1 s2). Qed.

Lemma oblivious_asks {A} (f : world -> A) :
  (forall w w', same_but_teardown w w' -> f w = f w') -> oblivious (asks f).
Proof. intros Hf w w' s1 s2 Hw Hs. simpl. by rewrite (Hf w w'). Qed.

Lemma oblivious_modify (f : state -> state) :
  (forall s1 s2, same_store s1 s2 -> same_store (f s1) (f s2)) ->
  oblivious (modify f).
Proof. intros Hf w w' s1 s2 Hw Hs. simpl. auto. Qed.

Lemma oblivious_bind {A B} (m : M A) (k : A -> M B) :
  oblivious m -> (forall a, oblivious (k a)) -> oblivious (m ≫= k).
Proof.
  intros Hm Hk w w' s1 s2 Hw Hs. unfold mbind, M_bind, bind.
  destruct (Hm w w' s1 s2 Hw Hs) as [Hr Hs'].
  destruct (m w s1) as [[a|e] t1], (m w' s2) as [[a'|e'] t2];
    simpl in *; try discriminate.
  - injection Hr as ->. by apply Hk.
  - by injection Hr as ->.
Qed.

Lemma oblivious_try {A} (m : M A) (h : exn -> M A) :
  oblivious m -> (forall e, oblivious (h e)) -> oblivious (try_except m h).
Proof.
  intros Hm Hh w w' s1 s2 Hw Hs. unfold try_except.
  destruct (Hm w w' s1 s2 Hw Hs) as [Hr Hs'].
  destruct (m w s1) as [[a|e] t1], (m w' s2) as [[a'|e'] t2];
    simpl in *; try discriminate.
  - by injection Hr as ->.
  - injection Hr as ->. by apply Hh.
Qed.

Lemma oblivious_if {A} (b : bool) (m1 m2 : M A) :
  oblivious m1 -> oblivious m2 -> oblivious (if b then m1 else m2).
Proof. by destruct b. Qed.

Lemma scan_ports_ext f g held l :
  (forall p, f p = g p) -> scan_ports f held l = scan_ports g held l.
Proof.
  intros Hfg. induction l as [|p l IH]; [done|].
  rewrite !scan_ports_cons, IH. unfold eligible. by rewrite Hfg.
Qed.

Lemma oblivious_get_free_port : oblivious get_free_port.
Proof.
  intros w w' s1 s2 (Hp & _) Hs. pose proof Hs as [Hreg _].
  pose proof (get_free_port_cases w s1) as H1.
  pose proof (get_free_port_cases w' s2) as H2.
  rewrite <- Hreg, <- (scan_ports_ext _ _ _ _ Hp) in H2.
  destruct (scan_ports _ _ _); rewrite H1, H2; simpl; by split.
Qed.

Ltac oblivious_side :=
  solve [ intros ? ? [? ?]; simpl; congruence
        | intros ? ? (? & ? & ? & ? & ?); simpl; congruence
        | intros ? ? [? ?]; split; simpl; congruence ].

Ltac oblivious_step :=
  lazymatch goal with
  | |- oblivious (_ ≫= _) => apply oblivious_bind; [| intros ?]
  | |- oblivious (try_except _ _) => apply oblivious_try; [| intros ?]
  | |- oblivious (mret _) => apply oblivious_ret
  | |- oblivious (ret _) => apply (oblivious_ret _)
  | |- oblivious (raise _) => apply oblivious_raise
  | |- oblivious (gets _) => apply oblivious_gets; oblivious_side
  | |- oblivious (asks _) => apply oblivious_asks; oblivious_side
  | |- oblivious get_free_port => apply oblivious_get_free_port
  | |- oblivious (if _ then _ else _) => apply oblivious_if
  | |- oblivious (match ?x with Some _ => _ | None => _ end) => destruct x
  | |- oblivious (let '(_, _) := ?x in _) => destruct x
  | |- oblivious (modify _) => apply oblivious_modify; oblivious_side
  end.

Lemma oblivious_create_body H1 H2 d u x csv key :
  oblivious (create_body H1 H2 d u x csv key).
Proof.
  unfold create_body, provision, write_config, clear_host_config, ensure_env,
    commit, Os.rmtree, Os.write, Docker.run.
  repeat oblivious_step.
Qed.

Section Replace.
Variable HOST_CONFIGS_DIR : string.
Variable HOST_ENV_DIR : string.

Abbreviation create_dashboard' := (create_dashboard HOST_CONFIGS_DIR HOST_ENV_DIR).
Abbreviation create_body' := (create_body HOST_CONFIGS_DIR HOST_ENV_DIR).
Abbreviation reachable' := (reachable HOST_CONFIGS_DIR HOST_ENV_DIR).

(** The state in which the [try] block of [create_dashboard] starts. *)
Definition after_replace (key : string) (w : world) (s : state) : state :=
  (replace_existing key w s).2.

Lemma after_replace_store key w w' s :
  same_store (after_replace key w s) (after_replace key w' s).
Proof. unfold after_replace. rewrite !replace_existing_run. by split. Qed.

Lemma after_replace_containers key w s :
  dashboard_containers (after_replace key w s) =
    PyDict.pop key (dashboard_containers s).
Proof. unfold after_replace. by rewrite replace_existing_run. Qed.

Lemma create_dashboard_unfold d u x csv w s :
  d ≠ "" -> u ≠ "" -> x ≠ "" ->
  create_dashboard' (CreateData (Some d) (Some u) (Some x) csv) w s =
    view (create_body' d u x csv (dashboard_key u d)) w
         (after_replace (dashboard_key u d) w s).
Proof.
  intros Hd%truthy_Some Hu%truthy_Some Hx%truthy_Some.
  unfold create_dashboard, after_replace.
  cbn [d_dashboard_id d_user_id d_description d_csv_path].
  rewrite Hd, Hu, Hx. cbn [andb]. unfold view.
  rewrite bind_unfold, replace_existing_run. done.
Qed.

(** C6: when [create_dashboard] is called for a key that has an entry, the
    entry is popped before the [try] block starts, whatever [stop] and
    [remove] answer; the answer and the registry are the same in any world
    that differs only in those two outcomes; and the call ends either with
    200 and exactly one entry for the key, the new one, or with 500 and no
    entry for the key. *)
Theorem create_replaces_existing (d u x : string) (csv : option string)
    (w : world) (s s' : state) (old : info) (r : response) :
  reachable' s ->
  d ≠ "" -> u ≠ "" -> x ≠ "" ->
  PyDict.get (dashboard_key u d) (dashboard_containers s) = Some old ->
  create_dashboard' (CreateData (Some d) (Some u) (Some x) csv) w s = (r, s') ->
  let key := dashboard_key u d in
  let s1 := after_replace key w s in
  (PyDict.get key (dashboard_containers s1) = None
   ∧ (r, s') = view (create_body' d u x csv key) w s1)
  ∧ (forall w',
        same_but_teardown w w' ->
        let out := create_dashboard' (CreateData (Some d) (Some u) (Some x) csv) w' s in
        out.1 = r ∧ dashboard_containers out.2 = dashboard_containers s')
  ∧ ((exists p c,
         r = Response (DashboardCreated p key) 200
         ∧ run_result w = Some c
         ∧ PyDict.get key (dashboard_containers s') = Some (Info p c u d)
         ∧ PyDict.count key (dashboard_containers s') = 1%nat)
     ∨ (exists e,
           r = Response (ErrorException e) 500
           ∧ PyDict.get key (dashboard_containers s') = None
           ∧ PyDict.count key (dashboard_containers s') = 0%nat)).
Proof.
  intros [Hwf _ _]%reachable_Inv Hd Hu Hx Hold Hrun key s1.
  assert (Hpop : PyDict.get key (PyDict.pop key (dashboard_containers s)) = None)
    by by apply PyDictFacts.get_pop_eq.
  split_and!.
  - subst s1. by rewrite after_replace_containers.
  - rewrite <- Hrun. by apply create_dashboard_unfold.
  - intros w' Hw out. subst out.
    rewrite create_dashboard_unfold in Hrun |- * by done.
    fold key in Hrun |- *.
    destruct (oblivious_create_body HOST_CONFIGS_DIR HOST_ENV_DIR d u x csv key
                w w' _ _ Hw (after_replace_store key w w' s)) as [Hres [Hreg _]].
    unfold view in *.
    destruct (create_body' d u x csv key w _) as [[a|e] t1];
      destruct (create_body' d u x csv key w' _) as [[a'|e'] t2];
      simpl in *; try discriminate; injection Hrun as <- <-; split;
      congruence.
  - apply create_dashboard_cases in Hrun; [|done..]. cbv zeta in Hrun.
    fold key in Hrun.
    destruct Hrun as [(p & c & vols & -> & _ & Hc & Hreg & _)
                     | (e & -> & Hreg & _)].
    + left. exists p, c. split_and!; [done | done | |].
      * rewrite Hreg. apply PyDictFacts.get_set_eq.
      * rewrite PyDictFacts.count_get, Hreg, PyDictFacts.get_set_eq; [done|].
        rewrite Hreg. by apply PyDictFacts.wf_set, PyDictFacts.wf_pop.
    + right. exists e. split_and!; [done | by rewrite Hreg |].
      rewrite PyDictFacts.count_get, Hreg, Hpop; [done|].
      rewrite Hreg. by apply PyDictFacts.wf_pop.
Qed.

End Replace.

Lemma create_replaces_existing_witness :
  let s := Ex.after [(Ex.create "u1" "d1", Ex.calm 7%nat)] in
  let out := create_dashboard Ex.configs Ex.env
               (CreateData (Some "d1") (Some "u1") (Some "x") None)
               (Ex.stop_fails 8%nat) s in
  out.1 = Response (DashboardCreated 8051 "u1:d1") 200
  ∧ PyDict.get "u1:d1" (dashboard_containers out.2)
    = Some (Info 8051 8%nat "u1" "d1")
  ∧ PyDict.count "u1:d1" (dashboard_containers out.2) = 1%nat.
Proof.
  intros s out.
  destruct (create_replaces_existing Ex.configs Ex.env "d1" "u1" "x" None
              (Ex.stop_fails 8%nat) s out.2 (Info 8051 7%nat "u1" "d1") out.1)
    as (_ & _ & [(p & c & Hr & Hc & Hg & Hn) | (e & Hr & _)]).
  - apply Ex.after_reachable.
  - discriminate.
  - discriminate.
  - discriminate.
  - vm_compute. reflexivity.
  - vm_compute. reflexivity.
  - split_and!; [vm_compute; reflexivity | vm_compute; reflexivity | exact Hn].
  - vm_compute in Hr. discriminate Hr.
Defined.

(** ** Failures of the Docker calls *)

(** The Docker calls made between two states. *)
Definition new_events (s s' : state) : list event :=
  drop (List.length (docker s)) (docker s').

Lemma new_events_app s s' evs :
  docker s' = (docker s ++ evs)%list -> new_events s s' = evs.
Proof. intros H. unfold new_events. rewrite H. by rewrite drop_app_length. Qed.

Lemma teardown_events_no_run w c img p vols res :
  EvRun img p vols res ∉ teardown_events w c.
Proof.
  unfold teardown_events. destruct (stop_ok w c);
    rewrite ?not_elem_of_cons; split_and?; try done; apply not_elem_of_nil.
Qed.

Section Failures.
Variable HOST_CONFIGS_DIR : string.
Variable HOST_ENV_DIR : string.

Abbreviation create_dashboard' := (create_dashboard HOST_CONFIGS_DIR HOST_ENV_DIR).
Abbreviation remove_dashboard' := (remove_dashboard HOST_CONFIGS_DIR).
Abbreviation reachable' := (reachable HOST_CONFIGS_DIR HOST_ENV_DIR).

(** C1, as the code has it: when [stop] or [remove] raises inside
    [remove_dashboard], the answer is 500 "Failed to stop container", and the
    entry, popped before the calls, is gone: [route_dashboard] answers 404
    for the key afterwards.  The other entries and the files are
    untouched. *)
Theorem remove_failure_drops_entry (d u : string) (w : world) (s s' : state)
    (i : info) (r : response) :
  reachable' s ->
  d ≠ "" -> u ≠ "" ->
  PyDict.get (dashboard_key u d) (dashboard_containers s) = Some i ->
  stop_ok w (container_of i) && remove_ok w (container_of i) = false ->
  remove_dashboard' (RemoveData (Some d) (Some u)) w s = (r, s') ->
  r = Response (ErrorFailedToStop DockerError) 500
  ∧ PyDict.get (dashboard_key u d) (dashboard_containers s') = None
  ∧ (forall w', route_dashboard u d w' s' = (Response ErrorNotFound 404, s'))
  ∧ (forall k, k ≠ dashboard_key u d ->
               PyDict.get k (dashboard_containers s')
               = PyDict.get k (dashboard_containers s))
  ∧ fs s' = fs s
  ∧ docker s' = (docker s ++ teardown_events w (container_of i))%list.
Proof.
  intros [Hwf _ _]%reachable_Inv Hd Hu Hget Hfail Hrun.
  apply remove_dashboard_cases in Hrun; [|done..]. cbv zeta in Hrun.
  rewrite Hget, Hfail in Hrun. destruct Hrun as (Hreg & Hdock & -> & Hfs).
  assert (PyDict.get (dashboard_key u d) (dashboard_containers s') = None) as Hnone.
  { rewrite Hreg. by apply PyDictFacts.get_pop_eq. }
  split_and!; try done.
  - intros w'. unfold route_dashboard, view, mbind, M_bind, bind, gets, ret.
    by rewrite Hnone.
  - intros k Hk. rewrite Hreg. by apply PyDictFacts.get_pop_ne.
Qed.

(** C2: when [containers.run] raises inside [create_dashboard], the answer
    is 500 with the exception, the registry has no entry for the key, no
    entry holds the port that was scanned for the call, and a later scan
    under the same occupancy of the ports returns that same port. *)
Theorem create_start_failure_rolls_back (d u x : string) (csv : option string)
    (w : world) (s s' : state) (r : response)
    (img : string) (p : Z) (vols : list volume) :
  reachable' s ->
  create_dashboard' (CreateData (Some d) (Some u) (Some x) csv) w s = (r, s') ->
  EvRun img p vols None ∈ new_events s s' ->
  r = Response (ErrorException DockerError) 500
  ∧ PyDict.get (dashboard_key u d) (dashboard_containers s') = None
  ∧ (p ∉ held_ports (dashboard_containers s'))
  ∧ (forall w', (forall q, port_in_use w' q = port_in_use w q) ->
                get_free_port w' s' = (Ok p, s')).
Proof.
  intros [Hwf _ _]%reachable_Inv Hrun Hev.
  destruct (create_dashboard_shape HOST_CONFIGS_DIR HOST_ENV_DIR
              (CreateData (Some d) (Some u) (Some x) csv))
    as [H400 | (d' & u' & x' & Hd & Hu & Hx & [= <- <- <-] & _)].
  { rewrite H400 in Hrun. injection Hrun as <- <-.
    unfold new_events in Hev. rewrite drop_all in Hev.
    by apply elem_of_nil in Hev. }
  apply create_dashboard_cases in Hrun; [|done..]. cbv zeta in Hrun.
  set (key := dashboard_key u d) in *.
  set (evs := match PyDict.get key _ with Some _ => _ | None => _ end) in *.
  assert (Hevs : forall res, EvRun img p vols res ∉ evs).
  { intros res. subst evs. destruct (PyDict.get key _).
    - apply teardown_events_no_run.
    - apply not_elem_of_nil. }
  destruct Hrun as [(p0 & c & vols0 & _ & _ & _ & _ & Hdock)
                   | (e & -> & Hreg & [Hdock | (p0 & vols0 & -> & _ & Hscan & Hdock)])].
  - rewrite (new_events_app _ _ _ Hdock), elem_of_app in Hev.
    destruct Hev as [Hev | Hev%list_elem_of_singleton];
      [by apply Hevs in Hev | discriminate].
  - rewrite (new_events_app _ _ _ Hdock) in Hev. by apply Hevs in Hev.
  - rewrite (new_events_app _ _ _ Hdock), elem_of_app in Hev.
    destruct Hev as [Hev | Hev%list_elem_of_singleton]; [by apply Hevs in Hev|].
    injection Hev as -> -> ->. rewrite Hreg.
    pose proof (scan_ports_fresh _ _ _ Hscan) as (_ & _ & Hfresh).
    split_and!; [done | by apply PyDictFacts.get_pop_eq | done |].
    intros w' Hw'. pose proof (get_free_port_cases w' s') as Hg.
    rewrite Hreg, (scan_ports_ext _ _ _ _ Hw'), Hscan in Hg. done.
Qed.

End Failures.

(** C1 as the spec states it fails: after a remove whose [stop] raises, the
    entry that was there is not retrievable any more. *)
Lemma remove_failure_keeps_entry_counterexample :
  let s := Ex.after [(Ex.create "u1" "d1", Ex.calm 7%nat)] in
  let w := Ex.stop_fails 0%nat in
  let out := remove_dashboard Ex.configs (RemoveData (Some "d1") (Some "u1")) w s in
  PyDict.get "u1:d1" (dashboard_containers s) = Some (Info 8051 7%nat "u1" "d1")
  ∧ stop_ok w 7%nat = false
  ∧ out.1 = Response (ErrorFailedToStop DockerError) 500
  ∧ PyDict.get "u1:d1" (dashboard_containers out.2) = None
  ∧ (route_dashboard "u1" "d1" w out.2).1 = Response ErrorNotFound 404.
Proof. vm_compute. split_and!; reflexivity. Qed.

Lemma remove_failure_drops_entry_witness :
  let s := Ex.after [(Ex.create "u1" "d1", Ex.calm 7%nat)] in
  let w := Ex.stop_fails 0%nat in
  let out := remove_dashboard Ex.configs (RemoveData (Some "d1") (Some "u1")) w s in
  PyDict.get "u1:d1" (dashboard_containers out.2) = None.
Proof.
  intros s w out.
  destruct (remove_failure_drops_entry Ex.configs Ex.env "d1" "u1" w s out.2
              (Info 8051 7%nat "u1" "d1") out.1) as (_ & H & _).
  - apply Ex.after_reachable.
  - discriminate.
  - discriminate.
  - vm_compute. reflexivity.
  - vm_compute. reflexivity.
  - vm_compute. reflexivity.
  - exact H.
Defined.

Lemma create_start_failure_rolls_back_witness :
  let s := Ex.after [(Ex.create "u1" "d1", Ex.calm 7%nat)] in
  let out := create_dashboard Ex.configs Ex.env
               (CreateData (Some "d2") (Some "u2") (Some "x") None)
               Ex.run_fails s in
  get_free_port (Ex.calm 9%nat) out.2 = (Ok 8052, out.2).
Proof.
  intros s out.
  destruct (create_start_failure_rolls_back Ex.configs Ex.env "d2" "u2" "x"
              None Ex.run_fails s out.2 out.1 "vizro-dashboard" 8052
              [Volume "/app/configs/u2_d2.json" "/config/dashboard_config.json" "ro";
               Volume "/app/env/extra.env" "/config/extra.env" "ro"])
    as (_ & _ & _ & H).
  - apply Ex.after_reachable.
  - vm_compute. reflexivity.
  - vm_compute. apply list_elem_of_here.
  - apply H. reflexivity.
Defined.

(** ** Paths: the config files never touch [extra.env] *)

Lemma append_assoc' (a b c : string) : (a ++ b) ++ c = a ++ (b ++ c).
Proof.
  induction a as [|x a IH]; [done|].
  change (String x ((a ++ b) ++ c) = String x (a ++ (b ++ c))). by rewrite IH.
Qed.

(** [pat] occurs somewhere in [s]. *)
Fixpoint occurs (pat s : string) : bool :=
  String.prefix pat s
  || match s with
     | EmptyString => false
     | String _ s' => occurs pat s'
     end.

Lemma prefix_append (a r : string) : String.prefix a (a ++ r) = true.
Proof.
  induction a as [|x a IH]; [by destruct r|].
  change (String x a ++ r) with (String x (a ++ r)). simpl.
  destruct (ascii_dec x x); [done | congruence].
Qed.

Lemma prefix_split (a s : string) :
  String.prefix a s = true -> exists r, s = a ++ r.
Proof.
  revert s. induction a as [|x a IH]; intros s.
  - intros _. by exists s.
  - destruct s as [|y s]; simpl; [done|].
    destruct (ascii_dec x y) as [->|]; [|done].
    intros [r ->]%IH. by exists r.
Qed.

Lemma occurs_append (t pat r : string) : occurs pat (t ++ pat ++ r) = true.
Proof.
  induction t as [|x t IH].
  - change ("" ++ pat ++ r) with (pat ++ r).
    assert (forall s, occurs pat s = String.prefix pat s
              || match s with EmptyString => false | String _ s' => occurs pat s' end)
      as -> by by intros [].
    by rewrite prefix_append.
  - change (String x t ++ pat ++ r) with (String x (t ++ pat ++ r)).
    simpl. rewrite IH. apply orb_true_r.
Qed.

Definition ends_json (p : string) : Prop := exists t, p = t ++ ".json".

Lemma config_filename_ends_json key : ends_json (config_filename key).
Proof. by eexists. Qed.

Lemma join_ends_json a f : ends_json f -> ends_json (OsPath.join a f).
Proof.
  intros [t ->]. unfold OsPath.join.
  destruct (PyStr.startswith _ _); [by exists t|].
  destruct (_ || _).
  - exists (a ++ t). by rewrite append_assoc'.
  - exists (a ++ "/" ++ t). by rewrite !append_assoc'.
Qed.

(** The path of the secrets file inside the core container. *)
Definition env_path : string := OsPath.join CONTAINER_ENV_DIR "extra.env".

Lemma ends_json_not_env p : ends_json p -> p ≠ env_path.
Proof.
  intros [t ->] H.
  pose proof (occurs_append t ".json" "") as Ho.
  change (".json" ++ "") with ".json" in Ho. rewrite H in Ho.
  vm_compute in Ho. discriminate.
Qed.

Lemma ends_json_not_under p : ends_json p -> Os.under p env_path = false.
Proof.
  intros Hp. unfold Os.under. apply orb_false_iff. split.
  - apply String.eqb_neq. intros H. by apply (ends_json_not_env p).
  - destruct (String.prefix (p ++ "/") env_path) eqn:E; [|done].
    apply prefix_split in E as [r E]. destruct Hp as [t ->].
    pose proof (occurs_append t ".json" ("/" ++ r)) as Ho.
    rewrite !append_assoc' in E. rewrite <- E in Ho.
    vm_compute in Ho. discriminate.
Qed.

(** ** The secrets file *)

(** Between the two states, [extra.env] is left as it is, or it did not
    exist and now holds the placeholder. *)
Definition env_step (s s' : state) : Prop :=
  fs s' !! env_path = fs s !! env_path
  ∨ (fs s !! env_path = None
     ∧ fs s' !! env_path = Some (File (Text placeholder))).

Lemma env_step_refl s : env_step s s.
Proof. by left. Qed.

Lemma env_step_trans s1 s2 s3 : env_step s1 s2 -> env_step s2 s3 -> env_step s1 s3.
Proof.
  unfold env_step. intros [H1 | [H1 H1']] [H2 | [H2 H2']].
  - left. congruence.
  - right. split; congruence.
  - right. split; congruence.
  - congruence.
Qed.

#[global] Hint Resolve env_step_refl env_step_trans : keeps.

Lemma env_step_same_fs s s' : fs s' = fs s -> env_step s s'.
Proof. intros H. left. by rewrite H. Qed.

Lemma rmtree_env_step p : ends_json p -> keeps env_step (Os.rmtree p).
Proof.
  intros Hp w s. unfold Os.rmtree, mbind, M_bind, bind, asks, modify.
  destruct (rmtree_ok w p); simpl; [|by left]. left.
  unfold set_fs. cbn [fs]. rewrite map_lookup_filter. destruct (fs s !! env_path) as [n|]; [|done].
  simpl. rewrite ends_json_not_under by done. by rewrite option_guard_True.
Qed.

Lemma write_env_step p c : p ≠ env_path -> keeps env_step (Os.write p c).
Proof.
  intros Hp w s. unfold Os.write, mbind, M_bind, bind, asks, gets, modify.
  destruct (open_ok w p && negb (Os.isdir p (fs s))); simpl; [|by left].
  left. unfold set_fs. cbn [fs]. by rewrite lookup_insert_ne.
Qed.

Lemma remove_env_step p : p ≠ env_path -> keeps env_step (Os.remove p).
Proof.
  intros Hp w s. unfold Os.remove, mbind, M_bind, bind, asks, gets, modify.
  destruct (unlink_ok w p && negb (Os.isdir p (fs s))); simpl; [|by left].
  left. unfold set_fs. cbn [fs]. by rewrite lookup_delete_ne.
Qed.

(** Lines 111-113 write the placeholder exactly when the path does not
    exist. *)
Lemma ensure_env_env_step : keeps env_step (ensure_env env_path).
Proof.
  intros w s. unfold ensure_env, Os.write, Os.exists_, Os.isdir.
  unfold mbind, M_bind, bind, asks, gets, modify. simpl.
  destruct (fs s !! env_path) as [n|] eqn:E; simpl; [by left|].
  destruct (open_ok w env_path); simpl; rewrite ?E; simpl; [|by left].
  right. split; [done|]. unfold set_fs. cbn [fs]. by rewrite lookup_insert_eq.
Qed.

Lemma stop_env_step c : keeps env_step (Docker.stop c).
Proof. intros w s. apply env_step_same_fs, stop_same_fs. Qed.
Lemma docker_remove_env_step c : keeps env_step (Docker.remove c).
Proof. intros w s. apply env_step_same_fs, docker_remove_same_fs. Qed.
Lemma run_env_step img p v : keeps env_step (Docker.run img p v).
Proof. intros w s. apply env_step_same_fs, run_same_fs. Qed.

Lemma replace_existing_env_step key : keeps env_step (replace_existing key).
Proof.
  intros w s. rewrite replace_existing_run. by apply env_step_same_fs.
Qed.

Section Secrets.
Variable HOST_CONFIGS_DIR : string.
Variable HOST_ENV_DIR : string.

Abbreviation create_dashboard' := (create_dashboard HOST_CONFIGS_DIR HOST_ENV_DIR).
Abbreviation remove_dashboard' := (remove_dashboard HOST_CONFIGS_DIR).
Abbreviation handle' := (handle HOST_CONFIGS_DIR HOST_ENV_DIR).
Abbreviation run_requests' := (run_requests HOST_CONFIGS_DIR HOST_ENV_DIR).

Lemma create_body_env_step d u x csv key :
  keeps env_step (create_body HOST_CONFIGS_DIR HOST_ENV_DIR d u x csv key).
Proof.
  pose proof (config_filename_ends_json key) as Hf.
  pose proof (join_ends_json CONTAINER_CONFIGS_DIR _ Hf) as Hc.
  pose proof (join_ends_json HOST_CONFIGS_DIR _ Hf) as Hh.
  unfold create_body, provision, write_config, clear_host_config, commit.
  fold env_path. keeps_auto;
    first [ by apply rmtree_env_step
          | by apply write_env_step, ends_json_not_env
          | apply ensure_env_env_step
          | apply run_env_step
          | by apply env_step_same_fs ].
Qed.

Lemma create_dashboard_env_step data w s :
  env_step s (create_dashboard' data w s).2.
Proof.
  destruct (create_dashboard_shape HOST_CONFIGS_DIR HOST_ENV_DIR data)
    as [H400 | (d & u & x & _ & _ & _ & _ & ->)].
  - rewrite H400. apply env_step_refl.
  - apply keeps_view.
    apply keeps_bind; [apply env_step_trans | apply replace_existing_env_step |].
    intros _. apply create_body_env_step.
Qed.

Lemma remove_dashboard_env_step data w s :
  env_step s (remove_dashboard' data w s).2.
Proof.
  destruct (remove_dashboard_shape HOST_CONFIGS_DIR data)
    as [H400 | (d & u & Hd%truthy_Some & Hu%truthy_Some & ->)].
  - rewrite H400. apply env_step_refl.
  - unfold remove_dashboard. cbn [r_dashboard_id r_user_id].
    rewrite Hd, Hu. cbn [andb].
    pose proof (join_ends_json HOST_CONFIGS_DIR _
                  (config_filename_ends_json (dashboard_key u d))) as Hh.
    apply keeps_view. unfold remove_present, remove_teardown, remove_finish.
    keeps_auto;
      first [ apply stop_env_step | apply docker_remove_env_step
            | by apply remove_env_step, ends_json_not_env
            | by apply env_step_same_fs ].
Qed.

Lemma handle_env_step r w s : env_step s (handle' r w s).2.
Proof.
  destruct r as [data | data | user | u d |]; simpl.
  - apply create_dashboard_env_step.
  - apply remove_dashboard_env_step.
  - rewrite list_dashboards_state. apply env_step_refl.
  - rewrite route_dashboard_state. apply env_step_refl.
  - apply env_step_refl.
Qed.

Lemma run_requests_env_step rs s : env_step s (run_requests' rs s).
Proof.
  revert s. induction rs as [|[r w] rs IH]; intros s; simpl.
  - apply env_step_refl.
  - eapply env_step_trans; [apply handle_env_step | apply IH].
Qed.

(** C9: a [create_dashboard] call leaves [extra.env] as it is, or the path
    did not exist and now holds the placeholder line; once the path exists,
    no sequence of requests changes what is at it; and running the
    [extra.env] step again after it has returned changes nothing. *)
Theorem secrets_file_written_once :
  (forall data w s,
      let s' := (create_dashboard' data w s).2 in
      fs s' !! env_path = fs s !! env_path
      ∨ (fs s !! env_path = None
         ∧ fs s' !! env_path = Some (File (Text placeholder))))
  ∧ (forall rs s,
        Os.exists_ env_path (fs s) = true ->
        fs (run_requests' rs s) !! env_path = fs s !! env_path)
  ∧ (forall w w' s s1,
        ensure_env env_path w s = (Ok tt, s1) ->
        ensure_env env_path w' s1 = (Ok tt, s1)).
Proof.
  split_and!.
  - intros data w s. apply create_dashboard_env_step.
  - intros rs s Hex. destruct (run_requests_env_step rs s) as [H | [H _]];
      [done|]. unfold Os.exists_ in Hex. by rewrite H in Hex.
  - intros w w' s s1. unfold ensure_env, Os.write, Os.exists_, Os.isdir.
    unfold mbind, M_bind, bind, asks, gets, modify. simpl.
    destruct (fs s !! env_path) as [n|] eqn:E; simpl.
    + intros [= <-]. by rewrite E.
    + destruct (open_ok w env_path); simpl; rewrite ?E; simpl; [|done].
      intros [= <-]. unfold set_fs. cbn [fs]. by rewrite lookup_insert_eq.
Qed.

End Secrets.

Lemma secrets_file_written_once_witness :
  let s := State PyDict.empty {[ env_path := File (Text "OPENAI_API_KEY=sk-real") ]} [] in
  let rs := [(Ex.create "u1" "d1", Ex.calm 7%nat);
             (Ex.create "u1" "d1", Ex.stop_fails 8%nat);
             (Ex.create "u2" "d2", Ex.run_fails)] in
  fs (run_requests Ex.configs Ex.env rs s) !! env_path
  = Some (File (Text "OPENAI_API_KEY=sk-real")).
Proof.
  intros s rs.
  destruct (secrets_file_written_once Ex.configs Ex.env) as (_ & H & _).
  rewrite (H rs s); [|vm_compute; reflexivity].
  vm_compute. reflexivity.
Defined.

(** ** Keys and their segments *)

Definition colon : ascii := ":"%char.

Lemma append_cons (c : ascii) (a b : string) : String c a ++ b = String c (a ++ b).
Proof. reflexivity. Qed.

Lemma append_nil_l (b : string) : "" ++ b = b.
Proof. reflexivity. Qed.

Lemma contains_append c (a b : string) :
  PyStr.contains c (a ++ b) = PyStr.contains c a || PyStr.contains c b.
Proof.
  induction a as [|x a IH]; [done|].
  rewrite append_cons. simpl. rewrite IH. by rewrite orb_assoc.
Qed.

(** A string that holds the character splits at its first occurrence. *)
Lemma contains_split c (s : string) :
  PyStr.contains c s = true ->
  exists a b, s = a ++ String c b ∧ PyStr.contains c a = false.
Proof.
  induction s as [|x s IH]; simpl; [done|].
  destruct (Ascii.eqb_spec x c) as [->|Hne]; simpl.
  - intros _. by exists "", s.
  - intros (a & b & -> & Ha)%IH. exists (String x a), b. split; [done|].
    simpl. rewrite Ha. by apply Ascii.eqb_neq in Hne as ->.
Qed.

Lemma split_no_sep c (s : string) :
  PyStr.contains c s = false -> PyStr.split c s = [s].
Proof.
  induction s as [|x s IH]; simpl; [done|].
  destruct (Ascii.eqb x c); simpl; [done|]. intros H. by rewrite IH.
Qed.

Lemma split_nonempty c (s : string) : PyStr.split c s ≠ [].
Proof.
  induction s as [|x s IH]; simpl; [done|].
  destruct (Ascii.eqb x c); [done|]. by destruct (PyStr.split c s).
Qed.

Lemma split_append c (a b : string) :
  PyStr.contains c a = false ->
  PyStr.split c (a ++ String c b) = a :: PyStr.split c b.
Proof.
  induction a as [|x a IH].
  - intros _. change ("" ++ String c b) with (String c b). simpl.
    by rewrite Ascii.eqb_refl.
  - rewrite append_cons. simpl. destruct (Ascii.eqb x c); simpl; [done|].
    intros H. by rewrite IH.
Qed.

(** [key.split(":")[1]] is what lies between the first and the second colon
    of the key, or after the first when there is no second. *)
Lemma second_segment (a b rest : string) :
  PyStr.contains colon a = false -> PyStr.contains colon b = false ->
  PyStr.index (PyStr.split colon (a ++ ":" ++ b)) 1 = Some b
  ∧ PyStr.index (PyStr.split colon (a ++ ":" ++ b ++ ":" ++ rest)) 1 = Some b.
Proof.
  intros Ha Hb. split.
  - change (a ++ ":" ++ b) with (a ++ String colon b).
    by rewrite split_append, split_no_sep.
  - change (a ++ ":" ++ b ++ ":" ++ rest)
      with (a ++ String colon (b ++ String colon rest)).
    by rewrite !split_append.
Qed.

(** The key always has a second segment. *)
Lemma key_has_segment (u d : string) :
  exists name, PyStr.index (PyStr.split colon (dashboard_key u d)) 1 = Some name.
Proof.
  unfold dashboard_key. change (u ++ ":" ++ d) with (u ++ String colon d).
  destruct (PyStr.contains colon u) eqn:E.
  - apply contains_split in E as (a & b & -> & Ha).
    rewrite append_assoc', append_cons, split_append by done.
    pose proof (split_nonempty colon (b ++ String colon d)) as Hne.
    destruct (PyStr.split colon _) as [|h t]; [done|]. by exists h.
  - rewrite split_append by done.
    pose proof (split_nonempty colon d) as Hne.
    destruct (PyStr.split colon d) as [|h t]; [done|]. by exists h.
Qed.

Lemma key_inj (u1 d1 u2 d2 : string) :
  PyStr.contains colon u1 = false -> PyStr.contains colon u2 = false ->
  dashboard_key u1 d1 = dashboard_key u2 d2 -> u1 = u2 ∧ d1 = d2.
Proof.
  unfold dashboard_key. revert u2.
  induction u1 as [|x u1 IH]; intros [|y u2] H1 H2 E;
    rewrite ?append_cons, ?append_nil_l in E; simpl in H1, H2.
  - by injection E as ->.
  - injection E as <- _. by rewrite Ascii.eqb_refl in H2.
  - injection E as -> _. by rewrite Ascii.eqb_refl in H1.
  - injection E as -> E. apply orb_false_iff in H1 as [_ H1], H2 as [_ H2].
    by destruct (IH u2 H1 H2 E) as [-> ->].
Qed.

Lemma key_collision (u d : string) :
  PyStr.contains colon u = true ->
  exists u' d', (u', d') ≠ (u, d) ∧ dashboard_key u' d' = dashboard_key u d.
Proof.
  intros Hu. pose proof Hu as (a & b & -> & Ha)%contains_split.
  exists a, (b ++ ":" ++ d). split.
  - intros [= E _]. rewrite E in Ha. congruence.
  - unfold dashboard_key. by rewrite !append_assoc'.
Qed.

(** ** The listing of a user's dashboards *)

(** Every binding of a comprehension was in the accumulator or comes from an
    item that passed the condition. *)
Lemma comprehension_from_elem {V W} (c : string -> V -> bool)
    (f : string -> V -> option string) (g : string -> V -> W)
    (l : list (string * V)) (acc res : PyDict.dict W) (k' : string) (v : W) :
  PyDict.comprehension_from c f g l acc = Some res ->
  (k', v) ∈ res ->
  (k', v) ∈ acc
  ∨ exists k i, (k, i) ∈ l ∧ c k i = true ∧ f k i = Some k' ∧ g k i = v.
Proof.
  revert acc. induction l as [|[k i] l IH]; intros acc; simpl.
  - intros [= ->] Hin. by left.
  - destruct (c k i) eqn:Ec.
    + destruct (f k i) as [name|] eqn:Ef; [|done]. intros Hres Hin.
      destruct (IH _ Hres Hin) as [Hacc | (k0 & i0 & Hl & ? & ? & ?)].
      * apply PyDictFacts.elem_set in Hacc as [[= -> ->] | Hacc]; [|by left].
        right. exists k, i. split_and!; try done. apply list_elem_of_here.
      * right. exists k0, i0. split_and!; try done.
        by apply list_elem_of_further.
    + intros Hres Hin.
      destruct (IH _ Hres Hin) as [Hacc | (k0 & i0 & Hl & ? & ? & ?)];
        [by left|].
      right. exists k0, i0. split_and!; try done. by apply list_elem_of_further.
Qed.

(** What [list_dashboards] reports for a user: each name is the second
    segment of the key of an entry whose stored [user_id] is the user, with
    the port of that entry. *)
Lemma list_dashboards_origin (u : string) (w : world) (s : state)
    (ds : PyDict.dict Z) (code : Z) (name : string) (p : Z) :
  (list_dashboards (Some u) w s).1 = Response (Dashboards ds) code ->
  (name, p) ∈ ds ->
  exists key i,
    (key, i) ∈ dashboard_containers s
    ∧ user_id i = u ∧ port i = p
    ∧ PyStr.index (PyStr.split colon key) 1 = Some name.
Proof.
  unfold list_dashboards. destruct (truthy (Some u)); [|done].
  unfold view, mbind, M_bind, bind, gets, ret, raise.
  destruct (dashboards_of u (dashboard_containers s)) as [ds'|] eqn:E; [|done].
  intros [= <- _] Hin. unfold dashboards_of, PyDict.comprehension in E.
  destruct (comprehension_from_elem _ _ _ _ _ _ _ _ E Hin)
    as [Hacc | (k & i & Hl & Hu%String.eqb_eq & Hf & Hg)].
  - by apply elem_of_nil in Hacc.
  - by exists k, i.
Qed.

Section Observed.
Variable HOST_CONFIGS_DIR : string.
Variable HOST_ENV_DIR : string.

Abbreviation reachable' := (reachable HOST_CONFIGS_DIR HOST_ENV_DIR).

(** C3: in every state reachable by serving requests, each registry entry
    holds a container handle that an earlier [containers.run] call returned
    for the entry's port, so the entry was written after the start
    succeeded; and what the three query handlers show, the redirect of
    [route_dashboard], the ports of [list_dashboards] and the ports of the
    index page, are ports of such entries. *)
Theorem entries_are_started (s : state) :
  reachable' s ->
  (forall key i,
      PyDict.get key (dashboard_containers s) = Some i ->
      exists vols,
        EvRun "vizro-dashboard" (port i) vols (Some (container_of i)) ∈ docker s)
  ∧ (forall u d w p,
        (route_dashboard u d w s).1 = Response (Redirect p) 302 ->
        exists i vols,
          PyDict.get (dashboard_key u d) (dashboard_containers s) = Some i
          ∧ port i = p
          ∧ EvRun "vizro-dashboard" p vols (Some (container_of i)) ∈ docker s)
  ∧ (forall u w ds code name p,
        (list_dashboards (Some u) w s).1 = Response (Dashboards ds) code ->
        (name, p) ∈ ds ->
        exists key i vols,
          PyDict.get key (dashboard_containers s) = Some i
          ∧ port i = p
          ∧ EvRun "vizro-dashboard" p vols (Some (container_of i)) ∈ docker s)
  ∧ (forall w ds code key p,
        (index w s).1 = Response (RunningDashboards ds) code ->
        (key, p) ∈ ds ->
        exists i vols,
          PyDict.get key (dashboard_containers s) = Some i
          ∧ port i = p
          ∧ EvRun "vizro-dashboard" p vols (Some (container_of i)) ∈ docker s).
Proof.
  intros [Hwf Hports Hent]%reachable_Inv.
  assert (Hstarted : forall key i,
             PyDict.get key (dashboard_containers s) = Some i ->
             exists vols,
               EvRun "vizro-dashboard" (port i) vols (Some (container_of i))
                 ∈ docker s).
  { intros key i Hget%PyDictFacts.get_Some_elem.
    by destruct (Hent key i Hget) as (_ & _ & _ & _ & Hs). }
  split_and!; [done | | |].
  - intros u d w p.
    unfold route_dashboard, view, mbind, M_bind, bind, gets, ret.
    destruct (PyDict.get (dashboard_key u d) (dashboard_containers s))
      as [i|] eqn:E; [|done].
    intros [= <-]. destruct (Hstarted _ _ E) as [vols Hv].
    by exists i, vols.
  - intros u w ds code name p Hresp Hin.
    destruct (list_dashboards_origin u w s ds code name p Hresp Hin)
      as (key & i & Hl & _ & <- & _).
    apply (PyDictFacts.elem_get_Some _ _ _ Hwf) in Hl.
    destruct (Hstarted _ _ Hl) as [vols Hv]. by exists key, i, vols.
  - intros w ds code key p [= <- _] Hin.
    apply list_elem_of_fmap in Hin as ([k i] & [= -> ->] & Hl).
    apply (PyDictFacts.elem_get_Some _ _ _ Hwf) in Hl.
    destruct (Hstarted _ _ Hl) as [vols Hv]. by exists i, vols.
Qed.

End Observed.

Lemma entries_are_started_witness :
  let s := Ex.after [(Ex.create "u1" "d1", Ex.calm 7%nat)] in
  exists vols,
    EvRun "vizro-dashboard" 8051 vols (Some 7%nat) ∈ docker s.
Proof.
  intros s.
  destruct (entries_are_started Ex.configs Ex.env s (Ex.after_reachable _))
    as [H _].
  apply (H "u1:d1" (Info 8051 7%nat "u1" "d1")). vm_compute. reflexivity.
Defined.

(** C7 fails on the code at a dashboard id that holds a colon: the entry of
    user "a" with the stored dashboard id "b:c" is listed under the name
    "b". *)
Theorem list_dashboards_splits_dashboard_id :
  let s := Ex.after [(Ex.create "a" "b:c", Ex.calm 7%nat)] in
  let s2 := Ex.after [(Ex.create "a" "b:c", Ex.calm 7%nat);
                      (Ex.create "a" "b:d", Ex.calm 8%nat)] in
  dashboard_containers s = [("a:b:c", Info 8051 7%nat "a" "b:c")]
  ∧ (list_dashboards (Some "a") (Ex.calm 0%nat) s).1
    = Response (Dashboards [("b", 8051)]) 200
  ∧ dashboard_containers s2 = [("a:b:c", Info 8051 7%nat "a" "b:c");
                               ("a:b:d", Info 8052 8%nat "a" "b:d")]
  ∧ (list_dashboards (Some "a") (Ex.calm 0%nat) s2).1
    = Response (Dashboards [("b", 8052)]) 200.
Proof. vm_compute. split_and!; reflexivity. Qed.

Section Keys.
Variable HOST_CONFIGS_DIR : string.
Variable HOST_ENV_DIR : string.

Abbreviation create_dashboard' := (create_dashboard HOST_CONFIGS_DIR HOST_ENV_DIR).
Abbreviation remove_dashboard' := (remove_dashboard HOST_CONFIGS_DIR).
Abbreviation reachable' := (reachable HOST_CONFIGS_DIR HOST_ENV_DIR).

(** C10: the key is [user_id ++ ":" ++ dashboard_id]; it determines the pair
    when the user ids hold no colon, and every user id with a colon shares
    its keys with another pair, as ("a:b", "c") does with ("a", "b:c").  Two
    pairs with one key address one entry: [route_dashboard] for the second
    pair redirects to the port stored for the first, [remove_dashboard] for
    the second pops it, [create_dashboard] for the second replaces it.
    [list_dashboards] names each entry by the second segment of its key,
    which is what stands between the first and the second colon. *)
Theorem key_encoding_collides :
  (forall u d, dashboard_key u d = u ++ ":" ++ d)
  ∧ (forall u1 d1 u2 d2,
        PyStr.contains colon u1 = false -> PyStr.contains colon u2 = false ->
        dashboard_key u1 d1 = dashboard_key u2 d2 -> u1 = u2 ∧ d1 = d2)
  ∧ (forall u d,
        PyStr.contains colon u = true ->
        exists u' d', (u', d') ≠ (u, d) ∧ dashboard_key u' d' = dashboard_key u d)
  ∧ dashboard_key "a:b" "c" = dashboard_key "a" "b:c"
  ∧ (forall u d u' d' s i,
        reachable' s -> u' ≠ "" -> d' ≠ "" ->
        dashboard_key u d = dashboard_key u' d' ->
        PyDict.get (dashboard_key u d) (dashboard_containers s) = Some i ->
        (forall w, route_dashboard u' d' w s = (Response (Redirect (port i)) 302, s))
        ∧ (forall w r s',
              remove_dashboard' (RemoveData (Some d') (Some u')) w s = (r, s') ->
              PyDict.get (dashboard_key u d) (dashboard_containers s') = None)
        ∧ (forall x csv w r s',
              x ≠ "" ->
              create_dashboard' (CreateData (Some d') (Some u') (Some x) csv) w s
              = (r, s') ->
              PyDict.get (dashboard_key u d) (dashboard_containers s') = None
              ∨ exists p c,
                  PyDict.get (dashboard_key u d) (dashboard_containers s')
                  = Some (Info p c u' d')))
  ∧ (forall u w s ds code name p,
        (list_dashboards (Some u) w s).1 = Response (Dashboards ds) code ->
        (name, p) ∈ ds ->
        exists key i,
          (key, i) ∈ dashboard_containers s
          ∧ user_id i = u ∧ port i = p
          ∧ PyStr.index (PyStr.split colon key) 1 = Some name)
  ∧ (forall a b rest,
        PyStr.contains colon a = false -> PyStr.contains colon b = false ->
        PyStr.index (PyStr.split colon (a ++ ":" ++ b)) 1 = Some b
        ∧ PyStr.index (PyStr.split colon (a ++ ":" ++ b ++ ":" ++ rest)) 1 = Some b).
Proof.
  split_and!.
  - done.
  - apply key_inj.
  - apply key_collision.
  - reflexivity.
  - intros u d u' d' s i [Hwf _ _]%reachable_Inv Hu Hd Hkey Hget.
    rewrite Hkey in Hget |- *. split_and!.
    + intros w. unfold route_dashboard, view, mbind, M_bind, bind, gets, ret.
      by rewrite Hget.
    + intros w r s' Hrun. apply remove_dashboard_cases in Hrun; [|done..].
      cbv zeta in Hrun. rewrite Hget in Hrun. destruct Hrun as (-> & _).
      by apply PyDictFacts.get_pop_eq.
    + intros x csv w r s' Hx Hrun.
      apply create_dashboard_cases in Hrun; [|done..]. cbv zeta in Hrun.
      destruct Hrun as [(p & c & vols & _ & _ & _ & -> & _) | (e & _ & -> & _)].
      * right. exists p, c. apply PyDictFacts.get_set_eq.
      * left. by apply PyDictFacts.get_pop_eq.
  - apply list_dashboards_origin.
  - apply second_segment.
Qed.

End Keys.

Lemma key_encoding_collides_witness :
  let s := Ex.after [(Ex.create "a:b" "c", Ex.calm 7%nat)] in
  PyDict.get "a:b:c" (dashboard_containers s) = Some (Info 8051 7%nat "a:b" "c")
  ∧ route_dashboard "a" "b:c" (Ex.calm 0%nat) s = (Response (Redirect 8051) 302, s)
  ∧ PyDict.get "a:b:c"
      (dashboard_containers
         (remove_dashboard Ex.configs (RemoveData (Some "b:c") (Some "a"))
            (Ex.calm 0%nat) s).2) = None
  ∧ (list_dashboards (Some "a:b") (Ex.calm 0%nat) s).1
    = Response (Dashboards [("b", 8051)]) 200.
Proof.
  intros s.
  destruct (key_encoding_collides Ex.configs Ex.env)
    as (_ & _ & _ & _ & H & _ & _).
  assert (Hget : PyDict.get (dashboard_key "a:b" "c") (dashboard_containers s)
                 = Some (Info 8051 7%nat "a:b" "c"))
    by (vm_compute; reflexivity).
  destruct (H "a:b" "c" "a" "b:c" s (Info 8051 7%nat "a:b" "c"))
    as (Hroute & Hremove & _).
  - apply Ex.after_reachable.
  - discriminate.
  - discriminate.
  - reflexivity.
  - exact Hget.
  - split_and!.
    + exact Hget.
    + apply (Hroute (Ex.calm 0%nat)).
    + apply (Hremove (Ex.calm 0%nat)
               (remove_dashboard Ex.configs (RemoveData (Some "b:c") (Some "a"))
                  (Ex.calm 0%nat) s).1).
      by destruct (remove_dashboard _ _ _ _).
    + vm_compute. reflexivity.
Defined.

(** ** Handlers that interleave

    Flask serves each request on a thread of its own, and a handler gives
    way to the others while it waits for the Docker daemon.  A request in
    flight is a program counter between the blocks of its handler; the
    blocks are the ones the handlers above are made of, and each runs
    without interruption.  The code takes no lock and keeps no record of the
    requests in flight. *)

Inductive pc : Type :=
| Start (r : request)
| CreateTeardown (d u x : string) (csv : option string) (existing : option info)
| CreateProvision (d u x : string) (csv : option string)
| CreateRun (d u : string) (p : Z) (vols : list volume)
| CreateCommit (d u : string) (p : Z) (c : container)
| RemoveTeardown (d u : string) (i : info)
| RemoveFinish (d u : string)
| Done (r : response).

(** One block: [k] continues with its result, [h] is the answer to an
    exception. *)
Definition block {A} (m : M A) (k : A -> pc) (h : exn -> response)
    (w : world) (s : state) : pc * state :=
  match m w s with
  | (Ok a, s') => (k a, s')
  | (Raise e, s') => (Done (h e), s')
  end.

Definition uncaught (_ : exn) : response := Response InternalServerError 500.
Definition caught (e : exn) : response := Response (ErrorException e) 500.

Record sys : Type := Sys {
  store : state;
  threads : list pc
}.

Inductive action : Type :=
| Arrive (r : request)        (* a request arrives *)
| Run (i : nat) (w : world).  (* the thread [i] runs its next block *)

Section Concurrent.
Variable HOST_CONFIGS_DIR : string.
Variable HOST_ENV_DIR : string.

Abbreviation handle' := (handle HOST_CONFIGS_DIR HOST_ENV_DIR).

Definition step_thread (w : world) (t : pc) (s : state) : pc * state :=
  match t with
  | Start (Create data) =>
      match d_dashboard_id data, d_user_id data, d_description data with
      | Some d, Some u, Some x =>
          if truthy (d_dashboard_id data) && truthy (d_user_id data)
             && truthy (d_description data)
          then block (pop_existing (dashboard_key u d))
                     (CreateTeardown d u x (d_csv_path data)) uncaught w s
          else (Done (Response (ErrorRequired required_create) 400), s)
      | _, _, _ => (Done (Response (ErrorRequired required_create) 400), s)
      end
  | CreateTeardown d u x csv existing =>
      block (teardown_old existing) (fun _ => CreateProvision d u x csv)
            uncaught w s
  | CreateProvision d u x csv =>
      block (provision HOST_CONFIGS_DIR HOST_ENV_DIR d u x csv (dashboard_key u d))
            (fun pv => CreateRun d u pv.1 pv.2) caught w s
  | CreateRun d u p vols =>
      block (Docker.run "vizro-dashboard" p vols) (CreateCommit d u p) caught w s
  | CreateCommit d u p c =>
      block (commit d u (dashboard_key u d) p c) Done caught w s
  | Start (Remove data) =>
      match r_dashboard_id data, r_user_id data with
      | Some d, Some u =>
          if truthy (r_dashboard_id data) && truthy (r_user_id data)
          then block (pop_existing (dashboard_key u d))
                     (fun present =>
                        match present with
                        | Some i => RemoveTeardown d u i
                        | None => Done (Response ErrorNotFound 404)
                        end) uncaught w s
          else (Done (Response (ErrorRequired required_remove) 400), s)
      | _, _ => (Done (Response (ErrorRequired required_remove) 400), s)
      end
  | RemoveTeardown d u i =>
      block (remove_teardown i)
            (fun failed =>
               match failed with
               | Some r => Done r
               | None => RemoveFinish d u
               end) uncaught w s
  | RemoveFinish d u =>
      block (remove_finish HOST_CONFIGS_DIR d u (dashboard_key u d)) Done
            uncaught w s
  | Start r => let out := handle' r w s in (Done out.1, out.2)
  | Done r => (Done r, s)
  end.

Definition act (a : action) (sg : sys) : sys :=
  match a with
  | Arrive r => Sys (store sg) (threads sg ++ [Start r])
  | Run i w =>
      match threads sg !! i with
      | Some t =>
          let out := step_thread w t (store sg) in
          Sys out.2 (<[i := out.1]> (threads sg))
      | None => sg
      end
  end.

Definition exec (acts : list action) (sg : sys) : sys :=
  fold_left (fun sg a => act a sg) acts sg.

(** A thread that runs alone, for at most [n] blocks, in one world. *)
Fixpoint run_alone (n : nat) (w : world) (t : pc) (s : state) : pc * state :=
  match n with
  | O => (t, s)
  | S n' =>
      match t with
      | Done _ => (t, s)
      | _ => let out := step_thread w t s in run_alone n' w out.1 out.2
      end
  end.

End Concurrent.

(** The key a thread is about to change the entry of, while it is between
    its first block and its answer. *)
Definition in_flight_key (t : pc) : option string :=
  match t with
  | CreateTeardown d u _ _ _ | CreateProvision d u _ _
  | CreateRun d u _ _ | CreateCommit d u _ _
  | RemoveTeardown d u _ | RemoveFinish d u => Some (dashboard_key u d)
  | Start _ | Done _ => None
  end.

Lemma pop_existing_run key w s :
  pop_existing key w s =
    (Ok (PyDict.get key (dashboard_containers s)),
     set_containers (PyDict.pop key (dashboard_containers s)) s).
Proof.
  unfold pop_existing. rewrite bind_unfold. cbn [gets].
  destruct (PyDict.get key (dashboard_containers s)) as [i|] eqn:E.
  - by rewrite (bind_unfold (modify _)).
  - rewrite pop_absent by done. by destruct s.
Qed.

Lemma teardown_old_run existing w s :
  teardown_old existing w s =
    (Ok tt,
     add_events match existing with
                | Some i => teardown_events w (container_of i)
                | None => []
                end s).
Proof.
  destruct existing as [i|]; simpl.
  - unfold try_except. rewrite teardown_run.
    by destruct (stop_ok w (container_of i) && remove_ok w (container_of i)).
  - destruct s. unfold add_events. simpl. by rewrite app_nil_r.
Qed.

Section Refinement.
Variable HOST_CONFIGS_DIR : string.
Variable HOST_ENV_DIR : string.

Abbreviation handle' := (handle HOST_CONFIGS_DIR HOST_ENV_DIR).
Abbreviation step_thread' := (step_thread HOST_CONFIGS_DIR HOST_ENV_DIR).
Abbreviation run_alone' := (run_alone HOST_CONFIGS_DIR HOST_ENV_DIR).
Abbreviation act' := (act HOST_CONFIGS_DIR HOST_ENV_DIR).
Abbreviation exec' := (exec HOST_CONFIGS_DIR HOST_ENV_DIR).

Lemma run_alone_Done n w r s : run_alone' n w (Done r) s = (Done r, s).
Proof. by destruct n. Qed.

(** The first block of a valid [create_dashboard] pops the entry of the key
    and goes on to the teardown: it looks at the registry only. *)
Lemma step_create_start d u x csv w s :
  d ≠ "" -> u ≠ "" -> x ≠ "" ->
  step_thread' w (Start (Create (CreateData (Some d) (Some u) (Some x) csv))) s =
    (CreateTeardown d u x csv
       (PyDict.get (dashboard_key u d) (dashboard_containers s)),
     set_containers (PyDict.pop (dashboard_key u d) (dashboard_containers s)) s).
Proof.
  intros Hd%truthy_Some Hu%truthy_Some Hx%truthy_Some. unfold step_thread.
  cbn [d_dashboard_id d_user_id d_description d_csv_path].
  rewrite Hd, Hu, Hx. cbn [andb]. unfold block. by rewrite pop_existing_run.
Qed.

(** The first block of a valid [remove_dashboard] for a key that is in the
    registry pops the entry and goes on to the teardown. *)
Lemma step_remove_start d u w s :
  d ≠ "" -> u ≠ "" ->
  step_thread' w (Start (Remove (RemoveData (Some d) (Some u)))) s =
    (match PyDict.get (dashboard_key u d) (dashboard_containers s) with
     | Some i => RemoveTeardown d u i
     | None => Done (Response ErrorNotFound 404)
     end,
     set_containers (PyDict.pop (dashboard_key u d) (dashboard_containers s)) s).
Proof.
  intros Hd%truthy_Some Hu%truthy_Some. unfold step_thread.
  cbn [r_dashboard_id r_user_id].
  rewrite Hd, Hu. cbn [andb]. unfold block. by rewrite pop_existing_run.
Qed.

Lemma run_alone_S n w t s t' s' :
  (forall r, t ≠ Done r) ->
  step_thread' w t s = (t', s') ->
  run_alone' (S n) w t s = run_alone' n w t' s'.
Proof.
  intros Hnd Hstep. simpl. destruct t; try by rewrite Hstep.
  by destruct (Hnd r).
Qed.

Lemma step_create_teardown d u x csv existing w s :
  step_thread' w (CreateTeardown d u x csv existing) s =
    (CreateProvision d u x csv,
     add_events match existing with
                | Some i => teardown_events w (container_of i)
                | None => []
                end s).
Proof. unfold step_thread, block. by rewrite teardown_old_run. Qed.

(** A thread that is not interrupted does what the handler does: five
    blocks are enough for every request. *)
Lemma run_alone_create d u x csv w s :
  d ≠ "" -> u ≠ "" -> x ≠ "" ->
  let data := CreateData (Some d) (Some u) (Some x) csv in
  run_alone' 5 w (Start (Create data)) s =
    (Done (create_dashboard HOST_CONFIGS_DIR HOST_ENV_DIR data w s).1,
     (create_dashboard HOST_CONFIGS_DIR HOST_ENV_DIR data w s).2).
Proof.
  intros Hd Hu Hx data. subst data.
  rewrite create_dashboard_unfold by done.
  unfold after_replace. rewrite replace_existing_run. cbn [snd].
  erewrite run_alone_S; [| done | by apply step_create_start].
  erewrite run_alone_S; [| done | by apply step_create_teardown].
  set (s2 := add_events _ _).
  unfold view, create_body, try_except. rewrite bind_unfold.
  destruct (provision HOST_CONFIGS_DIR HOST_ENV_DIR d u x csv (dashboard_key u d) w s2)
    as [[[p vols]|e] s3] eqn:Hp.
  - erewrite run_alone_S; [| done |]; cycle 1.
    { unfold step_thread, block. rewrite Hp. reflexivity. }
    cbn [fst snd]. rewrite bind_unfold.
    destruct (Docker.run "vizro-dashboard" p vols w s3) as [[c|e] s4] eqn:Hr.
    + erewrite run_alone_S; [| done |]; cycle 1.
      { unfold step_thread, block. rewrite Hr. reflexivity. }
      erewrite run_alone_S; [| done |]; cycle 1.
      { unfold step_thread, block. reflexivity. }
      reflexivity.
    + erewrite run_alone_S; [| done |]; cycle 1.
      { unfold step_thread, block. rewrite Hr. reflexivity. }
      reflexivity.
  - erewrite run_alone_S; [| done |]; cycle 1.
    { unfold step_thread, block. rewrite Hp. reflexivity. }
    reflexivity.
Qed.

Lemma run_alone_remove d u w s :
  d ≠ "" -> u ≠ "" ->
  let data := RemoveData (Some d) (Some u) in
  run_alone' 5 w (Start (Remove data)) s =
    (Done (remove_dashboard HOST_CONFIGS_DIR data w s).1,
     (remove_dashboard HOST_CONFIGS_DIR data w s).2).
Proof.
  intros Hd Hu data. subst data.
  erewrite run_alone_S; [| done | by apply step_remove_start].
  apply truthy_Some in Hd, Hu. unfold remove_dashboard.
  cbn [r_dashboard_id r_user_id]. rewrite Hd, Hu. cbn [andb].
  unfold view. rewrite bind_unfold. cbn [gets].
  destruct (PyDict.get (dashboard_key u d) (dashboard_containers s))
    as [i|] eqn:E.
  - unfold remove_present. rewrite (bind_unfold (modify _)). cbn [modify].
    set (s1 := set_containers _ _). rewrite bind_unfold.
    destruct (remove_teardown i w s1) as [[[r|]|e] s2] eqn:Ht.
    + erewrite run_alone_S; [| done |]; cycle 1.
      { unfold step_thread, block. rewrite Ht. reflexivity. }
      reflexivity.
    + erewrite run_alone_S; [| done |]; cycle 1.
      { unfold step_thread, block. rewrite Ht. reflexivity. }
      destruct (remove_finish HOST_CONFIGS_DIR d u (dashboard_key u d) w s2)
        as [[r|e] s3] eqn:Hf.
      * erewrite run_alone_S; [| done |]; cycle 1.
        { unfold step_thread, block. rewrite Hf. reflexivity. }
        reflexivity.
      * erewrite run_alone_S; [| done |]; cycle 1.
        { unfold step_thread, block. rewrite Hf. reflexivity. }
        reflexivity.
    + erewrite run_alone_S; [| done |]; cycle 1.
      { unfold step_thread, block. rewrite Ht. reflexivity. }
      reflexivity.
  - rewrite pop_absent by done. rewrite run_alone_Done. by destruct s.
Qed.

End Refinement.

(** ** Answers of interleaved handlers *)

(** The status codes the handlers can answer with; there is none for a
    conflict. *)
Definition served_status (r : response) : Prop :=
  status r = 200 ∨ status r = 302 ∨ status r = 400 ∨ status r = 404
  ∨ status r = 500.

Definition answers_served (ts : list pc) : Prop :=
  Forall (fun t => forall r, t = Done r -> served_status r) ts.

Lemma remove_teardown_answer i w s r s' :
  remove_teardown i w s = (Ok (Some r), s') -> status r = 500.
Proof.
  unfold remove_teardown, try_except. rewrite teardown_then.
  destruct (stop_ok w _ && remove_ok w _); [done|]. by intros [= <- _].
Qed.

Lemma remove_finish_answer H d u key w s r s' :
  remove_finish H d u key w s = (Ok r, s') -> status r = 200.
Proof.
  unfold remove_finish, mbind, M_bind, bind, gets, ret.
  destruct (Os.exists_ _ _).
  - destruct (Os.remove _ _ _) as [[[]|e] s1]; [|done]. by intros [= <- _].
  - by intros [= <- _].
Qed.

Section Answers.
Variable HOST_CONFIGS_DIR : string.
Variable HOST_ENV_DIR : string.

Abbreviation handle' := (handle HOST_CONFIGS_DIR HOST_ENV_DIR).
Abbreviation step_thread' := (step_thread HOST_CONFIGS_DIR HOST_ENV_DIR).
Abbreviation act' := (act HOST_CONFIGS_DIR HOST_ENV_DIR).
Abbreviation exec' := (exec HOST_CONFIGS_DIR HOST_ENV_DIR).

Lemma step_thread_served w t s r :
  (forall r0, t = Done r0 -> served_status r0) ->
  (step_thread' w t s).1 = Done r -> served_status r.
Proof.
  intros Ht. unfold served_status.
  destruct t as [[data | data | user | u d |] | d u x csv ex | d u x csv
                | d u p vols | d u p c | d u i | d u | r0];
    unfold step_thread, block.
  - destruct data as [[d|] [u|] [x|] csv];
      cbn [d_dashboard_id d_user_id d_description d_csv_path];
      try (intros [= <-]; simpl; tauto).
    destruct (truthy (Some d) && truthy (Some u) && truthy (Some x));
      [|intros [= <-]; simpl; tauto].
    by rewrite pop_existing_run.
  - destruct data as [[d|] [u|]]; cbn [r_dashboard_id r_user_id];
      try (intros [= <-]; simpl; tauto).
    destruct (truthy (Some d) && truthy (Some u));
      [|intros [= <-]; simpl; tauto].
    rewrite pop_existing_run. destruct (PyDict.get _ _); [done|].
    intros [= <-]. simpl. tauto.
  - cbn [handle fst]. unfold list_dashboards.
    destruct (truthy user); [|intros [= <-]; simpl; tauto].
    destruct user as [u0|]; [|intros [= <-]; simpl; tauto].
    unfold view, mbind, M_bind, bind, gets, ret, raise.
    destruct (dashboards_of u0 _); intros [= <-]; simpl; tauto.
  - cbn [handle fst].
    unfold route_dashboard, view, mbind, M_bind, bind, gets, ret.
    destruct (PyDict.get _ _); intros [= <-]; simpl; tauto.
  - cbn [handle fst]. intros [= <-]. simpl. tauto.
  - by rewrite teardown_old_run.
  - destruct (provision _ _ _ _ _ _ _ _ _) as [[pv|e] s1]; [done|].
    intros [= <-]. simpl. tauto.
  - destruct (Docker.run _ _ _ _ _) as [[c|e] s1]; [done|].
    intros [= <-]. simpl. tauto.
  - intros [= <-]. simpl. tauto.
  - destruct (remove_teardown i w s) as [[[r1|]|e] s1] eqn:E; cbn [fst].
    + intros [= <-]. apply remove_teardown_answer in E. tauto.
    + done.
    + intros [= <-]. simpl. tauto.
  - destruct (remove_finish _ _ _ _ _ _) as [[r1|e] s1] eqn:E; cbn [fst].
    + intros [= <-]. apply remove_finish_answer in E. tauto.
    + intros [= <-]. simpl. tauto.
  - cbn [fst]. intros [= <-]. by apply Ht.
Qed.

Lemma act_answers_served a sg :
  answers_served (threads sg) -> answers_served (threads (act' a sg)).
Proof.
  unfold answers_served. intros H. destruct a as [r | i w]; simpl.
  - apply Forall_app. split; [done|]. by apply Forall_singleton.
  - destruct (threads sg !! i) as [t|] eqn:E; [|done]. simpl.
    apply Forall_insert; [done|]. intros r Hr.
    eapply (step_thread_served w t (store sg)); [|by rewrite Hr].
    by apply (Forall_lookup_1 _ _ _ _ H E).
Qed.

Lemma exec_answers_served acts sg :
  answers_served (threads sg) -> answers_served (threads (exec' acts sg)).
Proof.
  revert sg. induction acts as [|a acts IH]; intros sg H; [done|].
  simpl. apply IH. by apply act_answers_served.
Qed.

(** C8, as the code has it: nothing records which keys have a request in
    flight.  In every state of the interleaved system, whatever the other
    threads are doing, a valid [create_dashboard] request is taken on by its
    first block, which pops the entry of its key and goes on to the
    teardown, and a valid [remove_dashboard] request for a key of the
    registry likewise; and no handler ever answers with a status other than
    200, 302, 400, 404 or 500. *)
Theorem in_flight_requests_are_not_rejected :
  (forall sg j w d u x csv,
      d ≠ "" -> u ≠ "" -> x ≠ "" ->
      threads sg !! j
      = Some (Start (Create (CreateData (Some d) (Some u) (Some x) csv))) ->
      threads (act' (Run j w) sg) !! j
      = Some (CreateTeardown d u x csv
                (PyDict.get (dashboard_key u d) (dashboard_containers (store sg))))
      ∧ dashboard_containers (store (act' (Run j w) sg))
        = PyDict.pop (dashboard_key u d) (dashboard_containers (store sg)))
  ∧ (forall sg j w d u i,
        d ≠ "" -> u ≠ "" ->
        threads sg !! j = Some (Start (Remove (RemoveData (Some d) (Some u)))) ->
        PyDict.get (dashboard_key u d) (dashboard_containers (store sg)) = Some i ->
        threads (act' (Run j w) sg) !! j = Some (RemoveTeardown d u i)
        ∧ dashboard_containers (store (act' (Run j w) sg))
          = PyDict.pop (dashboard_key u d) (dashboard_containers (store sg)))
  ∧ (forall acts s0 r,
        Done r ∈ threads (exec' acts (Sys s0 [])) -> served_status r).
Proof.
  split_and!.
  - intros sg j w d u x csv Hd Hu Hx Hj. unfold act. rewrite Hj.
    rewrite step_create_start by done. cbn [fst snd threads store].
    split; [|done]. apply list_lookup_insert_eq. by eapply lookup_lt_Some.
  - intros sg j w d u i Hd Hu Hj Hget. unfold act. rewrite Hj.
    rewrite step_remove_start by done. rewrite Hget.
    cbn [fst snd threads store].
    split; [|done]. apply list_lookup_insert_eq. by eapply lookup_lt_Some.
  - intros acts s0 r Hin.
    assert (answers_served (threads (exec' acts (Sys s0 [])))) as H
      by (apply exec_answers_served; constructor).
    unfold answers_served in H. rewrite Forall_forall in H. by apply (H _ Hin).
Qed.

End Answers.

Module ExConcurrent.

(** As [Ex.calm], but the probe finds port 8051 occupied. *)
Definition busy_8051 (c : container) : world :=
  World (fun p => p =? 8051) (fun _ => true) (fun _ => true) (fun _ => true)
        (Some c) (fun _ => true) (fun _ => true).

Definition first : world := Ex.calm 7%nat.
Definition second : world := busy_8051 8%nat.

Definition exec (acts : list action) (sg : sys) : sys :=
  exec Ex.configs Ex.env acts sg.

(** The first request for ("u1", "d1") has started its container and has
    not written its entry yet; the second request for the same pair
    arrives. *)
Definition second_arrives : sys :=
  exec [Arrive (Ex.create "u1" "d1");
        Run 0 first; Run 0 first; Run 0 first; Run 0 first;
        Arrive (Ex.create "u1" "d1")]
       (Sys Ex.init []).

(** The second request runs its first block. *)
Definition second_started : sys := exec [Run 1 second] second_arrives.

(** The second request runs to its answer, then the first one does. *)
Definition both_answered : sys :=
  exec [Run 1 second; Run 1 second; Run 1 second; Run 1 second; Run 0 first]
       second_started.

End ExConcurrent.

(** C8 as the spec states it fails: a [create_dashboard] request for a key
    with another one in flight is not rejected.  Its first block takes it
    on, both requests are answered 200, and the entry of the one that
    answered first is overwritten by the other, whose container 8 no entry
    refers to any more. *)
Lemma conflict_in_progress_counterexample :
  (in_flight_key <$> threads ExConcurrent.second_arrives !! 0%nat)
  = Some (Some "u1:d1")
  ∧ threads ExConcurrent.second_arrives !! 1%nat
    = Some (Start (Ex.create "u1" "d1"))
  ∧ threads ExConcurrent.second_started !! 1%nat
    = Some (CreateTeardown "d1" "u1" "x" None None)
  ∧ (in_flight_key <$> threads ExConcurrent.second_started !! 0%nat)
    = Some (Some "u1:d1")
  ∧ threads ExConcurrent.both_answered
    = [Done (Response (DashboardCreated 8051 "u1:d1") 200);
       Done (Response (DashboardCreated 8052 "u1:d1") 200)]
  ∧ dashboard_containers (store ExConcurrent.both_answered)
    = [("u1:d1", Info 8051 7%nat "u1" "d1")].
Proof. vm_compute. split_and!; reflexivity. Qed.

Lemma in_flight_requests_are_not_rejected_witness :
  threads (act Ex.configs Ex.env (Run 1 ExConcurrent.second)
             ExConcurrent.second_arrives) !! 1%nat
  = Some (CreateTeardown "d1" "u1" "x" None
            (PyDict.get (dashboard_key "u1" "d1")
               (dashboard_containers (store ExConcurrent.second_arrives)))).
Proof.
  destruct (in_flight_requests_are_not_rejected Ex.configs Ex.env) as (H & _ & _).
  apply (H ExConcurrent.second_arrives 1%nat ExConcurrent.second "d1" "u1" "x" None).
  - discriminate.
  - discriminate.
  - discriminate.
  - vm_compute. reflexivity.
Defined.

(** ** The ports of the entries, one request at a time and interleaved *)

Module ExRace.

Definition exec (acts : list action) (sg : sys) : sys :=
  exec Ex.configs Ex.env acts sg.

(** Two requests for distinct keys; each has popped, torn down, written its
    files and scanned the ports, and neither has started its container. *)
Definition both_scanned : sys :=
  exec [Arrive (Ex.create "u1" "d1"); Arrive (Ex.create "u2" "d2");
        Run 0 (Ex.calm 7%nat); Run 0 (Ex.calm 7%nat); Run 0 (Ex.calm 7%nat);
        Run 1 (Ex.calm 8%nat); Run 1 (Ex.calm 8%nat); Run 1 (Ex.calm 8%nat)]
       (Sys Ex.init []).

(** Both start their container and write their entry. *)
Definition both_answered : sys :=
  exec [Run 0 (Ex.calm 7%nat); Run 0 (Ex.calm 7%nat);
        Run 1 (Ex.calm 8%nat); Run 1 (Ex.calm 8%nat)]
       both_scanned.

End ExRace.

Section Ports.
Variable HOST_CONFIGS_DIR : string.
Variable HOST_ENV_DIR : string.

Abbreviation reachable' := (reachable HOST_CONFIGS_DIR HOST_ENV_DIR).
Abbreviation act' := (act HOST_CONFIGS_DIR HOST_ENV_DIR).

(** C4, as the code has it.  In every state reached by serving requests
    one after the other, the entries of two distinct keys hold distinct
    ports.  Between the scan of the ports and the writing of the entry the
    code takes no lock and reserves nothing.  In every state of the
    interleaved system, the block of a [create_dashboard] that scans the
    ports picks a port of the range that the probe finds free and that no
    entry written so far holds, and leaves the registry as it is; and the
    block that writes the entry stores the port picked then whatever the
    registry holds by now, and answers 200. *)
Theorem distinct_entries_distinct_ports :
  (forall s k1 k2 i1 i2,
      reachable' s ->
      PyDict.get k1 (dashboard_containers s) = Some i1 ->
      PyDict.get k2 (dashboard_containers s) = Some i2 ->
      k1 ≠ k2 ->
      port i1 ≠ port i2)
  ∧ (forall sg j w d u x csv p vols,
        threads sg !! j = Some (CreateProvision d u x csv) ->
        threads (act' (Run j w) sg) !! j = Some (CreateRun d u p vols) ->
        8051 <= p <= 8100
        ∧ port_in_use w p = false
        ∧ p ∉ held_ports (dashboard_containers (store sg))
        ∧ dashboard_containers (store (act' (Run j w) sg))
          = dashboard_containers (store sg))
  ∧ (forall sg j w d u p c,
        threads sg !! j = Some (CreateCommit d u p c) ->
        threads (act' (Run j w) sg) !! j
        = Some (Done (Response (DashboardCreated p (dashboard_key u d)) 200))
        ∧ dashboard_containers (store (act' (Run j w) sg))
          = PyDict.set (dashboard_key u d) (Info p c u d)
              (dashboard_containers (store sg))).
Proof.
  split_and!.
  - intros s k1 k2 i1 i2 [Hwf Hports Hent]%reachable_Inv
      H1%PyDictFacts.get_Some_elem H2%PyDictFacts.get_Some_elem Hne Hp.
    apply Hne. by injection (NoDup_ports_inj _ _ _ _ _ Hports H1 H2 Hp).
  - intros sg j w d u x csv p vols Hj. unfold act. rewrite Hj.
    unfold step_thread, block.
    destruct (provision HOST_CONFIGS_DIR HOST_ENV_DIR d u x csv
                (dashboard_key u d) w (store sg)) as [[[p' vols']|e] s1] eqn:Hp;
      cbn [fst snd threads store];
      rewrite list_lookup_insert_eq by (by eapply lookup_lt_Some);
      intros [= <- <-].
    apply provision_Ok in Hp as (Hscan & Hreg & _).
    apply scan_ports_fresh in Hscan as (Hr & Hfree & Hheld). done.
  - intros sg j w d u p c Hj. unfold act. rewrite Hj.
    unfold step_thread, block, commit. rewrite bind_unfold.
    cbn [modify ret fst snd threads store set_containers dashboard_containers].
    split; [|done]. apply list_lookup_insert_eq. by eapply lookup_lt_Some.
Qed.

End Ports.

(** C4 as the spec states it fails for two [create_dashboard] requests on
    distinct keys that run at the same time: each scans the ports before
    the other has written its entry, both pick 8051, both containers are
    started, both requests are answered 200, and the registry ends with two
    entries on one port. *)
Lemma concurrent_creates_share_port_counterexample :
  threads ExRace.both_scanned
  = [CreateRun "d1" "u1" 8051
       [Volume "/app/configs/u1_d1.json" "/config/dashboard_config.json" "ro";
        Volume "/app/env/extra.env" "/config/extra.env" "ro"];
     CreateRun "d2" "u2" 8051
       [Volume "/app/configs/u2_d2.json" "/config/dashboard_config.json" "ro";
        Volume "/app/env/extra.env" "/config/extra.env" "ro"]]
  ∧ threads ExRace.both_answered
    = [Done (Response (DashboardCreated 8051 "u1:d1") 200);
       Done (Response (DashboardCreated 8051 "u2:d2") 200)]
  ∧ dashboard_containers (store ExRace.both_answered)
    = [("u1:d1", Info 8051 7%nat "u1" "d1");
       ("u2:d2", Info 8051 8%nat "u2" "d2")]
  ∧ "u1:d1" ≠ "u2:d2"
  ∧ (port <$> PyDict.get "u1:d1" (dashboard_containers (store ExRace.both_answered)))
    = (port <$> PyDict.get "u2:d2" (dashboard_containers (store ExRace.both_answered))).
Proof. vm_compute. split_and!; try reflexivity. discriminate. Qed.

Lemma distinct_entries_distinct_ports_witness :
  let s := Ex.after [(Ex.create "u1" "d1", Ex.calm 7%nat);
                     (Ex.create "u2" "d2", Ex.calm 8%nat)] in
  port (Info 8051 7%nat "u1" "d1") ≠ port (Info 8052 8%nat "u2" "d2").
Proof.
  intros s.
  destruct (distinct_entries_distinct_ports Ex.configs Ex.env) as (H & _ & _).
  apply (H s "u1:d1" "u2:d2").
  - apply Ex.after_reachable.
  - vm_compute. reflexivity.
  - vm_compute. reflexivity.
  - discriminate.
Defined.

(** ** The listing when no id holds a colon *)

(** A comprehension whose keys are new and pairwise distinct appends one
    binding per item that passes the condition. *)
Lemma comprehension_from_distinct {V W} (c : string -> V -> bool)
    (f : string -> V -> option string) (g : string -> V -> W)
    (n : string * V -> string) (l : list (string * V)) (acc : PyDict.dict W) :
  (forall k i, (k, i) ∈ l -> c k i = true -> f k i = Some (n (k, i))) ->
  NoDup (PyDict.keys acc ++ map n (List.filter (fun kv => c kv.1 kv.2) l)) ->
  PyDict.comprehension_from c f g l acc =
    Some (acc ++ map (fun kv => (n kv, g kv.1 kv.2))
                     (List.filter (fun kv => c kv.1 kv.2) l))%list.
Proof.
  revert acc. induction l as [|[k i] l IH]; intros acc Hf Hnd; simpl.
  - by rewrite app_nil_r.
  - simpl in Hnd. destruct (c k i) eqn:Ec.
    + rewrite (Hf k i) by (done || apply list_elem_of_here). simpl in Hnd.
      apply NoDup_app in Hnd as (Hacc & Hdisj & Hrest).
      assert (PyDict.get (n (k, i)) acc = None) as Hnone.
      { apply PyDictFacts.get_None_keys. intros Hin.
        apply (Hdisj _ Hin). apply list_elem_of_here. }
      rewrite set_absent by done. rewrite IH.
      * by rewrite <- app_assoc.
      * intros k0 i0 Hin. apply Hf. by apply list_elem_of_further.
      * unfold PyDict.keys. rewrite map_app, <- app_assoc. simpl.
        apply NoDup_app. split_and!; [done | | done].
        intros y Hy. by apply Hdisj.
    + apply IH; [|done]. intros k0 i0 Hin. apply Hf.
      by apply list_elem_of_further.
Qed.

Lemma filter_keys_NoDup {V} (c : string * V -> bool) (d : PyDict.dict V) :
  NoDup (PyDict.keys d) -> NoDup (PyDict.keys (List.filter c d)).
Proof.
  unfold PyDict.keys. induction d as [|kv d IH]; simpl; [done|].
  rewrite NoDup_cons. intros [Hnin Hd]. destruct (c kv); simpl; [|auto].
  apply NoDup_cons. split; [|auto]. intros Hin. apply Hnin.
  apply list_elem_of_fmap in Hin as (kv' & -> & Hin').
  apply list_elem_of_fmap. exists kv'. split; [done|].
  apply list_elem_of_In in Hin'. apply filter_In in Hin' as [Hin' _].
  by apply list_elem_of_In.
Qed.

Section ColonFree.
Variable HOST_CONFIGS_DIR : string.
Variable HOST_ENV_DIR : string.

(** X22: in every state the server can reach in which no stored id holds a
    colon, [list_dashboards] answers 200 with the mapping from the stored
    dashboard ids of the user's entries, in the order of the registry, to
    their ports. *)
Lemma list_dashboards_colon_free (u : string) (w : world) (s : state) :
  reachable HOST_CONFIGS_DIR HOST_ENV_DIR s ->
  u ≠ "" ->
  (forall k i, (k, i) ∈ dashboard_containers s ->
               PyStr.contains colon (user_id i) = false
               ∧ PyStr.contains colon (dashboard_id i) = false) ->
  list_dashboards (Some u) w s =
    (Response
       (Dashboards
          (map (fun kv => (dashboard_id kv.2, port kv.2))
               (List.filter (fun kv => String.eqb (user_id kv.2) u)
                            (dashboard_containers s)))) 200,
     s).
Proof.
  intros [Hwf _ Hent]%reachable_Inv Hu%truthy_Some Hfree.
  unfold list_dashboards. rewrite Hu.
  unfold view, mbind, M_bind, bind, gets, ret.
  unfold dashboards_of, PyDict.comprehension, PyDict.items.
  rewrite (comprehension_from_distinct _ _ _ (fun kv => dashboard_id kv.2)).
  - reflexivity.
  - intros k i Hin _. destruct (Hent k i Hin) as (-> & _).
    destruct (Hfree _ _ Hin) as [Hcu Hcd].
    by destruct (second_segment (user_id i) (dashboard_id i) "" Hcu Hcd).
  - simpl.
    set (l := List.filter _ _).
    assert (Hkeys : PyDict.keys l
                    = map (dashboard_key u) (map (fun kv => dashboard_id kv.2) l)).
    { unfold PyDict.keys. rewrite map_map. apply map_ext_in.
      intros [k i] Hin. apply filter_In in Hin as [Hin Hu'].
      apply String.eqb_eq in Hu'. simpl in *.
      apply list_elem_of_In in Hin. destruct (Hent k i Hin) as (-> & _).
      by rewrite Hu'. }
    pose proof (filter_keys_NoDup
                  (fun kv : string * info => String.eqb (user_id kv.2) u)
                  _ Hwf) as Hnd.
    fold l in Hnd. rewrite Hkeys in Hnd. by apply NoDup_fmap_1 in Hnd.
Qed.

End ColonFree.

(** * Further properties of the handlers *)

(** ** The handlers as equations *)

Section Equations.
Variable HOST_CONFIGS_DIR : string.
Variable HOST_ENV_DIR : string.

Abbreviation provision' := (provision HOST_CONFIGS_DIR HOST_ENV_DIR).
Abbreviation create_dashboard' := (create_dashboard HOST_CONFIGS_DIR HOST_ENV_DIR).
Abbreviation remove_dashboard' := (remove_dashboard HOST_CONFIGS_DIR).

(** A valid [create_dashboard], step by step: the state after lines 56-62,
    the [try] block up to the port, [containers.run], the entry. *)
Lemma create_dashboard_eq d u x csv w s :
  d ≠ "" -> u ≠ "" -> x ≠ "" ->
  let key := dashboard_key u d in
  create_dashboard' (CreateData (Some d) (Some u) (Some x) csv) w s =
    match provision' d u x csv key w (after_replace key w s) with
    | (Raise e, s3) => (Response (ErrorException e) 500, s3)
    | (Ok (p, vols), s3) =>
        match run_result w with
        | None =>
            (Response (ErrorException DockerError) 500,
             add_event (EvRun "vizro-dashboard" p vols None) s3)
        | Some c =>
            (Response (DashboardCreated p key) 200,
             set_containers
               (PyDict.set key (Info p c u d) (dashboard_containers s3))
               (add_event (EvRun "vizro-dashboard" p vols (Some c)) s3))
        end
    end.
Proof.
  intros Hd Hu Hx key. rewrite create_dashboard_unfold by done. fold key.
  unfold view, create_body, try_except. rewrite bind_unfold.
  destruct (provision' d u x csv key w (after_replace key w s))
    as [[[p vols]|e] s3]; [|reflexivity].
  unfold Docker.run, commit, mbind, M_bind, bind, asks, modify, ret, raise.
  by destruct (run_result w).
Qed.

(** The steps of [provision], when it returns. *)
Lemma provision_inv d u x csv key w s p vols s' :
  provision' d u x csv key w s = (Ok (p, vols), s') ->
  let cfg := (build_config d u x csv).1 in
  let cpath := OsPath.join CONTAINER_CONFIGS_DIR (config_filename key) in
  let hpath := OsPath.join HOST_CONFIGS_DIR (config_filename key) in
  exists s1 s2,
    write_config cpath cfg w s = (Ok tt, s1)
    ∧ clear_host_config hpath w s1 = (Ok tt, s2)
    ∧ ensure_env env_path w s2 = (Ok tt, s')
    ∧ get_free_port w s' = (Ok p, s')
    ∧ vols = to_volumes (build_volumes HOST_ENV_DIR hpath (build_config d u x csv).2).
Proof.
  intros H cfg cpath hpath. subst cfg cpath hpath. unfold provision in H.
  destruct (build_config d u x csv) as [cfg csvv]. cbn [fst snd].
  apply bind_Ok_inv in H as ([] & s1 & H1 & H).
  apply bind_Ok_inv in H as ([] & s2 & H2 & H).
  apply bind_Ok_inv in H as ([] & s3 & H3 & H).
  apply bind_Ok_inv in H as (p' & s4 & H4 & H).
  injection H as -> <- ->. exists s1, s2.
  pose proof (get_free_port_cases w s3) as Hg.
  destruct (scan_ports _ _ _); rewrite Hg in H4; [|discriminate].
  injection H4 as -> <-. rewrite Hg. done.
Qed.

(** A valid [remove_dashboard], step by step. *)
Lemma remove_dashboard_eq d u w s :
  d ≠ "" -> u ≠ "" ->
  let key := dashboard_key u d in
  remove_dashboard' (RemoveData (Some d) (Some u)) w s =
    match PyDict.get key (dashboard_containers s) with
    | None => (Response ErrorNotFound 404, s)
    | Some i =>
        let s1 := add_events (teardown_events w (container_of i))
                    (set_containers (PyDict.pop key (dashboard_containers s)) s) in
        if stop_ok w (container_of i) && remove_ok w (container_of i)
        then view (remove_finish HOST_CONFIGS_DIR d u key) w s1
        else (Response (ErrorFailedToStop DockerError) 500, s1)
    end.
Proof.
  intros Hd%truthy_Some Hu%truthy_Some key. unfold remove_dashboard.
  cbn [r_dashboard_id r_user_id]. rewrite Hd, Hu. cbn [andb]. fold key.
  unfold view. rewrite bind_unfold. cbn [gets].
  destruct (PyDict.get key (dashboard_containers s)) as [i|]; [|reflexivity].
  unfold remove_present, remove_teardown.
  rewrite (bind_unfold (modify _)). cbn [modify].
  rewrite (bind_unfold (try_except _ _)). unfold try_except.
  rewrite teardown_then.
  by destruct (stop_ok w (container_of i) && remove_ok w (container_of i)).
Qed.

End Equations.

(** ** The file-system steps, when they return *)

(** [shutil.rmtree(p)] on a map: what is at [p] or below it goes. *)
Definition without_tree (p : string) (f : gmap string node) : gmap string node :=
  filter (fun kv => Os.under p kv.1 = false) f.

Lemma rmtree_Ok p w s s1 :
  Os.rmtree p w s = (Ok tt, s1) -> s1 = set_fs (without_tree p (fs s)) s.
Proof.
  unfold Os.rmtree, mbind, M_bind, bind, asks, modify, raise. simpl.
  destruct (rmtree_ok w p); [|done]. by intros [= <-].
Qed.

Lemma write_Ok p c w s s1 :
  Os.write p c w s = (Ok tt, s1) -> s1 = set_fs (<[p := File c]> (fs s)) s.
Proof.
  unfold Os.write, mbind, M_bind, bind, asks, gets, modify, raise. simpl.
  destruct (open_ok w p && negb (Os.isdir p (fs s))); [|done].
  by intros [= <-].
Qed.

Lemma write_config_Ok p cfg w s s1 :
  write_config p cfg w s = (Ok tt, s1) ->
  fs s1 = <[p := File (Json cfg)]>
            (if Os.isdir p (fs s) then without_tree p (fs s) else fs s)
  ∧ dashboard_containers s1 = dashboard_containers s
  ∧ docker s1 = docker s.
Proof.
  unfold write_config. intros H.
  apply bind_Ok_inv in H as (b & s0 & H0 & H). injection H0 as <- <-.
  apply bind_Ok_inv in H as ([] & s2 & H2 & H).
  apply bind_Ok_inv in H as ([] & s3 & H3 & H).
  apply bind_Ok_inv in H as (f & s4 & H4 & H). injection H4 as <- <-.
  assert (s1 = s3) as -> by (destruct (Os.isfile p (fs s3)); by injection H).
  apply write_Ok in H3 as ->.
  assert (Os.exists_ p (fs s) && Os.isdir p (fs s) = Os.isdir p (fs s)) as Hb.
  { unfold Os.exists_, Os.isdir. by destruct (fs s !! p) as [[]|]. }
  rewrite Hb in H2. destruct (Os.isdir p (fs s)).
  - by apply rmtree_Ok in H2 as ->.
  - by injection H2 as <-.
Qed.

Lemma clear_host_config_Ok p w s s1 :
  clear_host_config p w s = (Ok tt, s1) ->
  fs s1 = (if Os.isdir p (fs s) then without_tree p (fs s) else fs s)
  ∧ dashboard_containers s1 = dashboard_containers s
  ∧ docker s1 = docker s.
Proof.
  unfold clear_host_config. intros H.
  apply bind_Ok_inv in H as (b & s0 & H0 & H). injection H0 as <- <-.
  assert (Os.exists_ p (fs s) && Os.isdir p (fs s) = Os.isdir p (fs s)) as Hb.
  { unfold Os.exists_, Os.isdir. by destruct (fs s !! p) as [[]|]. }
  rewrite Hb in H. destruct (Os.isdir p (fs s)).
  - by apply rmtree_Ok in H as ->.
  - by injection H as <-.
Qed.

Lemma ensure_env_Ok w s s1 :
  ensure_env env_path w s = (Ok tt, s1) ->
  fs s1 = (if Os.exists_ env_path (fs s) then fs s
           else <[env_path := File (Text placeholder)]> (fs s))
  ∧ dashboard_containers s1 = dashboard_containers s
  ∧ docker s1 = docker s.
Proof.
  unfold ensure_env. intros H.
  apply bind_Ok_inv in H as (b & s0 & H0 & H). injection H0 as <- <-.
  destruct (Os.exists_ env_path (fs s)).
  - by injection H as <-.
  - by apply write_Ok in H as ->.
Qed.

Lemma without_tree_lookup_under p q f :
  Os.under p q = true -> without_tree p f !! q = None.
Proof.
  intros H. unfold without_tree. rewrite map_lookup_filter.
  destruct (f !! q); [|done]. simpl. rewrite H.
  by rewrite option_guard_False.
Qed.

Lemma without_tree_lookup_other p q f :
  Os.under p q = false -> without_tree p f !! q = f !! q.
Proof.
  intros H. unfold without_tree. rewrite map_lookup_filter.
  destruct (f !! q); [|done]. simpl. rewrite H.
  by rewrite option_guard_True.
Qed.

Lemma without_tree_isdir p q f :
  Os.isdir q (without_tree p f) = true -> Os.isdir q f = true.
Proof.
  unfold Os.isdir. destruct (Os.under p q) eqn:E.
  - by rewrite without_tree_lookup_under.
  - by rewrite without_tree_lookup_other.
Qed.

Lemma under_refl p : Os.under p p = true.
Proof. unfold Os.under. by rewrite String.eqb_refl. Qed.

(** ** Requests that are turned away *)

(** A field that Python takes as false: it is missing, or the empty string. *)
Definition missing (o : option string) : Prop := o = None ∨ o = Some "".

Lemma truthy_false o : truthy o = false <-> missing o.
Proof.
  unfold missing. destruct o as [s|]; simpl.
  - destruct (String.eqb_spec s "") as [->|Hne]; simpl.
    + split; auto.
    + split; [done|]. intros [? | [= ?]]; done.
  - split; auto.
Qed.

Lemma truthy_true o : truthy o = true <-> exists s, o = Some s ∧ s ≠ "".
Proof.
  destruct o as [s|].
  - rewrite truthy_Some. split; [by exists s|]. by intros (? & [= <-] & ?).
  - split; [done|]. by intros (? & ? & _).
Qed.

Lemma missing_any3 a b c :
  missing a ∨ missing b ∨ missing c
  <-> truthy a && truthy b && truthy c = false.
Proof.
  rewrite <- !truthy_false.
  destruct (truthy a), (truthy b), (truthy c); simpl; naive_solver.
Qed.

Lemma missing_any2 a b :
  missing a ∨ missing b <-> truthy a && truthy b = false.
Proof.
  rewrite <- !truthy_false.
  destruct (truthy a), (truthy b); simpl; naive_solver.
Qed.

Section Validation.
Variable HOST_CONFIGS_DIR : string.
Variable HOST_ENV_DIR : string.

Abbreviation create_dashboard' := (create_dashboard HOST_CONFIGS_DIR HOST_ENV_DIR).
Abbreviation remove_dashboard' := (remove_dashboard HOST_CONFIGS_DIR).
Abbreviation reachable' := (reachable HOST_CONFIGS_DIR HOST_ENV_DIR).

Lemma create_dashboard_400 data w s :
  truthy (d_dashboard_id data) && truthy (d_user_id data)
    && truthy (d_description data) = false ->
  create_dashboard' data w s = (Response (ErrorRequired required_create) 400, s).
Proof.
  destruct data as [[d|] [u|] [x|] csv]; unfold create_dashboard;
    cbn [d_dashboard_id d_user_id d_description]; try reflexivity.
  by intros ->.
Qed.

Lemma remove_dashboard_400 data w s :
  truthy (r_dashboard_id data) && truthy (r_user_id data) = false ->
  remove_dashboard' data w s = (Response (ErrorRequired required_remove) 400, s).
Proof.
  destruct data as [[d|] [u|]]; unfold remove_dashboard;
    cbn [r_dashboard_id r_user_id]; try reflexivity.
  by intros ->.
Qed.

(** X1: [create_dashboard] answers 400 with "dashboard_id, user_id, and
    description are required", and changes nothing, exactly when one of the
    three fields is missing or the empty string; [csv_path] plays no part in
    this.  Every other request is answered 200 or 500. *)
Theorem create_dashboard_validation (data : create_data) (w : world) (s : state) :
  (missing (d_dashboard_id data) ∨ missing (d_user_id data)
     ∨ missing (d_description data)
   <-> create_dashboard' data w s
       = (Response (ErrorRequired required_create) 400, s))
  ∧ (status (create_dashboard' data w s).1 = 400
     -> create_dashboard' data w s
        = (Response (ErrorRequired required_create) 400, s))
  ∧ (status (create_dashboard' data w s).1 = 400
     ∨ status (create_dashboard' data w s).1 = 200
     ∨ status (create_dashboard' data w s).1 = 500).
Proof.
  rewrite missing_any3.
  destruct (truthy (d_dashboard_id data) && truthy (d_user_id data)
              && truthy (d_description data)) eqn:E.
  - apply andb_true_iff in E as [[(d & Ed & Hd)%truthy_true
      (u & Eu & Hu)%truthy_true]%andb_true_iff (x & Ex & Hx)%truthy_true].
    destruct data as [? ? ? csv]. simpl in Ed, Eu, Ex. subst.
    destruct (create_dashboard' _ w s) as [r s'] eqn:Hc.
    apply create_dashboard_cases in Hc; [|done..]. cbv zeta in Hc.
    destruct Hc as [(p & c & vols & -> & _) | (e & -> & _)]; simpl;
      (split_and!; [split; [done | by intros [= ?]] | done | auto]).
  - rewrite create_dashboard_400 by done. simpl. split_and!; auto. by split.
Qed.

(** X2: [remove_dashboard] answers 400 exactly when [dashboard_id] or
    [user_id] is missing or empty, and 404 exactly when both are given and
    the registry has no entry for the key; in both cases nothing changes: no
    Docker call is made and no file is touched. *)
Theorem remove_dashboard_rejects (data : remove_data) (w : world) (s : state) :
  (status (remove_dashboard' data w s).1 = 400
   <-> missing (r_dashboard_id data) ∨ missing (r_user_id data))
  ∧ (status (remove_dashboard' data w s).1 = 404
     <-> exists d u,
           data = RemoveData (Some d) (Some u) ∧ d ≠ "" ∧ u ≠ ""
           ∧ PyDict.get (dashboard_key u d) (dashboard_containers s) = None)
  ∧ (status (remove_dashboard' data w s).1 = 400
     ∨ status (remove_dashboard' data w s).1 = 404
     -> (remove_dashboard' data w s).2 = s).
Proof.
  rewrite missing_any2.
  destruct (truthy (r_dashboard_id data) && truthy (r_user_id data)) eqn:E.
  - apply andb_true_iff in E as [(d & Ed & Hd)%truthy_true
      (u & Eu & Hu)%truthy_true].
    destruct data as [? ?]. simpl in Ed, Eu. subst.
    destruct (remove_dashboard' _ w s) as [r s'] eqn:Hr.
    apply remove_dashboard_cases in Hr; [|done..]. cbv zeta in Hr.
    destruct (PyDict.get (dashboard_key u d) (dashboard_containers s))
      as [i|] eqn:Hg.
    + destruct Hr as (_ & _ & Hr).
      assert (status r = 200 ∨ status r = 500) as Hst.
      { destruct (stop_ok w (container_of i) && remove_ok w (container_of i));
          [destruct Hr as [-> | ->] | destruct Hr as [-> _]]; auto. }
      simpl. split_and!.
      * split; [lia | done].
      * split; [lia|]. intros (d' & u' & [= <- <-] & _ & _ & Hn). congruence.
      * lia.
    + destruct Hr as [-> ->]. simpl. split_and!; [done | | done].
      split; [|done]. intros _. by exists d, u.
  - rewrite remove_dashboard_400 by done. simpl. split_and!; [done | | done].
    split; [done|]. intros (d & u & -> & Hd%truthy_Some & Hu%truthy_Some & _).
    cbn [r_dashboard_id r_user_id] in E. rewrite Hd, Hu in E. done.
Qed.

End Validation.

(** ** The registry as the query handlers show it *)

Lemma comprehension_from_total {V W} (c : string -> V -> bool)
    (f : string -> V -> option string) (g : string -> V -> W)
    (l : list (string * V)) (acc : PyDict.dict W) :
  (forall k i, (k, i) ∈ l -> c k i = true -> is_Some (f k i)) ->
  is_Some (PyDict.comprehension_from c f g l acc).
Proof.
  revert acc. induction l as [|[k i] l IH]; intros acc Hf; simpl; [done|].
  destruct (c k i) eqn:Ec.
  - destruct (Hf k i) as [name ->]; [apply list_elem_of_here | done |].
    apply IH. intros k0 i0 Hin. apply Hf. by apply list_elem_of_further.
  - apply IH. intros k0 i0 Hin. apply Hf. by apply list_elem_of_further.
Qed.

(** The key under which a request reads or writes the registry. *)
Definition request_key (r : request) : option string :=
  match r with
  | Create (CreateData (Some d) (Some u) _ _) => Some (dashboard_key u d)
  | Remove (RemoveData (Some d) (Some u)) => Some (dashboard_key u d)
  | _ => None
  end.

Section Queries.
Variable HOST_CONFIGS_DIR : string.
Variable HOST_ENV_DIR : string.

Abbreviation create_dashboard' := (create_dashboard HOST_CONFIGS_DIR HOST_ENV_DIR).
Abbreviation remove_dashboard' := (remove_dashboard HOST_CONFIGS_DIR).
Abbreviation handle' := (handle HOST_CONFIGS_DIR HOST_ENV_DIR).
Abbreviation reachable' := (reachable HOST_CONFIGS_DIR HOST_ENV_DIR).

(** X3: in every state the server can reach, [list_dashboards] for a
    non-empty user answers 200 and changes nothing: [key.split(":")[1]]
    never raises, because every key of the registry was built with a colon.
    Every port of the listing is the port of an entry stored for that user,
    so no dashboard of another user is shown. *)
Theorem list_dashboards_never_fails (s : state) (u : string) (w : world) :
  reachable' s -> u ≠ "" ->
  exists ds,
    list_dashboards (Some u) w s = (Response (Dashboards ds) 200, s)
    ∧ forall name p, (name, p) ∈ ds ->
        exists key i, PyDict.get key (dashboard_containers s) = Some i
                      ∧ user_id i = u ∧ port i = p.
Proof.
  intros [Hwf _ Hent]%reachable_Inv Hu.
  assert (is_Some (dashboards_of u (dashboard_containers s))) as [ds Hds].
  { apply comprehension_from_total. intros k i Hin _.
    destruct (Hent k i Hin) as (-> & _).
    destruct (key_has_segment (user_id i) (dashboard_id i)) as [name Hn].
    by exists name. }
  assert (list_dashboards (Some u) w s = (Response (Dashboards ds) 200, s))
    as Hl.
  { unfold list_dashboards. apply truthy_Some in Hu as ->.
    unfold view, mbind, M_bind, bind, gets, ret. by rewrite Hds. }
  exists ds. split; [done|]. intros name p Hin.
  destruct (list_dashboards_origin u w s ds 200 name p) as
    (key & i & Hk & ? & ? & _); [by rewrite Hl | done |].
  exists key, i. split; [|done]. by apply PyDictFacts.elem_get_Some.
Qed.

(** X4: in every state the server can reach, [index] and [route_dashboard]
    agree on the dashboards a URL can name.  For a user and a dashboard id
    that the rule of the route accepts, both non-empty and without a slash,
    the debugging page shows the pair of their key and a port exactly when
    the route redirects to that port, and the route answers 404 "Dashboard
    not found" exactly when the page does not show the key.  The page also
    shows the keys of ids with a slash, which no URL of the rule names. *)
Theorem index_agrees_with_route (s : state) (w : world) :
  reachable' s ->
  exists shown,
    index w s = (Response (RunningDashboards shown) 200, s)
    ∧ PyDict.keys shown = PyDict.keys (dashboard_containers s)
    ∧ forall u d,
        url_segment u = true -> url_segment d = true ->
        (forall p, (dashboard_key u d, p) ∈ shown
           <-> route_dashboard u d w s = (Response (Redirect p) 302, s))
        ∧ (dashboard_key u d ∉ PyDict.keys shown
           <-> route_dashboard u d w s = (Response ErrorNotFound 404, s)).
Proof.
  intros [Hwf _ _]%reachable_Inv.
  exists (map (fun kv => (kv.1, port kv.2)) (dashboard_containers s)).
  assert (PyDict.keys (map (fun kv : string * info => (kv.1, port kv.2))
                           (dashboard_containers s))
          = PyDict.keys (dashboard_containers s)) as Hkeys.
  { unfold PyDict.keys. rewrite map_map. done. }
  split; [reflexivity|]. split; [done|].
  intros u d _ _. set (key := dashboard_key u d). rewrite Hkeys.
  rewrite <- PyDictFacts.get_None_keys.
  unfold route_dashboard, view. rewrite bind_unfold. cbn [gets]. fold key.
  split.
  - intros p. rewrite list_elem_of_fmap. split.
    + intros ([k i] & [= -> ->] & Hin). simpl.
      by rewrite (PyDictFacts.elem_get_Some _ _ _ Hwf Hin).
    + destruct (PyDict.get key (dashboard_containers s)) as [i|] eqn:E;
        [|by intros [= ?]].
      intros [= <-]. exists (key, i). split; [done|].
      by apply PyDictFacts.get_Some_elem.
  - destruct (PyDict.get key (dashboard_containers s)); split; done.
Qed.

(** X5: a dashboard that [create_dashboard] reports as created is the one
    [route_dashboard] finds, when its ids can be written in a URL of the
    route.  For a user and a dashboard id that the rule accepts, both
    without a slash, the answer 200 names the key [user_id:dashboard_id] and
    a port of 8051..8100, and right after it the route of that user and
    dashboard redirects to that port.  [create_dashboard] also takes ids
    with a slash; the rule hands no such id to the view, and nothing is
    said about them here. *)
Theorem create_then_route (data : create_data) (w w' : world) (s s' : state)
    (p : Z) (k d u : string) :
  d_dashboard_id data = Some d -> d_user_id data = Some u ->
  url_segment u = true -> url_segment d = true ->
  create_dashboard' data w s = (Response (DashboardCreated p k) 200, s') ->
  k = dashboard_key u d
  ∧ 8051 <= p <= 8100
  ∧ route_dashboard u d w' s' = (Response (Redirect p) 302, s').
Proof.
  intros Ed Eu _ _ H.
  destruct (create_dashboard_shape HOST_CONFIGS_DIR HOST_ENV_DIR data)
    as [H400 | (d0 & u0 & x & Hd & Hu & Hx & Hdata & _)].
  - rewrite H400 in H. discriminate H.
  - rewrite Hdata in H, Ed, Eu. injection Ed as ->. injection Eu as ->.
    apply create_dashboard_cases in H; [|done..]. cbv zeta in H.
    destruct H as [(p0 & c & vols & [= <- Hk] & Hscan & _ & Hreg & _)
                  | (e & [= ] & _)].
    subst k. apply scan_ports_fresh in Hscan as (Hr & _).
    split_and!; try done; try lia.
    unfold route_dashboard, view. rewrite bind_unfold. cbn [gets].
    by rewrite Hreg, PyDictFacts.get_set_eq.
Qed.

(** X6: once [remove_dashboard] has been called for the key of an entry, the
    entry is gone whatever the call answered: the route of the key answers
    404, and a second [remove_dashboard] answers 404 "Dashboard not found"
    and does nothing. *)
Theorem remove_then_not_found (d u : string) (w w' : world) (s : state) :
  reachable' s -> d ≠ "" -> u ≠ "" ->
  let s' := (remove_dashboard' (RemoveData (Some d) (Some u)) w s).2 in
  route_dashboard u d w' s' = (Response ErrorNotFound 404, s')
  ∧ remove_dashboard' (RemoveData (Some d) (Some u)) w' s'
    = (Response ErrorNotFound 404, s').
Proof.
  intros [Hwf _ _]%reachable_Inv Hd Hu s'.
  assert (PyDict.get (dashboard_key u d) (dashboard_containers s') = None)
    as Hnone.
  { subst s'. destruct (remove_dashboard' _ w s) as [r s1] eqn:E.
    apply remove_dashboard_cases in E; [|done..]. cbv zeta in E. simpl.
    destruct (PyDict.get _ (dashboard_containers s)) eqn:Hg.
    - destruct E as (-> & _). by apply PyDictFacts.get_pop_eq.
    - by destruct E as [_ ->]. }
  split.
  - unfold route_dashboard, view. rewrite bind_unfold. cbn [gets].
    by rewrite Hnone.
  - rewrite remove_dashboard_eq by done. cbv zeta. by rewrite Hnone.
Qed.

(** X7: a request touches no entry but the one of its own key: the entry
    stored under any other key is the same before and after, whatever the
    request is and however it ends. *)
Theorem handle_keeps_other_keys (r : request) (w : world) (s : state)
    (k : string) :
  request_key r ≠ Some k ->
  PyDict.get k (dashboard_containers (handle' r w s).2)
  = PyDict.get k (dashboard_containers s).
Proof.
  intros Hk. destruct r as [data | data | user | u d |]; simpl.
  - destruct (create_dashboard_shape HOST_CONFIGS_DIR HOST_ENV_DIR data)
      as [H400 | (d & u & x & Hd & Hu & Hx & Hdata & _)].
    + by rewrite H400.
    + rewrite Hdata in *. simpl in Hk.
      assert (dashboard_key u d ≠ k) as Hne by congruence.
      destruct (create_dashboard' _ w s) as [res s'] eqn:E.
      apply create_dashboard_cases in E; [|done..]. cbv zeta in E. simpl.
      destruct E as [(p & c & vols & _ & _ & _ & -> & _) | (e & _ & -> & _)].
      * by rewrite PyDictFacts.get_set_ne, PyDictFacts.get_pop_ne.
      * by rewrite PyDictFacts.get_pop_ne.
  - destruct (remove_dashboard_shape HOST_CONFIGS_DIR data)
      as [H400 | (d & u & Hd & Hu & ->)].
    + by rewrite H400.
    + simpl in Hk. assert (dashboard_key u d ≠ k) as Hne by congruence.
      destruct (remove_dashboard' _ w s) as [res s'] eqn:E.
      apply remove_dashboard_cases in E; [|done..]. cbv zeta in E. simpl.
      destruct (PyDict.get (dashboard_key u d) (dashboard_containers s)).
      * destruct E as (-> & _). by rewrite PyDictFacts.get_pop_ne.
      * by destruct E as [_ ->].
  - by rewrite list_dashboards_state.
  - by rewrite route_dashboard_state.
  - done.
Qed.

End Queries.

(** ** When the file-system steps go through *)

Lemma rmtree_run p w s :
  rmtree_ok w p = true ->
  Os.rmtree p w s = (Ok tt, set_fs (without_tree p (fs s)) s).
Proof.
  intros H. unfold Os.rmtree, mbind, M_bind, bind, asks, modify, raise.
  by rewrite H.
Qed.

Lemma write_run p c w s :
  open_ok w p = true -> Os.isdir p (fs s) = false ->
  Os.write p c w s = (Ok tt, set_fs (<[p := File c]> (fs s)) s).
Proof.
  intros H1 H2. unfold Os.write, mbind, M_bind, bind, asks, gets, modify, raise.
  by rewrite H1, H2.
Qed.

Lemma isdir_without_tree p f : Os.isdir p (without_tree p f) = false.
Proof.
  unfold Os.isdir. by rewrite without_tree_lookup_under by apply under_refl.
Qed.

Lemma isfile_insert p c f : Os.isfile p (<[p := File c]> f) = true.
Proof. unfold Os.isfile. by rewrite lookup_insert_eq. Qed.

Lemma write_config_runs p cfg w s :
  open_ok w p = true -> rmtree_ok w p = true ->
  exists s1, write_config p cfg w s = (Ok tt, s1).
Proof.
  intros Ho Hr. unfold write_config. rewrite bind_unfold. cbn [gets].
  assert (Os.exists_ p (fs s) && Os.isdir p (fs s) = Os.isdir p (fs s)) as ->.
  { unfold Os.exists_, Os.isdir. by destruct (fs s !! p) as [[]|]. }
  destruct (Os.isdir p (fs s)) eqn:Ed.
  - rewrite bind_unfold, rmtree_run by done.
    rewrite bind_unfold, write_run; [|done|apply isdir_without_tree].
    rewrite bind_unfold. cbn [gets fs set_fs]. rewrite isfile_insert.
    by eexists.
  - rewrite bind_unfold. cbn [ret].
    rewrite bind_unfold, write_run by done.
    rewrite bind_unfold. cbn [gets fs set_fs]. rewrite isfile_insert.
    by eexists.
Qed.

Lemma clear_host_config_runs p w s :
  rmtree_ok w p = true -> exists s1, clear_host_config p w s = (Ok tt, s1).
Proof.
  intros Hr. unfold clear_host_config. rewrite bind_unfold. cbn [gets].
  destruct (Os.exists_ p (fs s) && Os.isdir p (fs s)).
  - rewrite rmtree_run by done. by eexists.
  - by eexists.
Qed.

Lemma ensure_env_runs p w s :
  open_ok w p = true -> exists s1, ensure_env p w s = (Ok tt, s1).
Proof.
  intros Ho. unfold ensure_env. rewrite bind_unfold. cbn [gets].
  destruct (Os.exists_ p (fs s)) eqn:E; [by eexists|].
  rewrite write_run; [by eexists | done |].
  unfold Os.exists_, Os.isdir in *. by destruct (fs s !! p).
Qed.

(** The config file survives the steps that follow its writing. *)
Lemma config_file_kept cpath hpath cfg w s s1 s2 s3 :
  write_config cpath cfg w s = (Ok tt, s1) ->
  clear_host_config hpath w s1 = (Ok tt, s2) ->
  ensure_env env_path w s2 = (Ok tt, s3) ->
  ends_json cpath ->
  hpath = cpath ∨ Os.under hpath cpath = false ->
  fs s3 !! cpath = Some (File (Json cfg)).
Proof.
  intros (F1 & _)%write_config_Ok (F2 & _)%clear_host_config_Ok
    (F3 & _)%ensure_env_Ok Hjson Hpaths.
  assert (fs s1 !! cpath = Some (File (Json cfg))) as L1
    by (rewrite F1; apply lookup_insert_eq).
  assert (fs s2 !! cpath = fs s1 !! cpath) as L2.
  { rewrite F2. destruct (Os.isdir hpath (fs s1)) eqn:Ed; [|done].
    destruct Hpaths as [E | Hu']; [|by apply without_tree_lookup_other].
    rewrite E in Ed. unfold Os.isdir in Ed. by rewrite L1 in Ed. }
  rewrite F3. destruct (Os.exists_ env_path (fs s2)); [congruence|].
  rewrite lookup_insert_ne; [congruence|].
  intros E. symmetry in E. revert E. by apply ends_json_not_env.
Qed.

Section Runs.
Variable HOST_CONFIGS_DIR : string.
Variable HOST_ENV_DIR : string.

Abbreviation provision' := (provision HOST_CONFIGS_DIR HOST_ENV_DIR).

(** When every [open] and every [rmtree] succeeds, the [try] block gets as
    far as [get_free_port], and ends as the scan of the ports does. *)
Lemma provision_runs d u x csv key w s :
  (forall p, open_ok w p = true) -> (forall p, rmtree_ok w p = true) ->
  exists s',
    provision' d u x csv key w s =
      (match scan_ports (port_in_use w) (held_ports (dashboard_containers s))
                        (range 8051 8101) with
       | Some p =>
           Ok (p, to_volumes
                    (build_volumes HOST_ENV_DIR
                       (OsPath.join HOST_CONFIGS_DIR (config_filename key))
                       (build_config d u x csv).2))
       | None => Raise NoFreePorts
       end, s')
    ∧ (OsPath.join HOST_CONFIGS_DIR (config_filename key)
       = OsPath.join CONTAINER_CONFIGS_DIR (config_filename key)
       ∨ Os.under (OsPath.join HOST_CONFIGS_DIR (config_filename key))
           (OsPath.join CONTAINER_CONFIGS_DIR (config_filename key)) = false ->
       fs s' !! OsPath.join CONTAINER_CONFIGS_DIR (config_filename key)
       = Some (File (Json (build_config d u x csv).1))).
Proof.
  intros Ho Hr. unfold provision.
  destruct (build_config d u x csv) as [cfg csvv]. cbn [fst snd].
  destruct (write_config_runs
              (OsPath.join CONTAINER_CONFIGS_DIR (config_filename key))
              cfg w s (Ho _) (Hr _)) as [s1 H1].
  destruct (clear_host_config_runs
              (OsPath.join HOST_CONFIGS_DIR (config_filename key))
              w s1 (Hr _)) as [s2 H2].
  destruct (ensure_env_runs (OsPath.join CONTAINER_ENV_DIR "extra.env")
              w s2 (Ho _)) as [s3 H3].
  rewrite bind_unfold, H1, bind_unfold, H2, bind_unfold, H3, bind_unfold.
  exists s3. split.
  - apply write_config_Ok in H1 as (_ & E1 & _).
    apply clear_host_config_Ok in H2 as (_ & E2 & _).
    apply ensure_env_Ok in H3 as (_ & E3 & _).
    pose proof (get_free_port_cases w s3) as Hg.
    rewrite E3, E2, E1 in Hg.
    destruct (scan_ports _ _ _); by rewrite Hg.
  - apply (config_file_kept _ _ _ _ _ _ _ _ H1 H2 H3).
    apply join_ends_json, config_filename_ends_json.
Qed.

End Runs.

(** ** How many dashboards there can be *)

Lemma held_ports_length (d : PyDict.dict info) :
  List.length (held_ports d) = List.length d.
Proof. unfold held_ports, PyDict.values. by rewrite !length_map. Qed.

Lemma held_ports_inv p (d : PyDict.dict info) :
  p ∈ held_ports d -> exists k i, (k, i) ∈ d ∧ port i = p.
Proof.
  unfold held_ports, PyDict.values. rewrite list_elem_of_fmap.
  intros (i & -> & ([k i'] & -> & Hin)%list_elem_of_fmap). by exists k, i'.
Qed.

(** The port of the popped entry is held by no entry that is left. *)
Lemma held_ports_pop_fresh k i (d : PyDict.dict info) :
  NoDup (held_ports d) -> PyDict.get k d = Some i ->
  port i ∉ held_ports (PyDict.pop k d).
Proof.
  induction d as [|[k0 i0] d IH]; simpl; [done|].
  change (held_ports ((k0, i0) :: d)) with (port i0 :: held_ports d).
  rewrite NoDup_cons. intros [Hnin Hd].
  destruct (String.eqb k0 k); [by intros [= <-]|]. intros Hg.
  change (held_ports ((k0, i0) :: PyDict.pop k d))
    with (port i0 :: held_ports (PyDict.pop k d)).
  rewrite not_elem_of_cons. split; [|auto].
  intros E. apply Hnin. rewrite <- E.
  apply PyDictFacts.get_Some_elem in Hg. by eapply held_ports_elem.
Qed.

(** The scan finds a port whenever one of the range is eligible, and none
    above it. *)
Lemma scan_ports_finds in_use held q :
  8051 <= q <= 8100 -> in_use q = false -> q ∉ held ->
  exists p, scan_ports in_use held (range 8051 8101) = Some p ∧ p <= q.
Proof.
  intros Hq Hu Hh. pose proof (scan_ports_seqZ in_use held 50 8051) as Hs.
  change (seqZ 8051 (Z.of_nat 50)) with (range 8051 8101) in Hs.
  assert (eligible in_use held q = true) as He by by apply eligible_spec.
  destruct (scan_ports in_use held (range 8051 8101)) as [p|].
  - exists p. split; [done|]. destruct Hs as (_ & _ & Hmin).
    destruct (decide (p <= q)) as [|Hgt]; [done|].
    rewrite Hmin in He by lia. done.
  - rewrite Hs in He by lia. done.
Qed.

Lemma scan_ports_none in_use held :
  (forall q, 8051 <= q <= 8100 -> in_use q = true ∨ q ∈ held) ->
  scan_ports in_use held (range 8051 8101) = None.
Proof.
  intros H. destruct (scan_ports in_use held (range 8051 8101)) as [p|] eqn:E;
    [|done].
  apply scan_ports_fresh in E as (Hr & Hu & Hh).
  destruct (H p Hr); [congruence | done].
Qed.

Section Capacity.
Variable HOST_CONFIGS_DIR : string.
Variable HOST_ENV_DIR : string.

Abbreviation create_dashboard' := (create_dashboard HOST_CONFIGS_DIR HOST_ENV_DIR).
Abbreviation remove_dashboard' := (remove_dashboard HOST_CONFIGS_DIR).
Abbreviation provision' := (provision HOST_CONFIGS_DIR HOST_ENV_DIR).
Abbreviation reachable' := (reachable HOST_CONFIGS_DIR HOST_ENV_DIR).

(** X8: the registry never holds more than 50 dashboards, one for each port
    of 8051..8100; and when it holds 50, every port of the range is held by
    an entry. *)
Theorem registry_capacity (s : state) :
  reachable' s ->
  (List.length (dashboard_containers s) <= 50)%nat
  ∧ (List.length (dashboard_containers s) = 50%nat ->
     forall q, 8051 <= q <= 8100 -> q ∈ held_ports (dashboard_containers s)).
Proof.
  intros [_ Hports Hent]%reachable_Inv.
  assert (held_ports (dashboard_containers s) ⊆+ seqZ 8051 50) as Hsub.
  { apply NoDup_submseteq; [done|]. intros p (k & i & Hin & <-)%held_ports_inv.
    destruct (Hent k i Hin) as (_ & _ & _ & Hr & _).
    apply elem_of_seqZ. lia. }
  rewrite <- held_ports_length. split.
  - apply submseteq_length in Hsub. by rewrite length_seqZ in Hsub.
  - intros Hlen q Hq.
    apply submseteq_length_Permutation in Hsub;
      [|rewrite length_seqZ, Hlen; simpl; lia].
    rewrite Hsub. apply elem_of_seqZ. lia.
Qed.

(** X9: when every port of 8051..8100 is occupied or held by the entry of
    another key, a valid [create_dashboard] answers 500 and starts no
    container: the only Docker calls are those that tear down the old entry
    of the key, which is lost.  When the file-system calls succeed, the
    error is "No free ports available". *)
Theorem create_without_free_port (d u x : string) (csv : option string)
    (w : world) (s : state) :
  d ≠ "" -> u ≠ "" -> x ≠ "" ->
  let key := dashboard_key u d in
  (forall q, 8051 <= q <= 8100 ->
     port_in_use w q = true
     ∨ q ∈ held_ports (PyDict.pop key (dashboard_containers s))) ->
  exists e s',
    create_dashboard' (CreateData (Some d) (Some u) (Some x) csv) w s
    = (Response (ErrorException e) 500, s')
    ∧ dashboard_containers s' = PyDict.pop key (dashboard_containers s)
    ∧ docker s' =
        (docker s ++ match PyDict.get key (dashboard_containers s) with
                     | Some i => teardown_events w (container_of i)
                     | None => []
                     end)%list
    ∧ ((forall p, open_ok w p = true) -> (forall p, rmtree_ok w p = true) ->
       e = NoFreePorts).
Proof.
  intros Hd Hu Hx key Hfull. apply scan_ports_none in Hfull.
  rewrite create_dashboard_eq by done. cbv zeta. fold key.
  pose proof (provision_same_containers HOST_CONFIGS_DIR HOST_ENV_DIR
                d u x csv key w (after_replace key w s)) as Hc.
  pose proof (provision_same_docker HOST_CONFIGS_DIR HOST_ENV_DIR
                d u x csv key w (after_replace key w s)) as Hk.
  unfold same_containers, same_docker in Hc, Hk.
  rewrite after_replace_containers in Hc.
  assert (docker (after_replace key w s) =
            (docker s ++ match PyDict.get key (dashboard_containers s) with
                         | Some i => teardown_events w (container_of i)
                         | None => []
                         end)%list) as Hdk.
  { unfold after_replace. by rewrite replace_existing_run. }
  rewrite Hdk in Hk.
  destruct (provision' d u x csv key w (after_replace key w s))
    as [[[p vols]|e] s3] eqn:Hp.
  - apply provision_Ok in Hp as (Hscan & _).
    rewrite after_replace_containers, Hfull in Hscan. done.
  - exists e, s3. split_and!; [done | done | done |].
    intros Ho Hr.
    destruct (provision_runs HOST_CONFIGS_DIR HOST_ENV_DIR d u x csv key w
                (after_replace key w s) Ho Hr) as (s4 & H4 & _).
    rewrite after_replace_containers, Hfull, Hp in H4. congruence.
Qed.

(** X10: a valid [create_dashboard] succeeds whenever the world lets it:
    when every [open] and [rmtree] succeeds, [containers.run] returns a
    container and some port of the range is neither occupied nor held by
    another entry, the answer is 200 with a port no higher than that one,
    and the registry then maps the key to that port and that container. *)
Theorem create_succeeds (d u x : string) (csv : option string)
    (w : world) (s : state) (c : container) (q : Z) :
  d ≠ "" -> u ≠ "" -> x ≠ "" ->
  let key := dashboard_key u d in
  (forall p, open_ok w p = true) -> (forall p, rmtree_ok w p = true) ->
  run_result w = Some c ->
  8051 <= q <= 8100 -> port_in_use w q = false ->
  q ∉ held_ports (PyDict.pop key (dashboard_containers s)) ->
  exists p s',
    create_dashboard' (CreateData (Some d) (Some u) (Some x) csv) w s
    = (Response (DashboardCreated p key) 200, s')
    ∧ 8051 <= p <= q
    ∧ PyDict.get key (dashboard_containers s') = Some (Info p c u d).
Proof.
  intros Hd Hu Hx key Ho Hr Hrun Hq Hfree Hheld.
  destruct (scan_ports_finds _ _ _ Hq Hfree Hheld) as (p & Hscan & Hle).
  rewrite create_dashboard_eq by done. cbv zeta. fold key.
  destruct (provision_runs HOST_CONFIGS_DIR HOST_ENV_DIR d u x csv key w
              (after_replace key w s) Ho Hr) as (s3 & H3 & _).
  rewrite after_replace_containers, Hscan in H3. rewrite H3, Hrun.
  exists p. eexists. split; [reflexivity|].
  apply scan_ports_fresh in Hscan as (Hp & _).
  split; [lia|]. cbn [set_containers dashboard_containers].
  apply PyDictFacts.get_set_eq.
Qed.

(** X11: the port of a removed dashboard can be given out again: after
    [remove_dashboard] has popped an entry, a [create_dashboard] that
    succeeds while the probe finds that port free gets that port or a lower
    one. *)
Theorem removed_port_is_reused (d u : string) (data : create_data)
    (w w' : world) (s s' : state) (old : info) (p : Z) (k : string) :
  reachable' s -> d ≠ "" -> u ≠ "" ->
  PyDict.get (dashboard_key u d) (dashboard_containers s) = Some old ->
  port_in_use w' (port old) = false ->
  create_dashboard' data w'
    (remove_dashboard' (RemoveData (Some d) (Some u)) w s).2
  = (Response (DashboardCreated p k) 200, s') ->
  p <= port old.
Proof.
  intros HI Hd Hu Hold Hfree Hc. pose proof HI as [Hwf Hports Hent]%reachable_Inv.
  destruct (remove_dashboard' _ w s) as [r s1] eqn:Er.
  apply remove_dashboard_cases in Er; [|done..]. cbv zeta in Er.
  rewrite Hold in Er. destruct Er as (Hreg & _). simpl in Hc.
  destruct (create_dashboard_shape HOST_CONFIGS_DIR HOST_ENV_DIR data)
    as [H400 | (d2 & u2 & x2 & Hd2 & Hu2 & Hx2 & Hdata & _)].
  { rewrite H400 in Hc. discriminate Hc. }
  rewrite Hdata in Hc. apply create_dashboard_cases in Hc; [|done..].
  cbv zeta in Hc.
  destruct Hc as [(p0 & c & vols & [= <- _] & Hscan & _)
                 | (e & [= ] & _)].
  rewrite Hreg in Hscan.
  destruct (Hent _ _ (PyDictFacts.get_Some_elem _ _ _ Hold))
    as (_ & _ & _ & Hr & _).
  destruct (scan_ports_finds (port_in_use w')
              (held_ports (PyDict.pop (dashboard_key u2 d2)
                 (PyDict.pop (dashboard_key u d) (dashboard_containers s))))
              (port old) Hr Hfree) as (p' & Hscan' & Hle).
  { intros Hin%held_ports_pop. by eapply held_ports_pop_fresh. }
  congruence.
Qed.

End Capacity.

(** ** The files a request touches *)

(** The path [q] holds the same before and after. *)
Definition same_at (q : string) (s s' : state) : Prop := fs s' !! q = fs s !! q.

Lemma same_at_refl q s : same_at q s s.
Proof. done. Qed.
Lemma same_at_trans q s1 s2 s3 :
  same_at q s1 s2 -> same_at q s2 s3 -> same_at q s1 s3.
Proof. unfold same_at. congruence. Qed.

#[global] Hint Resolve same_at_refl same_at_trans : keeps.

Lemma same_at_same_fs q s s' : fs s' = fs s -> same_at q s s'.
Proof. unfold same_at. by intros ->. Qed.

Lemma under_false_ne p q : Os.under p q = false -> p ≠ q.
Proof. intros H ->. by rewrite under_refl in H. Qed.

Lemma rmtree_same_at p q : Os.under p q = false -> keeps (same_at q) (Os.rmtree p).
Proof.
  intros Hp w s. unfold Os.rmtree, mbind, M_bind, bind, asks, modify.
  destruct (rmtree_ok w p); simpl; [|done].
  unfold same_at, set_fs. cbn [fs]. by apply without_tree_lookup_other.
Qed.

Lemma write_same_at p c q : p ≠ q -> keeps (same_at q) (Os.write p c).
Proof.
  intros Hp w s. unfold Os.write, mbind, M_bind, bind, asks, gets, modify.
  destruct (open_ok w p && negb (Os.isdir p (fs s))); simpl; [|done].
  unfold same_at, set_fs. cbn [fs]. by rewrite lookup_insert_ne.
Qed.

Lemma remove_same_at p q : p ≠ q -> keeps (same_at q) (Os.remove p).
Proof.
  intros Hp w s. unfold Os.remove, mbind, M_bind, bind, asks, gets, modify.
  destruct (unlink_ok w p && negb (Os.isdir p (fs s))); simpl; [|done].
  unfold same_at, set_fs. cbn [fs]. by rewrite lookup_delete_ne.
Qed.

Lemma teardown_events_ok w c :
  stop_ok w c && remove_ok w c = true ->
  teardown_events w c = [EvStop c true; EvRemove c true].
Proof. unfold teardown_events. by intros [-> ->]%andb_true_iff. Qed.

Section Files.
Variable HOST_CONFIGS_DIR : string.
Variable HOST_ENV_DIR : string.

Abbreviation create_dashboard' := (create_dashboard HOST_CONFIGS_DIR HOST_ENV_DIR).
Abbreviation create_body' := (create_body HOST_CONFIGS_DIR HOST_ENV_DIR).
Abbreviation remove_dashboard' := (remove_dashboard HOST_CONFIGS_DIR).
Abbreviation provision' := (provision HOST_CONFIGS_DIR HOST_ENV_DIR).
Abbreviation reachable' := (reachable HOST_CONFIGS_DIR HOST_ENV_DIR).

(** Lines 176-180, with the answer of Flask when [os.remove] raises. *)
Lemma remove_finish_run d u key w s :
  let config_file := OsPath.join HOST_CONFIGS_DIR (config_filename key) in
  view (remove_finish HOST_CONFIGS_DIR d u key) w s =
    if Os.exists_ config_file (fs s) then
      if unlink_ok w config_file && negb (Os.isdir config_file (fs s))
      then (Response (DashboardRemoved d u) 200,
            set_fs (delete config_file (fs s)) s)
      else (Response InternalServerError 500, s)
    else (Response (DashboardRemoved d u) 200, s).
Proof.
  cbv zeta. unfold view, remove_finish. rewrite bind_unfold. cbn [gets].
  destruct (Os.exists_ _ (fs s)); [|reflexivity].
  rewrite bind_unfold. unfold Os.remove. rewrite bind_unfold. cbn [asks].
  rewrite bind_unfold. cbn [gets].
  by destruct (unlink_ok w _ && negb (Os.isdir _ (fs s))).
Qed.

(** X12: when [remove_dashboard] answers 200, the key had an entry; that
    entry is gone and the others are in place; its container was stopped and
    then removed, both with success, and no other Docker call was made; and
    the config file of the key on the host side does not exist any more,
    while every other path is as before. *)
Theorem remove_success (data : remove_data) (w : world) (s s' : state)
    (d u : string) :
  reachable' s ->
  remove_dashboard' data w s = (Response (DashboardRemoved d u) 200, s') ->
  let key := dashboard_key u d in
  let config_file := OsPath.join HOST_CONFIGS_DIR (config_filename key) in
  exists i,
    data = RemoveData (Some d) (Some u)
    ∧ PyDict.get key (dashboard_containers s) = Some i
    ∧ dashboard_containers s' = PyDict.pop key (dashboard_containers s)
    ∧ PyDict.get key (dashboard_containers s') = None
    ∧ docker s' =
        (docker s ++ [EvStop (container_of i) true;
                      EvRemove (container_of i) true])%list
    ∧ fs s' = delete config_file (fs s).
Proof.
  intros [Hwf _ _]%reachable_Inv H key cf.
  destruct (remove_dashboard_shape HOST_CONFIGS_DIR data)
    as [H400 | (d0 & u0 & Hd & Hu & ->)].
  { rewrite H400 in H. discriminate H. }
  rewrite remove_dashboard_eq in H by done. cbv zeta in H.
  destruct (PyDict.get (dashboard_key u0 d0) (dashboard_containers s))
    as [i|] eqn:Hg; [|discriminate H].
  destruct (stop_ok w (container_of i) && remove_ok w (container_of i)) eqn:Hok;
    [|discriminate H].
  rewrite remove_finish_run, teardown_events_ok in H by done.
  cbv zeta in H. cbn [add_events set_containers fs] in H.
  assert (d0 = d ∧ u0 = u
          ∧ dashboard_containers s' =
              PyDict.pop (dashboard_key u0 d0) (dashboard_containers s)
          ∧ docker s' = (docker s ++ [EvStop (container_of i) true;
                                      EvRemove (container_of i) true])%list
          ∧ fs s' = delete (OsPath.join HOST_CONFIGS_DIR
                              (config_filename (dashboard_key u0 d0))) (fs s))
    as (-> & -> & Hreg & Hdk & Hfs).
  { destruct (Os.exists_ _ (fs s)) eqn:He.
    - destruct (unlink_ok w _ && negb (Os.isdir _ (fs s)));
        [|discriminate H].
      by injection H as -> -> <-.
    - injection H as -> -> <-. cbn. split_and!; try done.
      symmetry. apply delete_id. unfold Os.exists_ in He.
      by destruct (fs s !! _). }
  exists i. fold key in Hg, Hreg. split_and!; try done.
  rewrite Hreg. by apply PyDictFacts.get_pop_eq.
Qed.

(** X13: [os.remove] is called outside the [try] block.  When the container
    was stopped and removed but the config file cannot be deleted (the call
    fails, or the path is a directory), the exception reaches Flask: the
    answer is its plain 500, the file is still there, and the dashboard is
    gone from the registry all the same. *)
Theorem remove_unlink_failure (d u : string) (w : world) (s : state) (i : info) :
  d ≠ "" -> u ≠ "" ->
  let key := dashboard_key u d in
  let config_file := OsPath.join HOST_CONFIGS_DIR (config_filename key) in
  PyDict.get key (dashboard_containers s) = Some i ->
  stop_ok w (container_of i) = true -> remove_ok w (container_of i) = true ->
  Os.exists_ config_file (fs s) = true ->
  unlink_ok w config_file = false ∨ Os.isdir config_file (fs s) = true ->
  exists s',
    remove_dashboard' (RemoveData (Some d) (Some u)) w s
    = (Response InternalServerError 500, s')
    ∧ dashboard_containers s' = PyDict.pop key (dashboard_containers s)
    ∧ docker s' =
        (docker s ++ [EvStop (container_of i) true;
                      EvRemove (container_of i) true])%list
    ∧ fs s' = fs s.
Proof.
  intros Hd Hu key cf Hg Hs Hr He Hfail.
  rewrite remove_dashboard_eq by done. cbv zeta. fold key. rewrite Hg, Hs, Hr.
  cbn [andb]. rewrite remove_finish_run, teardown_events_ok
    by (by rewrite Hs, Hr).
  cbv zeta. cbn [add_events set_containers fs]. fold key cf. rewrite He.
  assert (unlink_ok w cf && negb (Os.isdir cf (fs s)) = false) as ->.
  { destruct Hfail as [-> | ->]; [done | by rewrite andb_false_r]. }
  eexists. split; [reflexivity|]. done.
Qed.

Lemma create_body_same_at q d u x csv key :
  Os.under (OsPath.join CONTAINER_CONFIGS_DIR (config_filename key)) q = false ->
  Os.under (OsPath.join HOST_CONFIGS_DIR (config_filename key)) q = false ->
  q ≠ env_path ->
  keeps (same_at q) (create_body' d u x csv key).
Proof.
  intros Hc Hh He.
  pose proof (under_false_ne _ _ Hc) as Hc'.
  unfold create_body, provision, write_config, clear_host_config, ensure_env,
    commit.
  fold env_path. keeps_auto;
    first [ by apply rmtree_same_at
          | by apply write_same_at
          | intros ? ?; apply same_at_same_fs, run_same_fs
          | by apply same_at_same_fs ].
Qed.

(** X14: a valid [create_dashboard] writes and deletes only at three places:
    the config file of its key in [/app/configs], the path of that file
    under [HOST_CONFIGS_DIR], what lies below these two, and [extra.env];
    every other path holds the same before and after, however the request
    ends.  A valid [remove_dashboard] touches one path only, the config file
    of its key on the host side: every other path, [extra.env] and the
    config file in [/app/configs] included, holds the same before and
    after. *)
Theorem handlers_touch_only_their_files (d u x : string) (csv : option string)
    (w : world) (s : state) (q : string) :
  d ≠ "" -> u ≠ "" -> x ≠ "" ->
  let key := dashboard_key u d in
  let container_config_path :=
    OsPath.join CONTAINER_CONFIGS_DIR (config_filename key) in
  let host_config_path := OsPath.join HOST_CONFIGS_DIR (config_filename key) in
  (Os.under container_config_path q = false ->
   Os.under host_config_path q = false ->
   q ≠ OsPath.join CONTAINER_ENV_DIR "extra.env" ->
   fs (create_dashboard' (CreateData (Some d) (Some u) (Some x) csv) w s).2 !! q
   = fs s !! q)
  ∧ (q ≠ host_config_path ->
     fs (remove_dashboard' (RemoveData (Some d) (Some u)) w s).2 !! q
     = fs s !! q).
Proof.
  intros Hd Hu Hx key cpath hpath. split.
  - intros Hc Hh He. rewrite create_dashboard_unfold by done. fold key.
    change (same_at q s (view (create_body' d u x csv key) w
                           (after_replace key w s)).2).
    apply same_at_trans with (after_replace key w s).
    + unfold after_replace. rewrite replace_existing_run.
      by apply same_at_same_fs.
    + apply keeps_view. by apply create_body_same_at.
  - intros Hne. assert (hpath ≠ q) as Hne' by congruence.
    apply truthy_Some in Hd, Hu.
    unfold remove_dashboard. cbn [r_dashboard_id r_user_id].
    rewrite Hd, Hu. cbn [andb]. fold key.
    change (same_at q s
              (view (present ← gets (fun s => PyDict.get key (dashboard_containers s));
                     match present with
                     | Some i => remove_present HOST_CONFIGS_DIR d u key i
                     | None => ret (Response ErrorNotFound 404)
                     end) w s).2).
    apply keeps_view. unfold remove_present, remove_teardown, remove_finish.
    keeps_auto;
      first [ intros ? ?; apply same_at_same_fs, stop_same_fs
            | intros ? ?; apply same_at_same_fs, docker_remove_same_fs
            | by apply remove_same_at
            | by apply same_at_same_fs ].
Qed.

End Files.

(** ** What a created dashboard is given *)

Lemma endswith_append c (a b : string) :
  b ≠ "" -> PyStr.endswith c (a ++ b) = PyStr.endswith c b.
Proof.
  intros Hb. induction a as [|x a IH]; [done|].
  rewrite append_cons. simpl. rewrite IH.
  destruct (a ++ b) eqn:E; [|done].
  destruct a; [by rewrite append_nil_l in E | by rewrite append_cons in E].
Qed.

Lemma endswith_nonempty c (a : string) : PyStr.endswith c a = true -> a ≠ "".
Proof. by destruct a. Qed.

Lemma endswith_cons c x (a : string) :
  a ≠ "" -> PyStr.endswith c (String x a) = PyStr.endswith c a.
Proof. by destruct a. Qed.

(** [os.path.basename]: the path is a directory part, empty or ending in a
    slash, followed by the base name, which holds no slash. *)
Lemma basename_spec (p : string) :
  PyStr.contains OsPath.sep (OsPath.basename p) = false
  ∧ exists dir, p = dir ++ OsPath.basename p
                ∧ (dir = "" ∨ PyStr.endswith OsPath.sep dir = true).
Proof.
  unfold OsPath.basename.
  enough (PyStr.contains OsPath.sep (List.last (PyStr.split OsPath.sep p) "")
          = false
          ∧ exists dir, p = dir ++ List.last (PyStr.split OsPath.sep p) ""
              ∧ ((dir = "" ∧ tl (PyStr.split OsPath.sep p) = [])
                 ∨ (PyStr.endswith OsPath.sep dir = true
                    ∧ tl (PyStr.split OsPath.sep p) ≠ [])))
    as (H1 & dir & H2 & H3).
  { split; [done|]. exists dir. split; [done|]. destruct H3 as [[? _]|[? _]]; auto. }
  induction p as [|x p (IHc & dir & IHp & IHd)]; simpl.
  - split; [done|]. exists "". auto.
  - pose proof (split_nonempty OsPath.sep p) as Hne.
    destruct (PyStr.split OsPath.sep p) as [|h t] eqn:Es; [done|].
    destruct (Ascii.eqb_spec x OsPath.sep) as [->|Hx].
    + change (List.last ("" :: h :: t) "") with (List.last (h :: t) "").
      split; [done|]. exists (String OsPath.sep dir). split.
      * rewrite append_cons. by rewrite <- IHp.
      * right. split; [|done]. destruct IHd as [[-> _] | [Hd _]]; [done|].
        rewrite endswith_cons; [done | by eapply endswith_nonempty].
    + destruct t as [|h' t].
      * simpl in *. destruct IHd as [[-> _] | [_ ?]]; [|done].
        rewrite append_nil_l in IHp. subst h. split.
        -- apply Ascii.eqb_neq in Hx. by rewrite Hx.
        -- exists "". auto.
      * change (List.last (String x h :: h' :: t) "")
          with (List.last (h :: h' :: t) "").
        split; [done|]. destruct IHd as [[_ ?] | [Hd _]]; [done|].
        exists (String x dir). split.
        -- rewrite append_cons. by rewrite <- IHp.
        -- right. split; [|done].
           rewrite endswith_cons; [done | by eapply endswith_nonempty].
Qed.

Lemma to_volumes_elem k b m (d : PyDict.dict (string * string)) :
  PyDict.get k d = Some (b, m) -> Volume k b m ∈ to_volumes d.
Proof.
  intros H%PyDictFacts.get_Some_elem. unfold to_volumes, PyDict.items.
  apply list_elem_of_fmap. by exists (k, (b, m)).
Qed.

Lemma replace_append o n (a b : string) :
  PyStr.replace o n (a ++ b) = PyStr.replace o n a ++ PyStr.replace o n b.
Proof.
  induction a as [|x a IH]; [done|].
  rewrite append_cons. simpl. by rewrite IH.
Qed.

Section Mounts.
Variable HOST_CONFIGS_DIR : string.
Variable HOST_ENV_DIR : string.

Abbreviation create_dashboard' := (create_dashboard HOST_CONFIGS_DIR HOST_ENV_DIR).
Abbreviation provision' := (provision HOST_CONFIGS_DIR HOST_ENV_DIR).
Abbreviation reachable' := (reachable HOST_CONFIGS_DIR HOST_ENV_DIR).

(** The steps behind an answer 200 of [create_dashboard]. *)
Lemma create_200_inv data w s p k s' :
  create_dashboard' data w s = (Response (DashboardCreated p k) 200, s') ->
  exists d u x c vols s3,
    d ≠ "" ∧ u ≠ "" ∧ x ≠ ""
    ∧ data = CreateData (Some d) (Some u) (Some x) (d_csv_path data)
    ∧ k = dashboard_key u d
    ∧ provision' d u x (d_csv_path data) k w (after_replace k w s)
      = (Ok (p, vols), s3)
    ∧ run_result w = Some c
    ∧ s' = set_containers
             (PyDict.set k (Info p c u d) (dashboard_containers s3))
             (add_event (EvRun "vizro-dashboard" p vols (Some c)) s3).
Proof.
  intros H.
  destruct (create_dashboard_shape HOST_CONFIGS_DIR HOST_ENV_DIR data)
    as [H400 | (d & u & x & Hd & Hu & Hx & Hdata & _)].
  { rewrite H400 in H. discriminate H. }
  rewrite Hdata, create_dashboard_eq in H by done. cbv zeta in H.
  destruct (provision' d u x (d_csv_path data) (dashboard_key u d) w _)
    as [[[p0 vols]|e] s3] eqn:Hp; [|discriminate H].
  destruct (run_result w) as [c|] eqn:Hrun; [|discriminate H].
  injection H as -> Hk <-. subst k.
  by exists d, u, x, c, vols, s3.
Qed.

(** The config file after an answer 200. *)
Lemma create_200_config_file data w s p k s' :
  let container_config_path :=
    OsPath.join CONTAINER_CONFIGS_DIR (config_filename k) in
  let host_config_path := OsPath.join HOST_CONFIGS_DIR (config_filename k) in
  host_config_path = container_config_path
  ∨ Os.under host_config_path container_config_path = false ->
  create_dashboard' data w s = (Response (DashboardCreated p k) 200, s') ->
  exists d u x,
    data = CreateData (Some d) (Some u) (Some x) (d_csv_path data)
    ∧ k = dashboard_key u d
    ∧ fs s' !! container_config_path
      = Some (File (Json (build_config d u x (d_csv_path data)).1)).
Proof.
  intros cpath hpath Hpaths H.
  apply create_200_inv in H
    as (d & u & x & c & vols & s3 & Hd & Hu & Hx & Hdata & Hk & Hp & Hrun & ->).
  exists d, u, x. split; [done|]. split; [done|].
  apply provision_inv in Hp. cbv zeta in Hp. fold cpath hpath in Hp.
  destruct Hp as (s1 & s2 & H1 & H2 & H3 & _).
  cbn [set_containers add_event fs].
  apply (config_file_kept _ _ _ _ _ _ _ _ H1 H2 H3); [|done].
  apply join_ends_json, config_filename_ends_json.
Qed.

Lemma build_config_fields d u x csv :
  let cfg := (build_config d u x csv).1 in
  cfg_dashboard_id cfg = d ∧ cfg_user_id cfg = u ∧ cfg_description cfg = x
  ∧ (forall path, csv = Some path -> path ≠ "" ->
       cfg_csv_path cfg = Some ("/data/csvs/" ++ OsPath.basename path))
  ∧ (csv = None ∨ csv = Some "" -> cfg_csv_path cfg = csv).
Proof.
  cbv zeta. unfold build_config. split_and!.
  - by destruct csv as [path|]; [destruct (truthy (Some path))|].
  - by destruct csv as [path|]; [destruct (truthy (Some path))|].
  - by destruct csv as [path|]; [destruct (truthy (Some path))|].
  - intros path -> Hne%truthy_Some. by rewrite Hne.
  - intros [-> | ->]; reflexivity.
Qed.

(** X15: when [create_dashboard] answers 200, the config file of the key in
    [/app/configs] is a regular file that holds the ids and the description
    of the request, whatever was at that path before, a directory included.
    Its [csv_path] is [/data/csvs/] followed by the base name of the path
    given, or what was given when that is missing or empty.  The file is
    lost only if the path under [HOST_CONFIGS_DIR] is a directory that
    contains it, which the hypothesis excludes. *)
Theorem create_writes_config (data : create_data) (w : world) (s s' : state)
    (p : Z) (k : string) :
  let container_config_path :=
    OsPath.join CONTAINER_CONFIGS_DIR (config_filename k) in
  let host_config_path := OsPath.join HOST_CONFIGS_DIR (config_filename k) in
  host_config_path = container_config_path
  ∨ Os.under host_config_path container_config_path = false ->
  create_dashboard' data w s = (Response (DashboardCreated p k) 200, s') ->
  exists cfg,
    fs s' !! container_config_path = Some (File (Json cfg))
    ∧ Some (cfg_dashboard_id cfg) = d_dashboard_id data
    ∧ Some (cfg_user_id cfg) = d_user_id data
    ∧ Some (cfg_description cfg) = d_description data
    ∧ (forall path, d_csv_path data = Some path -> path ≠ "" ->
         cfg_csv_path cfg = Some ("/data/csvs/" ++ OsPath.basename path))
    ∧ (d_csv_path data = None ∨ d_csv_path data = Some "" ->
         cfg_csv_path cfg = d_csv_path data).
Proof.
  intros cpath hpath Hpaths H.
  destruct (create_200_config_file _ _ _ _ _ _ Hpaths H)
    as (d & u & x & Hdata & _ & Hfile).
  destruct (build_config_fields d u x (d_csv_path data))
    as (Fd & Fu & Fx & Fcsv & Fnone).
  eexists. split; [exact Hfile|].
  rewrite Fd, Fu, Fx. rewrite Hdata at 1 2 3. done.
Qed.

(** X18: a [user_id] that starts with a slash takes the config file out of
    [/app/configs]: [os.path.join] drops the directory in front of an
    absolute name, so after an answer 200 the config was written at the
    absolute path that the [user_id] spells, followed by [_], the
    [dashboard_id] and [.json], each colon turned into [_]. *)
Theorem create_with_absolute_user_id (data : create_data) (w : world)
    (s s' : state) (p : Z) (k u : string) :
  d_user_id data = Some u ->
  PyStr.startswith "/" u = true ->
  create_dashboard' data w s = (Response (DashboardCreated p k) 200, s') ->
  exists cfg d,
    d_dashboard_id data = Some d
    ∧ fs s' !! (PyStr.replace ":" "_" u ++ "_" ++ PyStr.replace ":" "_" d
                ++ ".json")
      = Some (File (Json cfg))
    ∧ cfg_user_id cfg = u
    ∧ PyStr.startswith "/" (PyStr.replace ":" "_" u) = true.
Proof.
  intros Hu Hs H.
  assert (Hst : PyStr.startswith "/" (PyStr.replace ":" "_" u) = true).
  { destruct u as [|c u]; [done|]. simpl in *.
    apply Ascii.eqb_eq in Hs as ->. done. }
  assert (Habs : forall dir d,
             OsPath.join dir (config_filename (dashboard_key u d))
             = PyStr.replace ":" "_" u ++ "_" ++ PyStr.replace ":" "_" d
               ++ ".json").
  { intros dir d. unfold config_filename, dashboard_key.
    rewrite !replace_append, !append_assoc'.
    change (PyStr.replace ":" "_" ":") with "_".
    unfold OsPath.join.
    destruct (PyStr.replace ":" "_" u) as [|c r]; [done|].
    rewrite !append_cons. unfold PyStr.startswith, OsPath.sep in *.
    by rewrite Hst. }
  destruct (create_200_config_file data w s p k s') as
    (d & u' & x & Hdata & -> & Hfile); [|done|].
  - left. destruct (create_200_inv _ _ _ _ _ _ H)
      as (d & u' & x & _ & _ & _ & _ & _ & _ & Hdata & -> & _).
    rewrite Hdata in Hu. injection Hu as ->. by rewrite !Habs.
  - rewrite Hdata in Hu. injection Hu as ->. rewrite Habs in Hfile.
    eexists. exists d. rewrite Hdata at 1. split_and!; [done | exact Hfile | | done].
    apply build_config_fields.
Qed.

(** X16: when [create_dashboard] answers 200, the last Docker call is the
    [containers.run] of the image [vizro-dashboard] on the port of the
    answer.  Every volume of it is read-only and no host path is mounted
    twice.  A [csv_path] that is given is mounted at [/data/csvs/] followed
    by its base name, which holds no slash.  The config file and [extra.env]
    of the host side are mounted at [/config/dashboard_config.json] and
    [/config/extra.env], unless [csv_path] is that very host path: then the
    CSV mount takes its place. *)
Theorem create_mounts (data : create_data) (w : world) (s s' : state)
    (p : Z) (k : string) :
  create_dashboard' data w s = (Response (DashboardCreated p k) 200, s') ->
  let host_config_path := OsPath.join HOST_CONFIGS_DIR (config_filename k) in
  let host_env_path := OsPath.join HOST_ENV_DIR "extra.env" in
  exists c vols before,
    docker s' = (before ++ [EvRun "vizro-dashboard" p vols (Some c)])%list
    ∧ Forall (fun v => vol_mode v = "ro") vols
    ∧ NoDup (map vol_host vols)
    ∧ (forall path, d_csv_path data = Some path -> path ≠ "" ->
         Volume path ("/data/csvs/" ++ OsPath.basename path) "ro" ∈ vols
         ∧ PyStr.contains "/" (OsPath.basename path) = false)
    ∧ (d_csv_path data ≠ Some host_config_path ->
       Volume host_config_path "/config/dashboard_config.json" "ro" ∈ vols)
    ∧ (d_csv_path data ≠ Some host_env_path ->
       Volume host_env_path "/config/extra.env" "ro" ∈ vols).
Proof.
  intros H hpath henv.
  apply create_200_inv in H
    as (d & u & x & c & vols & s3 & Hd & Hu & Hx & Hdata & -> & Hp & Hrun & ->).
  apply provision_inv in Hp. cbv zeta in Hp. fold hpath in Hp.
  destruct Hp as (_ & _ & _ & _ & _ & _ & ->).
  exists c. eexists. exists (docker s3). split; [reflexivity|].
  assert (hpath ≠ henv) as Hne.
  { intros E. assert (PyStr.endswith "n" hpath = true) as Hn.
    { destruct (join_ends_json HOST_CONFIGS_DIR _
                  (config_filename_ends_json (dashboard_key u d))) as [t Ht].
      fold hpath in Ht. rewrite Ht. by rewrite endswith_append. }
    rewrite E in Hn. unfold henv, OsPath.join in Hn. simpl in Hn.
    destruct (_ || _) in Hn.
    - by rewrite endswith_append in Hn.
    - rewrite <- append_assoc', endswith_append in Hn; done. }
  set (base := PyDict.set henv ("/config/extra.env", "ro")
                 (PyDict.set hpath ("/config/dashboard_config.json", "ro")
                    PyDict.empty)).
  assert (Hbase : forall kv, kv ∈ base -> kv.2.2 = "ro").
  { intros kv [-> | [-> | ?%elem_of_nil]%PyDictFacts.elem_set]%PyDictFacts.elem_set;
      done. }
  assert (Hwf : PyDict.wf base).
  { apply PyDictFacts.wf_set, PyDictFacts.wf_set. apply NoDup_nil_2. }
  assert (Hcfg : PyDict.get hpath base
                 = Some ("/config/dashboard_config.json", "ro")).
  { unfold base. rewrite PyDictFacts.get_set_ne by done.
    apply PyDictFacts.get_set_eq. }
  assert (Henv : PyDict.get henv base = Some ("/config/extra.env", "ro"))
    by apply PyDictFacts.get_set_eq.
  unfold build_volumes, build_config. fold hpath henv base.
  destruct (d_csv_path data) as [path|] eqn:Ecsv.
  - destruct (truthy (Some path)) eqn:Et.
    + cbn [snd PyDict.items PyDict.set PyDict.empty fold_left fst].
      split_and!.
      * apply Forall_forall. intros v (kv & -> & Hin)%list_elem_of_fmap.
        apply PyDictFacts.elem_set in Hin as [-> | Hin]; [done | by apply Hbase].
      * unfold to_volumes, PyDict.items. rewrite map_map. simpl.
        by apply PyDictFacts.wf_set.
      * intros ? [= <-] _. split; [|apply basename_spec].
        apply to_volumes_elem, PyDictFacts.get_set_eq.
      * intros Hn. apply to_volumes_elem.
        rewrite PyDictFacts.get_set_ne; [done | congruence].
      * intros Hn. apply to_volumes_elem.
        rewrite PyDictFacts.get_set_ne; [done | congruence].
    + cbn [snd PyDict.items PyDict.empty fold_left]. split_and!.
      * apply Forall_forall. intros v (kv & -> & Hin)%list_elem_of_fmap.
        by apply Hbase.
      * unfold to_volumes, PyDict.items. by rewrite map_map.
      * intros ? [= <-] Hp%truthy_Some. congruence.
      * intros _. by apply to_volumes_elem.
      * intros _. by apply to_volumes_elem.
  - cbn [snd PyDict.items PyDict.empty fold_left]. split_and!.
    + apply Forall_forall. intros v (kv & -> & Hin)%list_elem_of_fmap.
      by apply Hbase.
    + unfold to_volumes, PyDict.items. by rewrite map_map.
    + done.
    + intros _. by apply to_volumes_elem.
    + intros _. by apply to_volumes_elem.
Qed.

End Mounts.

(** ** The order of the Docker calls *)

(** What must have come before a call: [stop] is called on a container
    that an earlier [containers.run] returned, [remove] right after a [stop]
    of the same container that returned; [containers.run] is given the image
    [vizro-dashboard] and a port of the range. *)
Definition event_ok (before : list event) (e : event) : Prop :=
  match e with
  | EvRun image p _ _ => image = "vizro-dashboard" ∧ 8051 <= p <= 8100
  | EvStop c _ =>
      exists p vols, EvRun "vizro-dashboard" p vols (Some c) ∈ before
  | EvRemove c _ => exists l, before = (l ++ [EvStop c true])%list
  end.

Definition well_sequenced (trace : list event) : Prop :=
  forall before e after,
    trace = (before ++ e :: after)%list -> event_ok before e.

Lemma well_sequenced_nil : well_sequenced [].
Proof. intros before e after H. destruct before; discriminate H. Qed.

Lemma well_sequenced_snoc l e :
  well_sequenced l -> event_ok l e -> well_sequenced (l ++ [e]).
Proof.
  intros Hl He before e' after H.
  destruct after as [|x after _] using rev_ind.
  - apply app_inj_tail in H as [-> ->]. done.
  - rewrite app_comm_cons, app_assoc in H. apply app_inj_tail in H as [-> _].
    by eapply Hl.
Qed.

Lemma well_sequenced_teardown l w c :
  well_sequenced l ->
  (exists p vols, EvRun "vizro-dashboard" p vols (Some c) ∈ l) ->
  well_sequenced (l ++ teardown_events w c).
Proof.
  intros Hl Hc. unfold teardown_events. destruct (stop_ok w c).
  - change [EvStop c true; EvRemove c (remove_ok w c)]
      with ([EvStop c true] ++ [EvRemove c (remove_ok w c)])%list.
    rewrite app_assoc. apply well_sequenced_snoc.
    + by apply well_sequenced_snoc.
    + by exists l.
  - by apply well_sequenced_snoc.
Qed.

Section Sequence.
Variable HOST_CONFIGS_DIR : string.
Variable HOST_ENV_DIR : string.

Abbreviation create_dashboard' := (create_dashboard HOST_CONFIGS_DIR HOST_ENV_DIR).
Abbreviation remove_dashboard' := (remove_dashboard HOST_CONFIGS_DIR).
Abbreviation handle' := (handle HOST_CONFIGS_DIR HOST_ENV_DIR).
Abbreviation reachable' := (reachable HOST_CONFIGS_DIR HOST_ENV_DIR).

Lemma well_sequenced_pop s w key :
  Inv s -> well_sequenced (docker s) ->
  well_sequenced
    (docker s ++ match PyDict.get key (dashboard_containers s) with
                 | Some i => teardown_events w (container_of i)
                 | None => []
                 end).
Proof.
  intros [_ _ Hent] Hs.
  destruct (PyDict.get key (dashboard_containers s)) as [i|] eqn:Hg.
  - apply well_sequenced_teardown; [done|].
    apply PyDictFacts.get_Some_elem in Hg.
    destruct (Hent _ _ Hg) as (_ & _ & _ & _ & vols & Hin).
    by exists (port i), vols.
  - by rewrite app_nil_r.
Qed.

Lemma well_sequenced_handle r w s :
  Inv s -> well_sequenced (docker s) -> well_sequenced (docker (handle' r w s).2).
Proof.
  intros HI Hs. destruct r as [data | data | user | u d |]; simpl.
  - destruct (create_dashboard_shape HOST_CONFIGS_DIR HOST_ENV_DIR data)
      as [H400 | (d & u & x & Hd & Hu & Hx & Hdata & _)].
    { by rewrite H400. }
    rewrite Hdata. destruct (create_dashboard' _ w s) as [res s'] eqn:E.
    apply create_dashboard_cases in E; [|done..]. cbv zeta in E. simpl.
    pose proof (well_sequenced_pop s w (dashboard_key u d) HI Hs) as Hpop.
    destruct E as [(p & c & vols & _ & Hscan & _ & _ & ->)
                  | (e & _ & _ & [-> | (p & vols & _ & _ & Hscan & ->)])];
      [ | done | ];
      rewrite app_assoc; apply well_sequenced_snoc; try done;
      apply scan_ports_fresh in Hscan as (Hr & _); by split.
  - destruct (remove_dashboard_shape HOST_CONFIGS_DIR data)
      as [H400 | (d & u & Hd & Hu & ->)].
    { by rewrite H400. }
    destruct (remove_dashboard' _ w s) as [res s'] eqn:E.
    apply remove_dashboard_cases in E; [|done..]. cbv zeta in E. simpl.
    pose proof (well_sequenced_pop s w (dashboard_key u d) HI Hs) as Hpop.
    destruct (PyDict.get (dashboard_key u d) (dashboard_containers s)).
    + destruct E as (_ & -> & _). done.
    + by destruct E as [_ ->].
  - by rewrite list_dashboards_state.
  - by rewrite route_dashboard_state.
  - done.
Qed.

(** X17: in every run of the server, the Docker calls come in order.  A
    container is stopped only if an earlier [containers.run] returned it, so
    the server never stops a container it did not start; [remove] is called
    only right after a [stop] of the same container that succeeded, never
    after one that failed; and every [containers.run] is for the image
    [vizro-dashboard] on a port of 8051..8100. *)
Theorem docker_calls_in_order (s : state) (before after : list event)
    (e : event) :
  reachable' s ->
  docker s = (before ++ e :: after)%list ->
  match e with
  | EvRun image p _ _ => image = "vizro-dashboard" ∧ 8051 <= p <= 8100
  | EvStop c _ =>
      exists p vols, EvRun "vizro-dashboard" p vols (Some c) ∈ before
  | EvRemove c _ => exists l, before = (l ++ [EvStop c true])%list
  end.
Proof.
  intros Hs. enough (well_sequenced (docker s)) as Hw.
  { intros Heq. exact (Hw _ _ _ Heq). }
  clear before after e. induction Hs as [f | s r w Hs IH].
  - apply well_sequenced_nil.
  - apply well_sequenced_handle; [by eapply reachable_Inv | done].
Qed.

End Sequence.

(** ** One config file for two dashboards *)

Lemma append_inj_l (a x y : string) : a ++ x = a ++ y -> x = y.
Proof.
  induction a as [|c a IH]; [done|]. rewrite !append_cons. intros [= E]. auto.
Qed.

(** X19: the name of the config file does not tell two dashboards apart:
    the colon of the key becomes [_], so moving an underscore from the
    [user_id] to the [dashboard_id] changes the key, and with it the entry of
    the registry, but not the file name. *)
Theorem config_filename_collides (a b c : string) :
  dashboard_key (a ++ "_" ++ b) c ≠ dashboard_key a (b ++ "_" ++ c)
  ∧ config_filename (dashboard_key (a ++ "_" ++ b) c)
    = config_filename (dashboard_key a (b ++ "_" ++ c)).
Proof.
  unfold config_filename, dashboard_key. split.
  - rewrite !append_assoc'. intros E%append_inj_l. discriminate E.
  - rewrite !replace_append, !append_assoc'. reflexivity.
Qed.

Section SharedFile.
Variable HOST_CONFIGS_DIR : string.
Variable HOST_ENV_DIR : string.

Abbreviation remove_dashboard' := (remove_dashboard HOST_CONFIGS_DIR).

(** X20: when two keys have the same config file name, removing the
    dashboard of one deletes the file of the other: after the answer 200 the
    other entry is still in the registry, and the config file that its
    container was given is gone from the host side. *)
Theorem remove_deletes_shared_config (d1 u1 d2 u2 : string) (w : world)
    (s s' : state) (i1 : info) :
  dashboard_key u1 d1 ≠ dashboard_key u2 d2 ->
  config_filename (dashboard_key u1 d1) = config_filename (dashboard_key u2 d2) ->
  PyDict.get (dashboard_key u1 d1) (dashboard_containers s) = Some i1 ->
  remove_dashboard' (RemoveData (Some d2) (Some u2)) w s
  = (Response (DashboardRemoved d2 u2) 200, s') ->
  PyDict.get (dashboard_key u1 d1) (dashboard_containers s') = Some i1
  ∧ fs s' !! OsPath.join HOST_CONFIGS_DIR (config_filename (dashboard_key u1 d1))
    = None.
Proof.
  intros Hne Hname Hg H. rewrite Hname.
  destruct (remove_dashboard_shape HOST_CONFIGS_DIR
              (RemoveData (Some d2) (Some u2)))
    as [H400 | (d0 & u0 & Hd & Hu & [= <- <-])].
  { rewrite H400 in H. discriminate H. }
  rewrite remove_dashboard_eq in H by done. cbv zeta in H.
  destruct (PyDict.get (dashboard_key u2 d2) (dashboard_containers s))
    as [i|] eqn:Hg2; [|discriminate H].
  destruct (stop_ok w (container_of i) && remove_ok w (container_of i)) eqn:Hok;
    [|discriminate H].
  rewrite remove_finish_run in H. cbv zeta in H.
  cbn [add_events set_containers fs] in H.
  destruct (Os.exists_ _ (fs s)) eqn:He.
  - destruct (unlink_ok w _ && negb (Os.isdir _ (fs s))); [|discriminate H].
    injection H as <-. cbn. split.
    + by rewrite PyDictFacts.get_pop_ne.
    + apply lookup_delete_eq.
  - injection H as <-. cbn. split.
    + by rewrite PyDictFacts.get_pop_ne.
    + unfold Os.exists_ in He. by destruct (fs s !! _).
Qed.

End SharedFile.

(** ** What a failed request leaves behind *)

Section Leftovers.
Variable HOST_CONFIGS_DIR : string.
Variable HOST_ENV_DIR : string.

Abbreviation create_dashboard' := (create_dashboard HOST_CONFIGS_DIR HOST_ENV_DIR).

(** X21: the config file is written before a port is looked for and before
    the container is started, and nothing takes it back.  When every [open]
    and [rmtree] succeeds, a valid [create_dashboard] leaves the config of
    the request at the config path of its key whatever it answers: also
    when it answers 500 because no port is free or [containers.run]
    raised, and no dashboard was started. *)
Theorem create_leaves_config (d u x : string) (csv : option string)
    (w : world) (s : state) :
  d ≠ "" -> u ≠ "" -> x ≠ "" ->
  let container_config_path :=
    OsPath.join CONTAINER_CONFIGS_DIR (config_filename (dashboard_key u d)) in
  let host_config_path :=
    OsPath.join HOST_CONFIGS_DIR (config_filename (dashboard_key u d)) in
  (forall p, open_ok w p = true) -> (forall p, rmtree_ok w p = true) ->
  host_config_path = container_config_path
  ∨ Os.under host_config_path container_config_path = false ->
  exists cfg,
    fs (create_dashboard' (CreateData (Some d) (Some u) (Some x) csv) w s).2
      !! container_config_path = Some (File (Json cfg))
    ∧ cfg_dashboard_id cfg = d ∧ cfg_user_id cfg = u
    ∧ cfg_description cfg = x.
Proof.
  intros Hd Hu Hx cpath hpath Ho Hr Hpaths.
  rewrite create_dashboard_eq by done. cbv zeta.
  destruct (provision_runs HOST_CONFIGS_DIR HOST_ENV_DIR d u x csv
              (dashboard_key u d) w
              (after_replace (dashboard_key u d) w s) Ho Hr)
    as (s3 & H3 & Hfile).
  specialize (Hfile Hpaths). fold cpath in Hfile. rewrite H3.
  exists (build_config d u x csv).1. split.
  - destruct (scan_ports _ _ _); [|done]. by destruct (run_result w).
  - pose proof (build_config_fields d u x csv) as (? & ? & ? & _). done.
Qed.

End Leftovers.

(** ** The properties above on concrete requests *)

Module ExMore.

(** A world in which the probe finds every port occupied. *)
Definition all_busy : world :=
  World (fun _ => true) (fun _ => true) (fun _ => true) (fun _ => true)
        (Some 9%nat) (fun _ => true) (fun _ => true).

(** As [Ex.calm], but [os.remove] raises. *)
Definition unlink_fails : world :=
  World (fun _ => false) (fun _ => true) (fun _ => true) (fun _ => false)
        (Some 9%nat) (fun _ => true) (fun _ => true).

Definition create_u1_d1 : create_data :=
  CreateData (Some "d1") (Some "u1") (Some "x") None.

Definition create_with_csv : create_data :=
  CreateData (Some "d1") (Some "u1") (Some "x") (Some "/data/in/x.csv").

Definition create_absolute : create_data :=
  CreateData (Some "d1") (Some "/tmp/x") (Some "x") None.

(** One dashboard, of user [u1]. *)
Definition one : state := Ex.after [(Ex.create "u1" "d1", Ex.calm 7%nat)].

(** Two dashboards whose keys differ and whose config files have one
    name. *)
Definition shared : state :=
  Ex.after [(Ex.create "a_b" "c", Ex.calm 7%nat);
            (Ex.create "a" "b_c", Ex.calm 8%nat)].

End ExMore.

Lemma list_dashboards_never_fails_witness :
  exists ds,
    list_dashboards (Some "u1") (Ex.calm 0%nat) ExMore.one
    = (Response (Dashboards ds) 200, ExMore.one).
Proof.
  destruct (list_dashboards_never_fails Ex.configs Ex.env ExMore.one "u1"
              (Ex.calm 0%nat)) as (ds & H & _).
  - apply Ex.after_reachable.
  - discriminate.
  - exists ds. exact H.
Defined.

Lemma index_agrees_with_route_witness :
  exists shown,
    index (Ex.calm 0%nat) ExMore.one
    = (Response (RunningDashboards shown) 200, ExMore.one)
    ∧ (("u1:d1", 8051) ∈ shown
       <-> route_dashboard "u1" "d1" (Ex.calm 0%nat) ExMore.one
           = (Response (Redirect 8051) 302, ExMore.one)).
Proof.
  destruct (index_agrees_with_route Ex.configs Ex.env ExMore.one
              (Ex.calm 0%nat)) as (shown & H & _ & Hroute).
  - apply Ex.after_reachable.
  - exists shown. split; [exact H|].
    destruct (Hroute "u1" "d1") as [Hp _]; [reflexivity | reflexivity |].
    apply (Hp 8051).
Defined.

Lemma create_then_route_witness :
  let out := create_dashboard Ex.configs Ex.env ExMore.create_u1_d1
               (Ex.calm 7%nat) Ex.init in
  route_dashboard "u1" "d1" (Ex.calm 0%nat) out.2
  = (Response (Redirect 8051) 302, out.2).
Proof.
  intros out.
  destruct (create_then_route Ex.configs Ex.env ExMore.create_u1_d1
              (Ex.calm 7%nat) (Ex.calm 0%nat) Ex.init out.2 8051 "u1:d1"
              "d1" "u1")
    as (_ & _ & H).
  - reflexivity.
  - reflexivity.
  - reflexivity.
  - reflexivity.
  - vm_compute. reflexivity.
  - exact H.
Defined.

Lemma remove_then_not_found_witness :
  let s' := (remove_dashboard Ex.configs (RemoveData (Some "d1") (Some "u1"))
               (Ex.stop_fails 0%nat) ExMore.one).2 in
  route_dashboard "u1" "d1" (Ex.calm 0%nat) s'
  = (Response ErrorNotFound 404, s')
  ∧ remove_dashboard Ex.configs (RemoveData (Some "d1") (Some "u1"))
      (Ex.calm 0%nat) s'
    = (Response ErrorNotFound 404, s').
Proof.
  apply (remove_then_not_found Ex.configs Ex.env "d1" "u1"
           (Ex.stop_fails 0%nat) (Ex.calm 0%nat) ExMore.one).
  - apply Ex.after_reachable.
  - discriminate.
  - discriminate.
Defined.

Lemma handle_keeps_other_keys_witness :
  PyDict.get "u1:d1"
    (dashboard_containers
       (handle Ex.configs Ex.env (Ex.create "u2" "d2") Ex.run_fails
               ExMore.one).2)
  = PyDict.get "u1:d1" (dashboard_containers ExMore.one).
Proof.
  apply (handle_keeps_other_keys Ex.configs Ex.env (Ex.create "u2" "d2")
           Ex.run_fails ExMore.one "u1:d1").
  vm_compute. discriminate.
Defined.

Lemma registry_capacity_witness :
  (List.length (dashboard_containers ExMore.one) <= 50)%nat.
Proof.
  apply (registry_capacity Ex.configs Ex.env ExMore.one).
  apply Ex.after_reachable.
Defined.

Lemma create_without_free_port_witness :
  exists s',
    create_dashboard Ex.configs Ex.env ExMore.create_u1_d1 ExMore.all_busy
      Ex.init
    = (Response (ErrorException NoFreePorts) 500, s')
    ∧ docker s' = [].
Proof.
  destruct (create_without_free_port Ex.configs Ex.env "d1" "u1" "x" None
              ExMore.all_busy Ex.init) as (e & s' & H & _ & Hk & He).
  - discriminate.
  - discriminate.
  - discriminate.
  - intros q _. left. reflexivity.
  - exists s'. rewrite He in H by reflexivity. split; [exact H | exact Hk].
Defined.

Lemma create_succeeds_witness :
  exists p s',
    create_dashboard Ex.configs Ex.env ExMore.create_u1_d1 (Ex.calm 7%nat)
      Ex.init
    = (Response (DashboardCreated p "u1:d1") 200, s')
    ∧ 8051 <= p <= 8051.
Proof.
  destruct (create_succeeds Ex.configs Ex.env "d1" "u1" "x" None
              (Ex.calm 7%nat) Ex.init 7%nat 8051)
    as (p & s' & H & Hp & _).
  - discriminate.
  - discriminate.
  - discriminate.
  - reflexivity.
  - reflexivity.
  - reflexivity.
  - lia.
  - reflexivity.
  - apply not_elem_of_nil.
  - exists p, s'. split; [exact H | exact Hp].
Defined.

Lemma removed_port_is_reused_witness :
  let s1 := (remove_dashboard Ex.configs (RemoveData (Some "d1") (Some "u1"))
               (Ex.calm 0%nat) ExMore.one).2 in
  let out := create_dashboard Ex.configs Ex.env
               (CreateData (Some "d2") (Some "u2") (Some "x") None)
               (Ex.calm 8%nat) s1 in
  out.1 = Response (DashboardCreated 8051 "u2:d2") 200
  ∧ 8051 <= port (Info 8051 7%nat "u1" "d1").
Proof.
  intros s1 out. split; [vm_compute; reflexivity|].
  apply (removed_port_is_reused Ex.configs Ex.env "d1" "u1"
           (CreateData (Some "d2") (Some "u2") (Some "x") None)
           (Ex.calm 0%nat) (Ex.calm 8%nat) ExMore.one out.2
           (Info 8051 7%nat "u1" "d1") 8051 "u2:d2").
  - apply Ex.after_reachable.
  - discriminate.
  - discriminate.
  - vm_compute. reflexivity.
  - reflexivity.
  - vm_compute. reflexivity.
Defined.

Lemma remove_success_witness :
  let out := remove_dashboard Ex.configs (RemoveData (Some "d1") (Some "u1"))
               (Ex.calm 0%nat) ExMore.one in
  PyDict.get "u1:d1" (dashboard_containers out.2) = None
  ∧ fs out.2 = delete "/app/configs/u1_d1.json" (fs ExMore.one).
Proof.
  intros out.
  destruct (remove_success Ex.configs Ex.env
              (RemoveData (Some "d1") (Some "u1"))
              (Ex.calm 0%nat) ExMore.one out.2 "d1" "u1")
    as (i & _ & _ & _ & Hn & _ & Hf).
  - apply Ex.after_reachable.
  - vm_compute. reflexivity.
  - split; [exact Hn | exact Hf].
Defined.

Lemma remove_unlink_failure_witness :
  exists s',
    remove_dashboard Ex.configs (RemoveData (Some "d1") (Some "u1"))
      ExMore.unlink_fails ExMore.one
    = (Response InternalServerError 500, s')
    ∧ dashboard_containers s' = PyDict.pop "u1:d1" (dashboard_containers ExMore.one).
Proof.
  destruct (remove_unlink_failure Ex.configs "d1" "u1" ExMore.unlink_fails
              ExMore.one (Info 8051 7%nat "u1" "d1"))
    as (s' & H & Hreg & _).
  - discriminate.
  - discriminate.
  - vm_compute. reflexivity.
  - reflexivity.
  - reflexivity.
  - vm_compute. reflexivity.
  - left. reflexivity.
  - exists s'. split; [exact H | exact Hreg].
Defined.

Lemma handlers_touch_only_their_files_witness :
  fs (create_dashboard Ex.configs Ex.env ExMore.create_u1_d1 (Ex.calm 7%nat)
        Ex.init).2 !! "/etc/passwd"
  = fs Ex.init !! "/etc/passwd"
  ∧ fs (remove_dashboard Ex.configs (RemoveData (Some "d1") (Some "u1"))
          (Ex.calm 0%nat) ExMore.one).2 !! "/app/env/extra.env"
    = fs ExMore.one !! "/app/env/extra.env".
Proof.
  split.
  - destruct (handlers_touch_only_their_files Ex.configs Ex.env "d1" "u1" "x"
                None (Ex.calm 7%nat) Ex.init "/etc/passwd") as [H _].
    + discriminate.
    + discriminate.
    + discriminate.
    + apply H.
      * vm_compute. reflexivity.
      * vm_compute. reflexivity.
      * vm_compute. discriminate.
  - destruct (handlers_touch_only_their_files Ex.configs Ex.env "d1" "u1" "x"
                None (Ex.calm 0%nat) ExMore.one "/app/env/extra.env")
      as [_ H].
    + discriminate.
    + discriminate.
    + discriminate.
    + apply H. vm_compute. discriminate.
Defined.

Lemma create_writes_config_witness :
  let out := create_dashboard Ex.configs Ex.env ExMore.create_with_csv
               (Ex.calm 7%nat) Ex.init in
  exists cfg,
    fs out.2 !! "/app/configs/u1_d1.json" = Some (File (Json cfg))
    ∧ cfg_csv_path cfg = Some "/data/csvs/x.csv".
Proof.
  intros out.
  destruct (create_writes_config Ex.configs Ex.env ExMore.create_with_csv
              (Ex.calm 7%nat) Ex.init out.2 8051 "u1:d1")
    as (cfg & Hf & _ & _ & _ & Hcsv & _).
  - left. reflexivity.
  - vm_compute. reflexivity.
  - exists cfg. split; [exact Hf|].
    apply (Hcsv "/data/in/x.csv"); [reflexivity | discriminate].
Defined.

Lemma create_mounts_witness :
  let out := create_dashboard Ex.configs Ex.env ExMore.create_with_csv
               (Ex.calm 7%nat) Ex.init in
  exists c vols before,
    docker out.2 = (before ++ [EvRun "vizro-dashboard" 8051 vols (Some c)])%list
    ∧ Volume "/data/in/x.csv" "/data/csvs/x.csv" "ro" ∈ vols.
Proof.
  intros out.
  destruct (create_mounts Ex.configs Ex.env ExMore.create_with_csv
              (Ex.calm 7%nat) Ex.init out.2 8051 "u1:d1")
    as (c & vols & before & Hd & _ & _ & Hcsv & _).
  - vm_compute. reflexivity.
  - exists c, vols, before. split; [exact Hd|].
    apply (Hcsv "/data/in/x.csv"); [reflexivity | discriminate].
Defined.

Lemma docker_calls_in_order_witness :
  let s := Ex.after [(Ex.create "u1" "d1", Ex.calm 7%nat);
                     (Ex.remove "u1" "d1", Ex.calm 0%nat)] in
  exists l,
    [EvRun "vizro-dashboard" 8051
       [Volume "/app/configs/u1_d1.json" "/config/dashboard_config.json" "ro";
        Volume "/app/env/extra.env" "/config/extra.env" "ro"] (Some 7%nat);
     EvStop 7%nat true]
    = (l ++ [EvStop 7%nat true])%list.
Proof.
  intros s.
  apply (docker_calls_in_order Ex.configs Ex.env s _ [] (EvRemove 7%nat true)).
  - apply Ex.after_reachable.
  - vm_compute. reflexivity.
Defined.

Lemma create_with_absolute_user_id_witness :
  let out := create_dashboard Ex.configs Ex.env ExMore.create_absolute
               (Ex.calm 7%nat) Ex.init in
  exists cfg, fs out.2 !! "/tmp/x_d1.json" = Some (File (Json cfg)).
Proof.
  intros out.
  destruct (create_with_absolute_user_id Ex.configs Ex.env
              ExMore.create_absolute (Ex.calm 7%nat) Ex.init out.2 8051
              "/tmp/x:d1" "/tmp/x")
    as (cfg & d & Hd & Hf & _).
  - reflexivity.
  - reflexivity.
  - vm_compute. reflexivity.
  - injection Hd as <-. exists cfg. exact Hf.
Defined.

Lemma remove_deletes_shared_config_witness :
  let out := remove_dashboard Ex.configs (RemoveData (Some "b_c") (Some "a"))
               (Ex.calm 0%nat) ExMore.shared in
  PyDict.get "a_b:c" (dashboard_containers out.2)
  = Some (Info 8051 7%nat "a_b" "c")
  ∧ fs out.2 !! "/app/configs/a_b_c.json" = None.
Proof.
  intros out.
  apply (remove_deletes_shared_config Ex.configs "c" "a_b" "b_c" "a"
           (Ex.calm 0%nat) ExMore.shared out.2 (Info 8051 7%nat "a_b" "c")).
  - discriminate.
  - reflexivity.
  - vm_compute. reflexivity.
  - vm_compute. reflexivity.
Defined.

Lemma create_leaves_config_witness :
  exists cfg,
    fs (create_dashboard Ex.configs Ex.env ExMore.create_u1_d1 Ex.run_fails
          Ex.init).2 !! "/app/configs/u1_d1.json"
    = Some (File (Json cfg))
    ∧ status (create_dashboard Ex.configs Ex.env ExMore.create_u1_d1
                Ex.run_fails Ex.init).1 = 500.
Proof.
  destruct (create_leaves_config Ex.configs Ex.env "d1" "u1" "x" None
              Ex.run_fails Ex.init) as (cfg & Hf & _).
  - discriminate.
  - discriminate.
  - discriminate.
  - reflexivity.
  - reflexivity.
  - left. reflexivity.
  - exists cfg. split; [exact Hf | reflexivity].
Defined.

Lemma list_dashboards_colon_free_witness :
  list_dashboards (Some "u1") (Ex.calm 0%nat) ExMore.one
  = (Response (Dashboards [("d1", 8051)]) 200, ExMore.one).
Proof.
  assert (dashboard_containers ExMore.one
          = [("u1:d1", Info 8051 7%nat "u1" "d1")]) as E
    by (vm_compute; reflexivity).
  rewrite (list_dashboards_colon_free Ex.configs Ex.env "u1" (Ex.calm 0%nat)
             ExMore.one).
  - rewrite E. reflexivity.
  - apply Ex.after_reachable.
  - discriminate.
  - intros k i Hin. rewrite E in Hin.
    apply list_elem_of_singleton in Hin. injection Hin as -> ->.
    split; reflexivity.
Defined.
